(** * The PAI validation loop (scripts/validation/validation-loop.py)

    A shallow embedding of [ValidationLoop]: the retry loop around a task
    function and a validation function, its failure analysis, its fix
    suggestions, its cross-attempt gaming detection and its summary.

    Conventions of the embedding.
    - Python [int] is [Z]; Python [str] is [string]; a [List[str]] is a
      [list string]; [Optional[X]] is [option X]; a [dict] keyed by strings
      is a [gmap string _].
    - Python [float] (the gaming score, the clock, the durations) is read
      as an exact rational [Q].  The constants 0.2, 0.1 and 0.5 are the
      rationals 2/10, 1/10 and 5/10.  Module [Binary64] replays the
      additions and threshold comparisons of the gaming detector on IEEE
      binary64 and checks that both readings print the same warnings.
    - Lists and strings are immutable values: a result stored in the
      history keeps the errors it was stored with.
    - The mutable [ValidationLoop] object is a record threaded through the
      methods; the two callables and the clock act on an abstract world
      [W], threaded the same way.
    - [Raise msg] stands for an exception of class [Exception] whose
      [str(e)] is [msg], the class the loop's handler names.  Module
      [Signals] embeds the loop once more for callables that raise any
      exception, also one outside that class or one whose [str] raises.
      Callables that do not return are not represented.

    -------------------------------------------------------------------- *)

From Stdlib Require Import Ascii QArith Qround Lqa.
From Stdlib Require PrimFloat.
From stdpp Require Import gmap strings list pretty.

Local Open Scope string_scope.
Local Open Scope Z_scope.
Local Open Scope list_scope.

(** ** Data model *)

(** [class ValidationProtocol(Enum)] *)
Inductive ValidationProtocol : Type :=
  | NLNH
  | DGTS
  | ZERO_TOLERANCE
  | DOC_TDD
  | ANTIHALL
  | E2E.

#[global] Instance ValidationProtocol_eq_dec : EqDecision ValidationProtocol.
Proof. solve_decision. Defined.

(** The [.value] of an enum member. *)
Definition value (p : ValidationProtocol) : string :=
  match p with
  | NLNH => "NLNH"
  | DGTS => "DGTS"
  | ZERO_TOLERANCE => "ZeroTolerance"
  | DOC_TDD => "DocumentationDrivenTDD"
  | ANTIHALL => "AntiHall"
  | E2E => "E2E"
  end.

(** [@dataclass ValidationResult] *)
Record ValidationResult : Type := mkResult {
  passed : bool;
  protocol : option ValidationProtocol;
  message : string;
  errors : list string;
  suggestions : list string;
  attempt : Z;
  duration : Q
}.

(** [@dataclass ValidationLoopConfig], with its defaults. *)
Record ValidationLoopConfig : Type := mkConfig {
  max_retries : Z;
  enable_gaming_detection : bool;
  enable_intelligent_fixes : bool;
  log_file : option string;
  verbose : bool
}.

Definition default_config : ValidationLoopConfig :=
  {| max_retries := 3;
     enable_gaming_detection := true;
     enable_intelligent_fixes := true;
     log_file := None;
     verbose := false |}.

(** The attributes of a [ValidationLoop] instance. *)
Record ValidationLoop : Type := mkLoop {
  config : ValidationLoopConfig;
  history : list ValidationResult;
  gaming_score : Q
}.

(** [ValidationLoop.__init__] *)
Definition init (cfg : option ValidationLoopConfig) : ValidationLoop :=
  {| config := default default_config cfg;
     history := [];
     gaming_score := 0 |}.

(** ** Strings: [in], [lower], [join] *)

(** [c.lower()] on the ASCII range. *)
Definition lower_ascii (c : ascii) : ascii :=
  let n := nat_of_ascii c in
  if ((65 <=? n)%nat && (n <=? 90)%nat)%bool then ascii_of_nat (n + 32) else c.

Fixpoint lower (s : string) : string :=
  match s with
  | EmptyString => EmptyString
  | String c s' => String (lower_ascii c) (lower s')
  end.

(** [needle in hay] for strings: some suffix of [hay] starts with
    [needle]. *)
Fixpoint str_in (needle hay : string) : bool :=
  if String.prefix needle hay then true
  else match hay with
       | EmptyString => false
       | String _ hay' => str_in needle hay'
       end.

(** [" ".join(errors).lower()] *)
Definition errors_str (result : ValidationResult) : string :=
  lower (String.concat " " (errors result)).

(** ** Failure analysis *)

(** The [analysis] dictionary of [_analyze_failure]; its four keys are
    fixed, so it is a record. *)
Record Analysis : Type := mkAnalysis {
  analysis_protocol : string;
  error_count : Z;
  primary_cause : string;
  severity : string
}.

Definition set_cause (a : Analysis) (cause sev : string) : Analysis :=
  {| analysis_protocol := analysis_protocol a;
     error_count := error_count a;
     primary_cause := cause;
     severity := sev |}.

(** [ValidationLoop._analyze_failure] *)
Definition _analyze_failure (result : ValidationResult) : Analysis :=
  let analysis :=
    {| analysis_protocol :=
         match protocol result with Some p => value p | None => "Unknown" end;
       error_count := Z.of_nat (length (errors result));
       primary_cause := "Unknown";
       severity := "Medium" |} in
  match protocol result with
  | None => analysis
  | Some NLNH => set_cause analysis "Truth/confidence violation" "High"
  | Some DGTS => set_cause analysis "Gaming pattern detected" "Critical"
  | Some ZERO_TOLERANCE =>
      let errors_str := errors_str result in
      if str_in "console.log" errors_str then
        set_cause analysis "Console.log statements" "High"
      else if (str_in "typescript" errors_str || str_in "type error" errors_str)%bool then
        set_cause analysis "TypeScript errors" "High"
      else if str_in "eslint" errors_str then
        set_cause analysis "ESLint violations" "Medium"
      else analysis
  | Some DOC_TDD => set_cause analysis "Tests don't match documentation" "High"
  | Some ANTIHALL => set_cause analysis "Code doesn't exist in codebase" "Critical"
  | Some E2E => set_cause analysis "End-to-end test failures" "High"
  end.

(** ** Fix suggestions *)

(** [ValidationLoop._generate_fix_suggestions]; [suggestions] starts empty
    and is extended in source order. *)
Definition _generate_fix_suggestions
    (result : ValidationResult) (analysis : Analysis) : list string :=
  match protocol result with
  | None => ["Run full validation to identify specific protocol failure"]
  | Some NLNH =>
      [ "Increase confidence score by citing sources";
        "Replace assumptions with verified facts";
        "Add explicit 'I don't know' statements where uncertain";
        "Remove superlatives and overconfident language" ]
  | Some DGTS =>
      [ "Remove mock data returns - implement real functionality";
        "Replace 'assert True' with meaningful assertions";
        "Uncomment validation rules that were disabled";
        "Remove 'if False' disabled code blocks";
        "Implement actual logic instead of TODO/pass stubs" ]
  | Some ZERO_TOLERANCE =>
      let errors_str := errors_str result in
      (if str_in "console.log" errors_str then
         [ "Replace console.log with proper logging: import { log } from '@/lib/logger'";
           "Remove all console.* statements (console.log, console.error, console.warn)" ]
       else [])
      ++ (if (str_in "typescript" errors_str || str_in "type error" errors_str)%bool then
            [ "Fix TypeScript type errors - run: npx tsc --noEmit";
              "Add explicit types for all parameters and return values";
              "Remove 'any' types and use proper typing" ]
          else [])
      ++ (if str_in "eslint" errors_str then
            [ "Run ESLint auto-fix: npx eslint . --fix";
              "Fix remaining ESLint errors manually" ]
          else [])
      ++ (if (str_in "catch" errors_str || str_in "error" errors_str)%bool then
            [ "Add error parameter to catch blocks: catch (error: unknown)";
              "Remove void error anti-patterns" ]
          else [])
  | Some DOC_TDD =>
      [ "Create tests from PRD/PRP/ADR documentation first";
        "Map each requirement to a testable acceptance criterion";
        "Implement code to pass documentation-derived tests";
        "Verify test coverage matches all documented requirements" ]
  | Some ANTIHALL =>
      [ "Verify the code/method exists in codebase before referencing";
        "Run: npm run antihall:check '<code snippet>'";
        "Use antihall:find to discover correct naming";
        "Check actual implementation, don't assume it exists" ]
  | Some E2E =>
      [ "Review Playwright test failures and screenshots";
        "Fix UI bugs identified in E2E tests";
        "Update selectors if DOM structure changed";
        "Run tests in headed mode for debugging: npx playwright test --headed" ]
  end.

(** ** Gaming detection across retries *)

(** What the loop does that can be observed from outside: the calls it
    makes to its two callables, the pause between attempts, and the three
    messages of the gaming detector, each with the score it prints.  The
    banner and progress messages carry no state and are left out. *)
Inductive event : Type :=
  | CallTask
  | CallValidation
  | Sleep
  | IdenticalErrors (score : Q)
  | ProtocolSwitching (score : Q)
  | HighGamingScore (score : Q).

Definition is_call_task (e : event) : bool :=
  match e with CallTask => true | _ => false end.

Definition is_high_gaming (e : event) : bool :=
  match e with HighGamingScore _ => true | _ => false end.

(** [self.gaming_score += d] *)
Definition add_score (self : ValidationLoop) (d : Q) : ValidationLoop :=
  {| config := config self;
     history := history self;
     gaming_score := (gaming_score self + d)%Q |}.

(** [self.history.append(result)] *)
Definition append_history (self : ValidationLoop) (result : ValidationResult) : ValidationLoop :=
  {| config := config self;
     history := history self ++ [result];
     gaming_score := gaming_score self |}.

(** [ValidationLoop._detect_gaming_in_retry]: the updated object and the
    messages printed, in order. *)
Definition _detect_gaming_in_retry
    (self : ValidationLoop) (result : ValidationResult) : ValidationLoop * list event :=
  let '(self, out) :=
    match last (history self) with
    | Some prev_result =>
        let '(self, out) :=
          if bool_decide (errors prev_result = errors result) then
            let self := add_score self (2 # 10) in
            (self, [IdenticalErrors (gaming_score self)])
          else (self, []) in
        if bool_decide (protocol prev_result ≠ protocol result) then
          let self := add_score self (1 # 10) in
          (self, out ++ [ProtocolSwitching (gaming_score self)])
        else (self, out)
    | None => (self, [])
    end in
  if Qlt_le_dec (5 # 10) (gaming_score self) then
    (self, out ++ [HighGamingScore (gaming_score self)])
  else (self, out).

(** ** The retry loop *)

(** The outcome of calling Python code: a value, or an exception with its
    [str(e)]. *)
Inductive py_result (A : Type) : Type :=
  | Ok (a : A)
  | Raise (msg : string).
Arguments Ok {A} a.
Arguments Raise {A} msg.

Section Execute.

(** The world outside the loop, the result type of the task, and the
    stateful callables [task_func], [validation_func], [time.time] and
    [time.sleep]. *)
Context {W T : Type}.
Variable task_func : W → py_result T * W.
Variable validation_func : T → W → py_result ValidationResult * W.
Variable time_time : W → Q * W.
Variable time_sleep : Q → W → W.

(** The loop object, the world and the trace of events so far. *)
Record Run : Type := mkRun {
  self : ValidationLoop;
  world : W;
  out : list event
}.

(** Lines 106 and 110: [task_func()] and then [validation_func] on its
    result; an exception of either leaves the [try] block. *)
Definition call_task_and_validation (w : W) : py_result ValidationResult * W * list event :=
  match task_func w with
  | (Raise e, w) => (Raise e, w, [CallTask])
  | (Ok task_result, w) =>
      let '(r, w) := validation_func task_result w in
      (r, w, [CallTask; CallValidation])
  end.

(** The result built when validation passed (lines 117-125). *)
Definition passed_result (validation_result : ValidationResult) (attempt : Z) (duration : Q)
    : ValidationResult :=
  {| passed := true;
     protocol := protocol validation_result;
     message := "Validation passed on attempt " +:+ pretty attempt;
     errors := [];
     suggestions := [];
     attempt := attempt;
     duration := duration |}.

(** The result stored when validation failed (lines 152-160). *)
Definition failed_result (validation_result : ValidationResult) (suggestions : list string)
    (attempt : Z) (duration : Q) : ValidationResult :=
  {| passed := false;
     protocol := protocol validation_result;
     message := message validation_result;
     errors := errors validation_result;
     suggestions := suggestions;
     attempt := attempt;
     duration := duration |}.

(** The result built by the exception handler (lines 177-185). *)
Definition exception_result (e : string) (attempt : Z) (duration : Q) : ValidationResult :=
  {| passed := false;
     protocol := None;
     message := "Exception during execution: " +:+ e;
     errors := [e];
     suggestions := ["Check logs for detailed error trace"; "Verify task function is correct"];
     attempt := attempt;
     duration := duration |}.

(** One iteration of [for attempt in range(1, max_retries + 1)].  The
    first component is [Some result] when the iteration executes
    [return result] and [None] when the loop goes on. *)
Definition attempt_body (attempt : Z) (r : Run) : option ValidationResult * Run :=
  let '(start_time, w) := time_time (world r) in
  let '(tried, w, calls) := call_task_and_validation w in
  let '(now, w) := time_time w in
  let duration := (now - start_time)%Q in
  let out := out r ++ calls in
  match tried with
  | Ok validation_result =>
      if passed validation_result then
        let result := passed_result validation_result attempt duration in
        (Some result, mkRun (append_history (self r) result) w out)
      else
        let analysis := _analyze_failure validation_result in
        let '(self, printed) :=
          if ((1 <? attempt) && enable_gaming_detection (config (self r)))%bool then
            _detect_gaming_in_retry (self r) validation_result
          else (self r, []) in
        let suggestions := _generate_fix_suggestions validation_result analysis in
        let result := failed_result validation_result suggestions attempt duration in
        let self := append_history self result in
        if attempt <? max_retries (config self) then
          (None, mkRun self (time_sleep (1 # 2) w) (out ++ printed ++ [Sleep]))
        else
          (Some result, mkRun self w (out ++ printed))
  | Raise e =>
      let result := exception_result e attempt duration in
      let self := append_history (self r) result in
      if max_retries (config self) <=? attempt then
        (Some result, mkRun self w out)
      else
        (None, mkRun self w out)
  end.

(** The [for] loop over the attempt numbers still to run. *)
Fixpoint for_attempts (attempts : list Z) (r : Run) : option ValidationResult * Run :=
  match attempts with
  | [] => (None, r)
  | attempt :: attempts =>
      match attempt_body attempt r with
      | (Some result, r) => (Some result, r)
      | (None, r) => for_attempts attempts r
      end
  end.

(** [range(lo, hi)]: the integers from [lo] up to [hi - 1]. *)
Definition py_range (lo hi : Z) : list Z := seqZ lo (hi - lo).

(** [ValidationLoop.execute].  When the loop runs out without returning,
    line 193 returns [self.history[-1]], which raises [IndexError] on an
    empty history. *)
Definition execute (r : Run) : py_result ValidationResult * Run :=
  match for_attempts (py_range 1 (max_retries (config (self r)) + 1)) r with
  | (Some result, r) => (Ok result, r)
  | (None, r) =>
      match last (history (self r)) with
      | Some result => (Ok result, r)
      | None => (Raise "list index out of range", r)
      end
  end.

End Execute.

Arguments mkRun {W} self world out.
Arguments self {W} r.
Arguments world {W} r.
Arguments out {W} r.

(** ** Summary *)

(** [sum] over integers and over floats, from the left, starting at 0. *)
Definition py_sum_Z (l : list Z) : Z := foldl Z.add 0 l.
Definition py_sum_Q (l : list Q) : Q := foldl Qplus 0%Q l.

(** Nearest integer, ties to the even one. *)
Definition round_half_even (q : Q) : Z :=
  let f := Qfloor q in
  match (q - inject_Z f ?= 1 # 2)%Q with
  | Lt => f
  | Gt => f + 1
  | Eq => if Z.even f then f else f + 1
  end.

(** [round(q, 2)] *)
Definition py_round_2 (q : Q) : Q :=
  Qmake (round_half_even (q * 100)) 100.

(** The dictionary returned by [get_summary]; its keys are fixed. *)
Record Summary : Type := mkSummary {
  summary_total_attempts : Z;
  summary_passed : Z;
  summary_failed : Z;
  summary_total_duration : Q;
  summary_gaming_score : Q;
  summary_protocols_failed : gmap string Z;
  summary_final_status : string
}.

(** One step of the loop that fills [protocols_failed] (lines 350-353). *)
Definition count_protocol_failure (protocols_failed : gmap string Z) (result : ValidationResult)
    : gmap string Z :=
  match protocol result with
  | Some p =>
      if negb (passed result) then
        let proto := value p in
        <[proto := default 0 (protocols_failed !! proto) + 1]> protocols_failed
      else protocols_failed
  | None => protocols_failed
  end.

(** [ValidationLoop.get_summary] *)
Definition get_summary (self : ValidationLoop) : Summary :=
  let total_attempts := Z.of_nat (length (history self)) in
  let n_passed := py_sum_Z ((λ _, 1) <$> filter (λ r, passed r = true) (history self)) in
  let failed := total_attempts - n_passed in
  let total_duration := py_sum_Q (duration <$> history self) in
  let protocols_failed := foldl count_protocol_failure ∅ (history self) in
  {| summary_total_attempts := total_attempts;
     summary_passed := n_passed;
     summary_failed := failed;
     summary_total_duration := py_round_2 total_duration;
     summary_gaming_score := py_round_2 (gaming_score self);
     summary_protocols_failed := protocols_failed;
     summary_final_status :=
       match last (history self) with
       | Some result => if passed result then "PASSED" else "FAILED"
       | None => "FAILED"
       end |}.

(** ** Reading the analysis and the summary *)

(** The pair the failure analysis is read for. *)
Definition cause_severity (a : Analysis) : string * string :=
  (primary_cause a, severity a).

(** The lookup table on protocol tags, as the specification words it. *)
Definition protocol_table (p : option ValidationProtocol) : string * string :=
  match p with
  | None => ("Unknown", "Medium")
  | Some NLNH => ("Truth/confidence violation", "High")
  | Some DGTS => ("Gaming pattern detected", "Critical")
  | Some ZERO_TOLERANCE => ("Unknown", "Medium")
  | Some DOC_TDD => ("Tests don't match documentation", "High")
  | Some ANTIHALL => ("Code doesn't exist in codebase", "Critical")
  | Some E2E => ("End-to-end test failures", "High")
  end.

(** The refinement of the ZeroTolerance entry by the text of the errors:
    the first keyword found decides. *)
Definition zero_tolerance_cause (errors_str : string) : string * string :=
  if str_in "console.log" errors_str then ("Console.log statements", "High")
  else if str_in "typescript" errors_str then ("TypeScript errors", "High")
  else if str_in "type error" errors_str then ("TypeScript errors", "High")
  else if str_in "eslint" errors_str then ("ESLint violations", "Medium")
  else protocol_table (Some ZERO_TOLERANCE).

(** Whether the error text holds one of the keywords the ZeroTolerance
    suggestions are keyed on. *)
Definition zero_tolerance_keyword (errors_str : string) : bool :=
  (str_in "console.log" errors_str
   || str_in "typescript" errors_str || str_in "type error" errors_str
   || str_in "eslint" errors_str
   || str_in "catch" errors_str || str_in "error" errors_str)%bool.

(** The failing attempts of a history tagged with protocol [p]. *)
Definition failures_of (p : ValidationProtocol) (h : list ValidationResult) : list ValidationResult :=
  filter (λ r, passed r = false ∧ protocol r = Some p) h.

(** ** The gaming score on IEEE binary64

    The detector adds 0.2, 0.1, or 0.2 and then 0.1 to the score and
    compares it with 0.5.  Both are replayed here on binary64 numbers, the
    values a Python [float] has, next to the rational reading used in the
    rest of the development. *)
Module Binary64.

Import PrimFloat.
Set Warnings "-inexact-float".

(** What one run of the detector found. *)
Inductive finding : Type :=
  | Identical
  | Switched
  | IdenticalAndSwitched.

Definition add_float (score : float) (f : finding) : float :=
  match f with
  | Identical => (score + 0.2)%float
  | Switched => (score + 0.1)%float
  | IdenticalAndSwitched => (score + 0.2 + 0.1)%float
  end.

Definition add_Q (score : Q) (f : finding) : Q :=
  match f with
  | Identical => (score + (2 # 10))%Q
  | Switched => (score + (1 # 10))%Q
  | IdenticalAndSwitched => (score + (2 # 10) + (1 # 10))%Q
  end.

(** The score of a fresh loop, and the literal [0.4]. *)
Definition fresh_score : float := 0%float.
Definition literal_0_4 : float := 0.4%float.

(** The score after [n] findings of identical errors. *)
Definition after_identical (n : nat) : float :=
  Nat.iter n (λ score, add_float score Identical) fresh_score.

(** [self.gaming_score > 0.5] in both readings. *)
Definition warns_float (score : float) : bool := (0.5 <? score)%float.
Definition warns_Q (score : Q) : bool := if Qlt_le_dec (5 # 10) score then true else false.

(** Whether the two readings print the same warnings along every
    sequence of at most [depth] findings from the given scores. *)
Fixpoint warnings_agree (depth : nat) (score_float : float) (score_Q : Q) : bool :=
  (Bool.eqb (warns_float score_float) (warns_Q score_Q)
   && match depth with
      | O => true
      | S depth =>
          forallb (λ f, warnings_agree depth (add_float score_float f) (add_Q score_Q f))
            [Identical; Switched; IdenticalAndSwitched]
      end)%bool.

(** The same, as a lower bound: whether every sequence of exactly [depth]
    findings ends at a score above the threshold in both readings. *)
Fixpoint all_above (depth : nat) (score_float : float) (score_Q : Q) : bool :=
  match depth with
  | O => (warns_float score_float && warns_Q score_Q)%bool
  | S depth =>
      forallb (λ f, all_above depth (add_float score_float f) (add_Q score_Q f))
        [Identical; Switched; IdenticalAndSwitched]
  end.

Set Warnings "+inexact-float".

End Binary64.

(** ** Runs of the loop *)

(** The amount the detector adds to the score when [prev] is the last
    stored result and [result] the failing one at hand. *)
Definition gaming_increment (prev result : ValidationResult) : Q :=
  ((if bool_decide (errors prev = errors result) then 2 # 10 else 0)
   + (if bool_decide (protocol prev ≠ protocol result) then 1 # 10 else 0))%Q.

(** The events of a trace that are not calls or pauses: the messages of
    the gaming detector. *)
Definition is_detector_message (e : event) : bool :=
  match e with
  | CallTask | CallValidation | Sleep => false
  | _ => true
  end.

Definition detector_messages (evs : list event) : list event :=
  List.filter is_detector_message evs.

(** How often a trace calls the task function, and how often it prints
    the high-gaming-score warning. *)
Definition task_calls (evs : list event) : nat :=
  length (List.filter is_call_task evs).

Definition high_gaming_warnings (evs : list event) : nat :=
  length (List.filter is_high_gaming evs).

(** A loop just constructed with configuration [cfg], in world [w], with
    nothing observed yet. *)
Definition fresh_run {W : Type} (cfg : ValidationLoopConfig) (w : W) : Run :=
  mkRun (init (Some cfg)) w [].

Section Runs.

Context {W T : Type}.
Variable task_func : W → py_result T * W.
Variable validation_func : T → W → py_result ValidationResult * W.
Variable time_time : W → Q * W.
Variable time_sleep : Q → W → W.

Abbreviation body := (attempt_body task_func validation_func time_time time_sleep).
Abbreviation loop := (for_attempts task_func validation_func time_time time_sleep).
Abbreviation exec := (execute task_func validation_func time_time time_sleep).
Abbreviation try_calls := (call_task_and_validation task_func validation_func).

(** What the callables answer in the attempt that starts in run [r]. *)
Definition attempt_outcome (r : Run) : py_result ValidationResult :=
  (try_calls (time_time (world r)).2).1.1.

(** Whether that answer is a passing validation. *)
Definition attempt_passes (r : Run) : bool :=
  match attempt_outcome r with
  | Ok validation_result => passed validation_result
  | Raise _ => false
  end.

(** The duration measured for the attempt that starts in run [r]. *)
Definition attempt_duration (r : Run) : Q :=
  let '(start_time, w) := time_time (world r) in
  let '(_, w, _) := try_calls w in
  let '(now, _) := time_time w in
  (now - start_time)%Q.

(** The result the attempt numbered [attempt] stores when it starts in
    run [r]. *)
Definition attempt_record (attempt : Z) (r : Run) : ValidationResult :=
  match attempt_outcome r with
  | Ok validation_result =>
      if passed validation_result then
        passed_result validation_result attempt (attempt_duration r)
      else
        failed_result validation_result
          (_generate_fix_suggestions validation_result (_analyze_failure validation_result))
          attempt (attempt_duration r)
  | Raise e => exception_result e attempt (attempt_duration r)
  end.

(** The validation result handed to the gaming detector in the attempt
    numbered [attempt], when the detector runs at all: validation failed,
    the attempt is not the first, and detection is enabled. *)
Definition detector_runs (attempt : Z) (r : Run) : option ValidationResult :=
  match attempt_outcome r with
  | Ok validation_result =>
      if passed validation_result then None
      else if ((1 <? attempt) && enable_gaming_detection (config (self r)))%bool
      then Some validation_result else None
  | Raise _ => None
  end.

(** The run after the attempt numbered [attempt]. *)
Definition after_attempt (attempt : Z) (r : Run) : Run := (body attempt r).2.

(** The run after [k] consecutive attempts numbered from [first]. *)
Fixpoint run_attempts (first : Z) (k : nat) (r : Run) : Run :=
  match k with
  | O => r
  | S k' => after_attempt (first + Z.of_nat k') (run_attempts first k' r)
  end.

End Runs.

(** ** A scripted environment

    A world whose callables follow a script: the world is the number of
    attempts made so far, the script says what attempt [n] does, and the
    clock advances by [tick] seconds per attempt. *)
Module Scripted.

Inductive step : Type :=
  | TaskRaises (msg : string)
  | ValidationRaises (msg : string)
  | Validates (result : ValidationResult).

Definition script : Type := list step.

Definition at_attempt (s : script) (n : nat) : step :=
  nth n s (TaskRaises "script exhausted").

Definition task_func (s : script) (w : nat) : py_result nat * nat :=
  match at_attempt s w with
  | TaskRaises msg => (Raise msg, S w)
  | _ => (Ok w, w)
  end.

Definition validation_func (s : script) (task_result : nat) (w : nat)
    : py_result ValidationResult * nat :=
  match at_attempt s w with
  | TaskRaises msg => (Raise msg, S w)
  | ValidationRaises msg => (Raise msg, S w)
  | Validates result => (Ok result, S w)
  end.

Definition time_time (tick : Q) (w : nat) : Q * nat :=
  ((tick * inject_Z (Z.of_nat w))%Q, w).

Definition time_sleep (seconds : Q) (w : nat) : nat := w.

Definition run_ticking (tick : Q) (s : script) (r : Run)
    : py_result ValidationResult * Run :=
  execute (task_func s) (validation_func s) (time_time tick) time_sleep r.

Definition run (s : script) (r : Run) : py_result ValidationResult * Run :=
  run_ticking 1 s r.

(** A fresh loop with the given configuration, in the initial world. *)
Definition fresh (cfg : ValidationLoopConfig) : Run := fresh_run cfg 0%nat.

(** The state after [k] attempts numbered from 1, and what attempt
    [k + 1] would observe there. *)
Definition after_attempts (s : script) (k : nat) (r : Run) : Run :=
  run_attempts (task_func s) (validation_func s) (time_time 1) time_sleep 1 k r.

Definition outcome (s : script) (r : Run) : py_result ValidationResult :=
  attempt_outcome (task_func s) (validation_func s) (time_time 1) r.

(** A validation verdict as a validation function returns it. *)
Definition verdict (ok : bool) (p : option ValidationProtocol) (errs : list string)
    : ValidationResult :=
  mkResult ok p (if ok then "All validations passed" else "violation") errs [] 0 0.

Definition with_retries (n : Z) : ValidationLoopConfig :=
  mkConfig n true true None false.

(** Callables that never raise: the task returns, and the validation
    answers [result] whatever the world is. *)
Definition steady_task (w : nat) : py_result nat * nat := (Ok w, S w).

Definition steady_validation (result : ValidationResult) (task_result w : nat)
    : py_result ValidationResult * nat :=
  (Ok result, w).

(** Verdicts and scripts used in the examples below. *)
Definition mock_data : ValidationResult := verdict false (Some DGTS) ["mock data returned"].
Definition all_good : ValidationResult := verdict true (Some DGTS) [].
Definition errors_a : ValidationResult := verdict false (Some DGTS) ["a"].
Definition errors_b : ValidationResult := verdict false (Some DGTS) ["b"].
Definition errors_c : ValidationResult := verdict false (Some DGTS) ["c"].
Definition unused_variable : ValidationResult :=
  verdict false (Some ZERO_TOLERANCE) ["unused variable x"].

(** Fails, then the task raises, then passes. *)
Definition fail_raise_pass : script :=
  [Validates mock_data; TaskRaises "boom"; Validates all_good].

(** The task raises, then the validation raises. *)
Definition raise_twice : script := [TaskRaises "boom"; ValidationRaises "bad input"].

(** The task raises the same exception three times. *)
Definition boom_thrice : script := [TaskRaises "boom"; TaskRaises "boom"; TaskRaises "boom"].

(** Two calls of two attempts each: errors a, b in the first call and
    c, b in the second. *)
Definition two_calls : script :=
  [Validates errors_a; Validates errors_b; Validates errors_c; Validates errors_b].

Definition after_first_call : Run := (run two_calls (fresh (with_retries 2))).2.
Definition after_second_call : Run := (run two_calls after_first_call).2.

End Scripted.

(** ** A call of [execute], told with the callables alone

    The claims about [execute] speak of what the task and the validation
    function do in each attempt.  The definitions of this section say that
    without the loop, from the four callables only, so that a theorem can
    compare the loop with them. *)

Section Told.

Context {W T : Type}.
Variable task_func : W → py_result T * W.
Variable validation_func : T → W → py_result ValidationResult * W.
Variable time_time : W → Q * W.
Variable time_sleep : Q → W → W.

(** [answered w o w']: from world [w], reading the clock, calling the
    task, calling the validation on what the task returned if it returned,
    and reading the clock again gives the answer [o] and leaves the world
    [w']. *)
Inductive answered (w : W) : py_result ValidationResult → W → Prop :=
  | task_raised (e : string) (w1 : W) :
      task_func (time_time w).2 = (Raise e, w1) →
      answered w (Raise e) (time_time w1).2
  | validation_answered (task_result : T) (w1 : W)
        (o : py_result ValidationResult) (w2 : W) :
      task_func (time_time w).2 = (Ok task_result, w1) →
      validation_func task_result w1 = (o, w2) →
      answered w o (time_time w2).2.

(** An answer is a pass when the validation returned a passing verdict. *)
Definition is_pass (o : py_result ValidationResult) : bool :=
  match o with
  | Ok validation_result => passed validation_result
  | Raise _ => false
  end.

(** The world in which a retry starts: the loop pauses for half a second
    after a failing verdict, and not after an exception. *)
Definition before_retry (o : py_result ValidationResult) (w : W) : W :=
  match o with
  | Ok _ => time_sleep (1 # 2) w
  | Raise _ => w
  end.

(** [attempted w os w']: attempts made one after the other from world
    [w] give the answers [os], of which none but the last is a pass, and
    leave the world [w']. *)
Inductive attempted : W → list (py_result ValidationResult) → W → Prop :=
  | attempted_last (w : W) (o : py_result ValidationResult) (w' : W) :
      answered w o w' →
      attempted w [o] w'
  | attempted_retry (w : W) (o : py_result ValidationResult) (w1 : W)
        (os : list (py_result ValidationResult)) (w' : W) :
      answered w o w1 →
      is_pass o = false →
      attempted (before_retry o w1) os w' →
      attempted w (o :: os) w'.

End Told.

(** ** Exceptions that the handler does not catch

    The handler of line 173 is [except Exception]: it catches the
    instances of [Exception] and lets every other exception ([SystemExit],
    [KeyboardInterrupt], [GeneratorExit]) leave [execute].  Inside the
    handler, line 175 formats [str(e)], which runs the [__str__] of the
    exception and may raise in its turn.  The loop above takes callables
    whose exceptions are all caught and have a string, [Raise msg] being
    one of them with [str(e) = msg].  This module embeds the same lines
    for callables that raise any exception. *)

Module Signals.

(** An exception as lines 173 and 175 meet it: whether it is an instance of
    [Exception], and what [str(e)] returns, [None] when it raises. *)
Record py_exception : Type := mkException {
  is_Exception : bool;
  str : option string
}.

(** What a call of a callable does. *)
Inductive py_outcome (A : Type) : Type :=
  | Returns (a : A)
  | Raises (e : py_exception).
Arguments Returns {A} a.
Arguments Raises {A} e.

(** How a call of [execute] ends when it does not return: with an
    exception of a callable that the handler does not catch, with the
    exception that [str(e)] raised inside the handler, or with the
    [IndexError] of line 193. *)
Inductive escape : Type :=
  | Uncaught (e : py_exception)
  | RaisedInHandler (e : py_exception)
  | IndexError.

(** Whether the loop records the attempt that got this from the
    callables: they returned, or raised an instance of [Exception] whose
    [str] returns. *)
Definition handled {A : Type} (o : py_outcome A) : bool :=
  match o with
  | Returns _ => true
  | Raises e => is_Exception e && bool_decide (is_Some (str e))
  end.

(** The exception with which an attempt that is not recorded leaves
    [execute]. *)
Definition escaping (e : py_exception) : escape :=
  if is_Exception e then RaisedInHandler e else Uncaught e.

(** A handled outcome as the loop above takes it. *)
Definition caught {A : Type} (o : py_outcome A) : py_result A :=
  match o with
  | Returns a => Ok a
  | Raises e => Raise (default "" (str e))
  end.

(** An answer is a pass when the validation returned a passing verdict. *)
Definition is_pass (o : py_outcome ValidationResult) : bool :=
  match o with
  | Returns validation_result => passed validation_result
  | Raises _ => false
  end.

Section Execute.

Context {W T : Type}.
Variable task_func : W → py_outcome T * W.
Variable validation_func : T → W → py_outcome ValidationResult * W.
Variable time_time : W → Q * W.
Variable time_sleep : Q → W → W.

(** Lines 106 and 110. *)
Definition call_task_and_validation (w : W) : py_outcome ValidationResult * W * list event :=
  match task_func w with
  | (Raises e, w) => (Raises e, w, [CallTask])
  | (Returns task_result, w) =>
      let '(r, w) := validation_func task_result w in
      (r, w, [CallTask; CallValidation])
  end.

(** One iteration of the [for] loop: [inl] when an exception leaves
    [execute], and otherwise as in the loop above. *)
Definition attempt_body (attempt : Z) (r : Run) : (escape + option ValidationResult) * Run :=
  let '(start_time, w) := time_time (world r) in
  let '(tried, w, calls) := call_task_and_validation w in
  let out := out r ++ calls in
  match tried with
  | Returns validation_result =>
      let '(now, w) := time_time w in
      let duration := (now - start_time)%Q in
      if passed validation_result then
        let result := passed_result validation_result attempt duration in
        (inr (Some result), mkRun (append_history (self r) result) w out)
      else
        let analysis := _analyze_failure validation_result in
        let '(self, printed) :=
          if ((1 <? attempt) && enable_gaming_detection (config (self r)))%bool then
            _detect_gaming_in_retry (self r) validation_result
          else (self r, []) in
        let suggestions := _generate_fix_suggestions validation_result analysis in
        let result := failed_result validation_result suggestions attempt duration in
        let self := append_history self result in
        if attempt <? max_retries (config self) then
          (inr None, mkRun self (time_sleep (1 # 2) w) (out ++ printed ++ [Sleep]))
        else
          (inr (Some result), mkRun self w (out ++ printed))
  | Raises e =>
      if is_Exception e then
        let '(now, w) := time_time w in
        let duration := (now - start_time)%Q in
        match str e with
        | None => (inl (RaisedInHandler e), mkRun (self r) w out)
        | Some msg =>
            let result := exception_result msg attempt duration in
            let self := append_history (self r) result in
            if max_retries (config self) <=? attempt then
              (inr (Some result), mkRun self w out)
            else
              (inr None, mkRun self w out)
        end
      else (inl (Uncaught e), mkRun (self r) w out)
  end.

(** The [for] loop over the attempt numbers still to run. *)
Fixpoint for_attempts (attempts : list Z) (r : Run)
    : (escape + option ValidationResult) * Run :=
  match attempts with
  | [] => (inr None, r)
  | attempt :: attempts =>
      match attempt_body attempt r with
      | (inl e, r) => (inl e, r)
      | (inr (Some result), r) => (inr (Some result), r)
      | (inr None, r) => for_attempts attempts r
      end
  end.

(** [ValidationLoop.execute] *)
Definition execute (r : Run) : (escape + ValidationResult) * Run :=
  match for_attempts (py_range 1 (max_retries (config (self r)) + 1)) r with
  | (inl e, r) => (inl e, r)
  | (inr (Some result), r) => (inr result, r)
  | (inr None, r) =>
      match last (history (self r)) with
      | Some result => (inr result, r)
      | None => (inl IndexError, r)
      end
  end.

(** What the callables answer in the attempt that starts in run [r]. *)
Definition attempt_outcome (r : Run) : py_outcome ValidationResult :=
  (call_task_and_validation (time_time (world r)).2).1.1.

(** The callables as the loop above takes them. *)
Definition caught_task (w : W) : py_result T * W :=
  let '(o, w) := task_func w in (caught o, w).

Definition caught_validation (task_result : T) (w : W) : py_result ValidationResult * W :=
  let '(o, w) := validation_func task_result w in (caught o, w).

(** *** A call told with the callables alone *)

(** [answered w o w']: from world [w], reading the clock, calling the
    task and calling the validation on what the task returned, if it
    returned, gives the answer [o] and leaves the world [w']. *)
Inductive answered (w : W) : py_outcome ValidationResult → W → Prop :=
  | task_raised (e : py_exception) (w1 : W) :
      task_func (time_time w).2 = (Raises e, w1) →
      answered w (Raises e) w1
  | validation_answered (task_result : T) (w1 : W)
        (o : py_outcome ValidationResult) (w2 : W) :
      task_func (time_time w).2 = (Returns task_result, w1) →
      validation_func task_result w1 = (o, w2) →
      answered w o w2.

(** The world in which a retry starts: the clock has been read for the
    duration, and the loop has paused if the validation returned. *)
Definition before_retry (o : py_outcome ValidationResult) (w : W) : W :=
  match o with
  | Returns _ => time_sleep (1 # 2) (time_time w).2
  | Raises _ => (time_time w).2
  end.

(** [attempted w os w']: attempts made one after the other from world
    [w] give the answers [os], of which each but the last is handled and
    is not a pass, and the callables of the last leave the world [w']. *)
Inductive attempted : W → list (py_outcome ValidationResult) → W → Prop :=
  | attempted_last (w : W) (o : py_outcome ValidationResult) (w' : W) :
      answered w o w' →
      attempted w [o] w'
  | attempted_retry (w : W) (o : py_outcome ValidationResult) (w1 : W)
        (os : list (py_outcome ValidationResult)) (w' : W) :
      answered w o w1 →
      handled o = true →
      is_pass o = false →
      attempted (before_retry o w1) os w' →
      attempted w (o :: os) w'.

End Execute.

(** *** A task that exits

    [sys.exit()] in the task: [SystemExit] is not an instance of
    [Exception]. *)
Definition SystemExit : py_exception := mkException false (Some "").

Definition exiting_task (w : nat) : py_outcome nat * nat := (Raises SystemExit, S w).

(** An exception whose [__str__] raises. *)
Definition unprintable : py_exception := mkException true None.

Definition unprintable_task (w : nat) : py_outcome nat * nat := (Raises unprintable, S w).

(** A task that raises [RuntimeError("boom")] in its first call and exits
    in the later ones. *)
Definition boom : py_exception := mkException true (Some "boom").

Definition boom_then_exit (w : nat) : py_outcome nat * nat :=
  match w with
  | O => (Raises boom, S w)
  | S _ => (Raises SystemExit, S w)
  end.

(** A validation that accepts whatever it is given. *)
Definition accepting (task_result w : nat) : py_outcome ValidationResult * nat :=
  (Returns (Scripted.verdict true None []), w).

(** The clock and the pause of the sample runs: the clock shows the world,
    and neither changes it. *)
Definition time_time (w : nat) : Q * nat := (inject_Z (Z.of_nat w), w).
Definition time_sleep (seconds : Q) (w : nat) : nat := w.

End Signals.

(** ** Further observations of a trace *)

Definition is_call_validation (e : event) : bool :=
  match e with CallValidation => true | _ => false end.

Definition is_sleep (e : event) : bool :=
  match e with Sleep => true | _ => false end.

(** How often a trace calls the validation function, and how often it
    pauses. *)
Definition validation_calls (evs : list event) : nat :=
  length (List.filter is_call_validation evs).

Definition sleeps (evs : list event) : nat :=
  length (List.filter is_sleep evs).

(** The failing results of a history that carry no protocol: the ones the
    exception handler stores, and failing validations without a tag. *)
Definition untagged_failures (h : list ValidationResult) : list ValidationResult :=
  filter (λ r, passed r = false ∧ protocol r = None) h.

Definition all_protocols : list ValidationProtocol :=
  [NLNH; DGTS; ZERO_TOLERANCE; DOC_TDD; ANTIHALL; E2E].

(** ** The example of the [__main__] block *)
Module Example.

(** [example_task]: the dictionary it returns, whatever the world. *)
Definition example_task {W : Type} (w : W) : py_result (gmap string string) * W :=
  (Ok (<["code" := "function test() { console.log('test'); }"]>
         (<["status" := "implemented"]> ∅)), w).

(** [example_validation] *)
Definition example_validation {W : Type} (task_result : gmap string string) (w : W)
    : py_result ValidationResult * W :=
  let code := default "" (task_result !! "code") in
  if str_in "console.log" code then
    (Ok {| passed := false;
           protocol := Some ZERO_TOLERANCE;
           message := "Zero Tolerance violation";
           errors := ["Console.log statement found in code"];
           suggestions := [];
           attempt := 0;
           duration := 0 |}, w)
  else
    (Ok {| passed := true;
           protocol := Some ZERO_TOLERANCE;
           message := "All validations passed";
           errors := [];
           suggestions := [];
           attempt := 0;
           duration := 0 |}, w).

(** The loop of the [__main__] block, on a clock that reads [tick] more
    at every reading. *)
Definition main_config : ValidationLoopConfig :=
  {| max_retries := 3;
     enable_gaming_detection := true;
     enable_intelligent_fixes := true;
     log_file := None;
     verbose := true |}.

Definition ticking_clock (tick : Q) (w : Z) : Q * Z := ((tick * inject_Z w)%Q, w + 1).

Definition main (tick : Q) : py_result ValidationResult * Run :=
  execute example_task example_validation (ticking_clock tick) (λ _ w, w)
    (fresh_run main_config 0).

End Example.

(** ** The auto-discovery engine (scripts/validation/auto-discovery.py)

    [AutoDiscovery] probes a project directory for configuration files and
    lists the validation tools it finds.  The directory is a finite map
    from the relative paths the engine uses to what is found there; the
    project directory itself exists and can be written to.  [json.load] and
    [json.dump] belong to the Python library and are taken as parameters.
    Progress messages and [_print_summary], which only prints, are left
    out. *)
Module Discovery.

(** What a path of the project leads to: a directory, or a file with its
    text ([None] when reading it as text raises). *)
Inductive entry : Type :=
  | Directory
  | File (text : option string).

(** A parsed JSON document.  The members of an object are kept in the
    order of the text; a later member overrides an earlier one of the same
    key, as in the [dict] that [json.load] builds. *)
#[warnings="-register-all"]
Inductive json : Type :=
  | JNull
  | JBool (b : bool)
  | JNumber (literal : string)
  | JString (s : string)
  | JArray (items : list json)
  | JObject (members : list (string * json)).

(** [@dataclass DiscoveredTool] *)
Record DiscoveredTool : Type := mkTool {
  name : string;
  type : string;
  config_file : option string;
  command : string;
  enabled : bool;
  auto_discovered : bool
}.

(** [DiscoveredTool(name=..., type=..., config_file=..., command=...)],
    with the defaults of the two flags. *)
Definition tool (name type : string) (config_file : option string) (command : string)
    : DiscoveredTool :=
  mkTool name type config_file command true true.

(** [@dataclass ProjectInfo] *)
Record ProjectInfo : Type := mkInfo {
  is_typescript : bool;
  is_python : bool;
  is_javascript : bool;
  is_ui_project : bool;
  has_tests : bool;
  package_manager : option string
}.

(** An [AutoDiscovery] instance, together with the directory its
    [project_path] names. *)
Record AutoDiscovery : Type := mkDiscovery {
  project : gmap string entry;
  discovered_tools : list DiscoveredTool;
  project_info : option ProjectInfo
}.

(** [AutoDiscovery.__init__] *)
Definition init (project : gmap string entry) : AutoDiscovery :=
  mkDiscovery project [] None.

(** The dictionary built by [_generate_results]. *)
Record Layers : Type := mkLayers {
  layer1_static_analysis : list string;
  layer2_unit_tests : list string;
  layer3_e2e_tests : list string
}.

Record Results : Type := mkResults {
  results_project_info : option ProjectInfo;
  results_discovered_tools : list DiscoveredTool;
  validation_layers : Layers
}.

(** The exceptions [_save_configuration] can meet. *)
Inductive os_error : Type :=
  | FileExistsError
  | IsADirectoryError.

(** [self.discovered_tools.append(t)] *)
Definition append_tool (self : AutoDiscovery) (t : DiscoveredTool) : AutoDiscovery :=
  mkDiscovery (project self) (discovered_tools self ++ [t]) (project_info self).

(** [AutoDiscovery._file_exists]: [Path.exists], true of files and of
    directories. *)
Definition _file_exists (self : AutoDiscovery) (filename : string) : bool :=
  bool_decide (is_Some (project self !! filename)).

(** [AutoDiscovery._dir_exists]: [Path.is_dir]. *)
Definition _dir_exists (self : AutoDiscovery) (dirname : string) : bool :=
  match project self !! dirname with
  | Some Directory => true
  | _ => false
  end.

(** [open(path)] followed by reading the text; [None] when either
    raises. *)
Definition read_text (self : AutoDiscovery) (path : string) : option string :=
  match project self !! path with
  | Some (File (Some text)) => Some text
  | _ => None
  end.

(** [d.get(key, default)] on the members of an object. *)
Definition dict_get (members : list (string * json)) (key : string) (default : json) : json :=
  foldl (λ found member, if bool_decide (member.1 = key) then member.2 else found)
    default members.

(** [package in x]: key membership for an object, element membership for
    an array, substring for a string; [None] when Python raises
    [TypeError]. *)
Definition py_in (package : string) (x : json) : option bool :=
  match x with
  | JObject members => Some (bool_decide (package ∈ members.*1))
  | JArray items =>
      Some (existsb (λ item, match item with
                             | JString s => bool_decide (s = package)
                             | _ => false
                             end) items)
  | JString s => Some (str_in package s)
  | JNull | JBool _ | JNumber _ => None
  end.

Section WithJson.

Variable json_loads : string → option json.
Variable json_dumps : Results → string.

(** [AutoDiscovery._has_package_dependency]; every exception inside the
    [try] gives [False]. *)
Definition _has_package_dependency (self : AutoDiscovery) (package : string) : bool :=
  if negb (_file_exists self "package.json") then false
  else
    match read_text self "package.json" with
    | None => false
    | Some text =>
        match json_loads text with
        | Some (JObject data) =>
            match py_in package (dict_get data "dependencies" (JObject [])) with
            | None => false
            | Some true => true
            | Some false =>
                match py_in package (dict_get data "devDependencies" (JObject [])) with
                | None => false
                | Some found => found
                end
            end
        | _ => false
        end
    end.

(** [AutoDiscovery._has_in_pyproject] *)
Definition _has_in_pyproject (self : AutoDiscovery) (section : string) : bool :=
  if negb (_file_exists self "pyproject.toml") then false
  else
    match read_text self "pyproject.toml" with
    | None => false
    | Some content =>
        (str_in ("[tool." +:+ section +:+ "]") content
         || str_in ("[" +:+ section +:+ "]") content)%bool
    end.

(** [AutoDiscovery._analyze_project] *)
Definition _analyze_project (self : AutoDiscovery) : ProjectInfo :=
  let is_typescript := _file_exists self "tsconfig.json" in
  let is_python :=
    (_file_exists self "pyproject.toml" || _file_exists self "setup.py"
     || _file_exists self "requirements.txt")%bool in
  let is_javascript := (_file_exists self "package.json" && negb is_typescript)%bool in
  let is_ui_project :=
    (_dir_exists self "src/components" || _dir_exists self "src/app"
     || _dir_exists self "app" || _dir_exists self "pages"
     || _dir_exists self "src/pages")%bool in
  let has_tests :=
    (_dir_exists self "tests" || _dir_exists self "test"
     || _dir_exists self "__tests__" || _file_exists self "pytest.ini")%bool in
  let package_manager :=
    if _file_exists self "package-lock.json" then Some "npm"
    else if _file_exists self "yarn.lock" then Some "yarn"
    else if _file_exists self "pnpm-lock.yaml" then Some "pnpm"
    else if _file_exists self "bun.lockb" then Some "bun"
    else if _file_exists self "poetry.lock" then Some "poetry"
    else if _file_exists self "uv.lock" then Some "uv"
    else if _file_exists self "Pipfile.lock" then Some "pipenv"
    else if is_python then Some "pip"
    else None in
  {| is_typescript := is_typescript;
     is_python := is_python;
     is_javascript := is_javascript;
     is_ui_project := is_ui_project;
     has_tests := has_tests;
     package_manager := package_manager |}.

(** [next((f for f in candidates if self._file_exists(f)), None)] *)
Definition first_existing (self : AutoDiscovery) (candidates : list string) : option string :=
  List.find (_file_exists self) candidates.

(** [AutoDiscovery._discover_linters] *)
Definition _discover_linters (self : AutoDiscovery) : AutoDiscovery :=
  let self :=
    if (_file_exists self ".eslintrc.json" || _file_exists self ".eslintrc.js"
        || _file_exists self ".eslintrc.cjs")%bool then
      let config_file :=
        first_existing self [".eslintrc.json"; ".eslintrc.js"; ".eslintrc.cjs"] in
      append_tool self
        (tool "ESLint" "linter" config_file "npx eslint . --ext .ts,.tsx,.js,.jsx")
    else self in
  let self :=
    if (_file_exists self "ruff.toml" || _has_in_pyproject self "ruff")%bool then
      let config_file :=
        if _file_exists self "ruff.toml" then "ruff.toml" else "pyproject.toml" in
      append_tool self (tool "Ruff" "linter" (Some config_file) "ruff check .")
    else self in
  if (_file_exists self ".pylintrc" || _has_in_pyproject self "pylint")%bool then
    append_tool self
      (tool "Pylint" "linter"
         (Some (if _file_exists self ".pylintrc" then ".pylintrc" else "pyproject.toml"))
         "pylint **/*.py")
  else self.

(** [AutoDiscovery._discover_type_checkers] *)
Definition _discover_type_checkers (self : AutoDiscovery) : AutoDiscovery :=
  let self :=
    if _file_exists self "tsconfig.json" then
      append_tool self
        (tool "TypeScript" "type_checker" (Some "tsconfig.json") "npx tsc --noEmit")
    else self in
  if (_file_exists self "mypy.ini" || _has_in_pyproject self "mypy")%bool then
    let config_file :=
      if _file_exists self "mypy.ini" then "mypy.ini" else "pyproject.toml" in
    append_tool self (tool "MyPy" "type_checker" (Some config_file) "mypy .")
  else self.

(** [AutoDiscovery._discover_test_frameworks] *)
Definition _discover_test_frameworks (self : AutoDiscovery) : AutoDiscovery :=
  let self :=
    if _has_package_dependency self "vitest" then
      append_tool self
        (tool "Vitest" "test_framework"
           (if _file_exists self "vitest.config.ts" then Some "vitest.config.ts" else None)
           "npm run test")
    else if _has_package_dependency self "jest" then
      append_tool self
        (tool "Jest" "test_framework"
           (if _file_exists self "jest.config.js" then Some "jest.config.js" else None)
           "npm test")
    else self in
  let self :=
    if (_file_exists self "pytest.ini" || _has_in_pyproject self "pytest")%bool then
      let config_file :=
        if _file_exists self "pytest.ini" then "pytest.ini" else "pyproject.toml" in
      append_tool self
        (tool "Pytest" "test_framework" (Some config_file)
           "pytest --cov --cov-report=term-missing")
    else self in
  if _has_package_dependency self "mocha" then
    append_tool self
      (tool "Mocha" "test_framework"
         (if _file_exists self ".mocharc.json" then Some ".mocharc.json" else None)
         "npm test")
  else self.

(** [AutoDiscovery._discover_formatters] *)
Definition _discover_formatters (self : AutoDiscovery) : AutoDiscovery :=
  let self :=
    if (_file_exists self ".prettierrc" || _file_exists self ".prettierrc.json"
        || _file_exists self "prettier.config.js")%bool then
      let config_file :=
        first_existing self [".prettierrc"; ".prettierrc.json"; "prettier.config.js"] in
      append_tool self (tool "Prettier" "formatter" config_file "npx prettier --check .")
    else self in
  if (_has_in_pyproject self "black" || _has_package_dependency self "black")%bool then
    append_tool self (tool "Black" "formatter" (Some "pyproject.toml") "black --check .")
  else self.

(** [AutoDiscovery._discover_e2e_frameworks] *)
Definition _discover_e2e_frameworks (self : AutoDiscovery) : AutoDiscovery :=
  if (_file_exists self "playwright.config.ts"
      || _file_exists self "playwright.config.js")%bool then
    let config_file :=
      if _file_exists self "playwright.config.ts"
      then "playwright.config.ts" else "playwright.config.js" in
    append_tool self (tool "Playwright" "e2e" (Some config_file) "npx playwright test")
  else if (_file_exists self "cypress.config.ts"
           || _file_exists self "cypress.config.js")%bool then
    let config_file :=
      if _file_exists self "cypress.config.ts"
      then "cypress.config.ts" else "cypress.config.js" in
    append_tool self (tool "Cypress" "e2e" (Some config_file) "npx cypress run")
  else self.

(** [[tool.name for tool in tools if tool.type in kinds]] *)
Definition names_of_types (kinds : list string) (tools : list DiscoveredTool) : list string :=
  name <$> List.filter (λ t, bool_decide (type t ∈ kinds)) tools.

(** [AutoDiscovery._generate_results] *)
Definition _generate_results (self : AutoDiscovery) : Results :=
  {| results_project_info := project_info self;
     results_discovered_tools := discovered_tools self;
     validation_layers :=
       {| layer1_static_analysis :=
            names_of_types ["linter"; "type_checker"] (discovered_tools self);
          layer2_unit_tests := names_of_types ["test_framework"] (discovered_tools self);
          layer3_e2e_tests := names_of_types ["e2e"] (discovered_tools self) |} |}.

Definition pai_dir : string := ".pai".
Definition config_path : string := ".pai/validation-config.json".

Definition write_entry (self : AutoDiscovery) (path : string) (e : entry) : AutoDiscovery :=
  mkDiscovery (<[path := e]> (project self)) (discovered_tools self) (project_info self).

(** [AutoDiscovery._save_configuration]: [mkdir(exist_ok=True)] raises when
    the path is a file; [open(..., "w")] raises when the path is a
    directory.  The instance is returned as the call leaves it, also when
    it raises. *)
Definition _save_configuration (self : AutoDiscovery) (results : Results)
    : option os_error * AutoDiscovery :=
  match project self !! pai_dir with
  | Some (File _) => (Some FileExistsError, self)
  | made =>
      let self :=
        match made with
        | None => write_entry self pai_dir Directory
        | _ => self
        end in
      match project self !! config_path with
      | Some Directory => (Some IsADirectoryError, self)
      | _ => (None, write_entry self config_path (File (Some (json_dumps results))))
      end
  end.

(** The five discovery steps of [discover_all], in order. *)
Definition discover_tools (self : AutoDiscovery) : AutoDiscovery :=
  _discover_e2e_frameworks
    (_discover_formatters
       (_discover_test_frameworks
          (_discover_type_checkers (_discover_linters self)))).

(** [AutoDiscovery.discover_all]: the results, or the exception that
    escapes from [_save_configuration]. *)
Definition discover_all (self : AutoDiscovery) : (os_error + Results) * AutoDiscovery :=
  let self :=
    mkDiscovery (project self) (discovered_tools self) (Some (_analyze_project self)) in
  let self := discover_tools self in
  let results := _generate_results self in
  match _save_configuration self results with
  | (Some e, self) => (inl e, self)
  | (None, self) => (inr results, self)
  end.

(** *** What each probe of the discovery contributes

    The tools a discovery step appends, read off its conditions: one list
    per tool, empty when the tool is not found. *)

Definition eslint_found (self : AutoDiscovery) : list DiscoveredTool :=
  if (_file_exists self ".eslintrc.json" || _file_exists self ".eslintrc.js"
      || _file_exists self ".eslintrc.cjs")%bool
  then [tool "ESLint" "linter"
          (first_existing self [".eslintrc.json"; ".eslintrc.js"; ".eslintrc.cjs"])
          "npx eslint . --ext .ts,.tsx,.js,.jsx"]
  else [].

Definition ruff_found (self : AutoDiscovery) : list DiscoveredTool :=
  if (_file_exists self "ruff.toml" || _has_in_pyproject self "ruff")%bool
  then [tool "Ruff" "linter"
          (Some (if _file_exists self "ruff.toml" then "ruff.toml" else "pyproject.toml"))
          "ruff check ."]
  else [].

Definition pylint_found (self : AutoDiscovery) : list DiscoveredTool :=
  if (_file_exists self ".pylintrc" || _has_in_pyproject self "pylint")%bool
  then [tool "Pylint" "linter"
          (Some (if _file_exists self ".pylintrc" then ".pylintrc" else "pyproject.toml"))
          "pylint **/*.py"]
  else [].

Definition typescript_found (self : AutoDiscovery) : list DiscoveredTool :=
  if _file_exists self "tsconfig.json"
  then [tool "TypeScript" "type_checker" (Some "tsconfig.json") "npx tsc --noEmit"]
  else [].

Definition mypy_found (self : AutoDiscovery) : list DiscoveredTool :=
  if (_file_exists self "mypy.ini" || _has_in_pyproject self "mypy")%bool
  then [tool "MyPy" "type_checker"
          (Some (if _file_exists self "mypy.ini" then "mypy.ini" else "pyproject.toml"))
          "mypy ."]
  else [].

Definition vitest_or_jest_found (self : AutoDiscovery) : list DiscoveredTool :=
  if _has_package_dependency self "vitest"
  then [tool "Vitest" "test_framework"
          (if _file_exists self "vitest.config.ts" then Some "vitest.config.ts" else None)
          "npm run test"]
  else if _has_package_dependency self "jest"
  then [tool "Jest" "test_framework"
          (if _file_exists self "jest.config.js" then Some "jest.config.js" else None)
          "npm test"]
  else [].

Definition pytest_found (self : AutoDiscovery) : list DiscoveredTool :=
  if (_file_exists self "pytest.ini" || _has_in_pyproject self "pytest")%bool
  then [tool "Pytest" "test_framework"
          (Some (if _file_exists self "pytest.ini" then "pytest.ini" else "pyproject.toml"))
          "pytest --cov --cov-report=term-missing"]
  else [].

Definition mocha_found (self : AutoDiscovery) : list DiscoveredTool :=
  if _has_package_dependency self "mocha"
  then [tool "Mocha" "test_framework"
          (if _file_exists self ".mocharc.json" then Some ".mocharc.json" else None)
          "npm test"]
  else [].

Definition prettier_found (self : AutoDiscovery) : list DiscoveredTool :=
  if (_file_exists self ".prettierrc" || _file_exists self ".prettierrc.json"
      || _file_exists self "prettier.config.js")%bool
  then [tool "Prettier" "formatter"
          (first_existing self [".prettierrc"; ".prettierrc.json"; "prettier.config.js"])
          "npx prettier --check ."]
  else [].

Definition black_found (self : AutoDiscovery) : list DiscoveredTool :=
  if (_has_in_pyproject self "black" || _has_package_dependency self "black")%bool
  then [tool "Black" "formatter" (Some "pyproject.toml") "black --check ."]
  else [].

Definition playwright_or_cypress_found (self : AutoDiscovery) : list DiscoveredTool :=
  if (_file_exists self "playwright.config.ts"
      || _file_exists self "playwright.config.js")%bool
  then [tool "Playwright" "e2e"
          (Some (if _file_exists self "playwright.config.ts"
                 then "playwright.config.ts" else "playwright.config.js"))
          "npx playwright test"]
  else if (_file_exists self "cypress.config.ts"
           || _file_exists self "cypress.config.js")%bool
  then [tool "Cypress" "e2e"
          (Some (if _file_exists self "cypress.config.ts"
                 then "cypress.config.ts" else "cypress.config.js"))
          "npx cypress run"]
  else [].

Definition linters_found (self : AutoDiscovery) : list DiscoveredTool :=
  eslint_found self ++ ruff_found self ++ pylint_found self.

Definition type_checkers_found (self : AutoDiscovery) : list DiscoveredTool :=
  typescript_found self ++ mypy_found self.

Definition test_frameworks_found (self : AutoDiscovery) : list DiscoveredTool :=
  vitest_or_jest_found self ++ pytest_found self ++ mocha_found self.

Definition formatters_found (self : AutoDiscovery) : list DiscoveredTool :=
  prettier_found self ++ black_found self.

(** All that [discover_tools] appends, in order. *)
Definition found (self : AutoDiscovery) : list DiscoveredTool :=
  linters_found self ++ type_checkers_found self ++ test_frameworks_found self
  ++ formatters_found self ++ playwright_or_cypress_found self.


End WithJson.

(** The tool names in the order in which [discover_all] looks for them. *)
Definition discovery_order : list string :=
  [ "ESLint"; "Ruff"; "Pylint"; "TypeScript"; "MyPy"; "Vitest"; "Jest"; "Pytest";
    "Mocha"; "Prettier"; "Black"; "Playwright"; "Cypress" ].

(** The lock files [_analyze_project] looks for. *)
Definition lock_files : list string :=
  [ "package-lock.json"; "yarn.lock"; "pnpm-lock.yaml"; "bun.lockb"; "poetry.lock";
    "uv.lock"; "Pipfile.lock" ].

(** [s'] is [s] with the tools [ts] appended. *)
Definition extends (s s' : AutoDiscovery) (ts : list DiscoveredTool) : Prop :=
  project s' = project s ∧ project_info s' = project_info s ∧
  discovered_tools s' = discovered_tools s ++ ts.

(** [s'] sees the project of [s], but for the two paths
    [_save_configuration] writes. *)
Definition agree (s s' : AutoDiscovery) : Prop :=
  ∀ f, f ≠ ".pai" → f ≠ ".pai/validation-config.json" →
       project s' !! f = project s !! f.

(** *** A sample project

    A TypeScript project whose [package.json] lists Vitest, Jest and
    Black, with a stand-in for [json.load] that knows this one text and
    a stand-in for [json.dump] that writes the names of the tools. *)

Definition quoted (s : string) : string :=
  String "034" "" +:+ s +:+ String "034" "".

Definition sample_package_json : string :=
  "{" +:+ quoted "dependencies" +:+ ": {" +:+ quoted "black" +:+ ": "
  +:+ quoted "24.1" +:+ "}, " +:+ quoted "devDependencies" +:+ ": {"
  +:+ quoted "vitest" +:+ ": " +:+ quoted "1.0" +:+ ", " +:+ quoted "jest"
  +:+ ": " +:+ quoted "29.0" +:+ "}}".

Definition sample_json_loads (text : string) : option json :=
  if bool_decide (text = sample_package_json)
  then Some (JObject
               [ ("dependencies", JObject [("black", JString "24.1")]);
                 ("devDependencies",
                  JObject [("vitest", JString "1.0"); ("jest", JString "29.0")]) ])
  else None.

Definition sample_json_dumps (results : Results) : string :=
  String.concat "," (name <$> results_discovered_tools results).

Definition sample_project : gmap string entry :=
  {[ "package.json" := File (Some sample_package_json);
     "tsconfig.json" := File (Some "{}");
     ".eslintrc.json" := File (Some "{}");
     "cypress.config.ts" := File (Some "");
     "src/components" := Directory ]}.

(** What [discover_all] returns on the sample project. *)
Definition sample_results : Results :=
  {| results_project_info :=
       Some {| is_typescript := true; is_python := false; is_javascript := false;
               is_ui_project := true; has_tests := false; package_manager := None |};
     results_discovered_tools :=
       [ tool "ESLint" "linter" (Some ".eslintrc.json")
           "npx eslint . --ext .ts,.tsx,.js,.jsx";
         tool "TypeScript" "type_checker" (Some "tsconfig.json") "npx tsc --noEmit";
         tool "Vitest" "test_framework" None "npm run test";
         tool "Black" "formatter" (Some "pyproject.toml") "black --check .";
         tool "Cypress" "e2e" (Some "cypress.config.ts") "npx cypress run" ];
     validation_layers :=
       {| layer1_static_analysis := ["ESLint"; "TypeScript"];
          layer2_unit_tests := ["Vitest"];
          layer3_e2e_tests := ["Cypress"] |} |}.

End Discovery.

(** ** Properties of the string operations *)

Lemma append_cons c s t : String c s +:+ t = String c (s +:+ t).
Proof. reflexivity. Qed.

Lemma append_empty t : "" +:+ t = t.
Proof. reflexivity. Qed.

Lemma prefix_spec (needle : string) : ∀ hay,
  String.prefix needle hay = true ↔ ∃ post, hay = needle +:+ post.
Proof.
  induction needle as [|c needle IH]; intros hay.
  - split; [intros _; by exists hay | intros _; by destruct hay].
  - destruct hay as [|d hay]; cbn [String.prefix].
    + split; [discriminate | intros [post H]; discriminate H].
    + destruct (ascii_dec c d) as [->|Hne].
      * rewrite IH. split; intros [post H]; exists post.
        -- by rewrite append_cons, H.
        -- rewrite append_cons in H. congruence.
      * split; [discriminate | intros [post H]; rewrite append_cons in H; congruence].
Qed.

(** [str_in needle hay] holds exactly when [needle] occurs in [hay]. *)
Lemma str_in_spec (needle : string) : ∀ hay,
  str_in needle hay = true ↔ ∃ pre post, hay = pre +:+ needle +:+ post.
Proof.
  intros hay. split.
  - induction hay as [|c hay IH]; cbn [str_in].
    + destruct (String.prefix needle "") eqn:Hp; [|discriminate].
      intros _. apply prefix_spec in Hp as [post ->]. by exists "", post.
    + destruct (String.prefix needle (String c hay)) eqn:Hp.
      * intros _. apply prefix_spec in Hp as [post Hp]. exists "", post.
        by rewrite append_empty.
      * intros H. destruct (IH H) as (pre & post & ->). by exists (String c pre), post.
  - intros (pre & post & ->).
    induction pre as [|c pre IH].
    + rewrite append_empty.
      assert (Hp : String.prefix needle (needle +:+ post) = true)
        by (apply prefix_spec; by exists post).
      destruct (needle +:+ post); cbn [str_in]; by rewrite Hp.
    + rewrite append_cons. cbn [str_in].
      destruct (String.prefix needle _); [reflexivity | exact IH].
Qed.

Example console_log_found :
  str_in "console.log" (lower "Console.log statement found in code") = true.
Proof. reflexivity. Qed.

Example lower_keeps_other_characters : lower "ESLint: no-unused-vars [x_1]" = "eslint: no-unused-vars [x_1]".
Proof. reflexivity. Qed.

(** ** The binary64 reading of the gaming score *)

(** Two repeats of identical errors give exactly the double 0.4, not above
    0.5; the third gives a double above 0.5. *)
Lemma binary64_thresholds :
  PrimFloat.eqb (Binary64.after_identical 2) Binary64.literal_0_4 = true ∧
  Binary64.warns_float (Binary64.after_identical 2) = false ∧
  Binary64.warns_float (Binary64.after_identical 3) = true.
Proof. repeat split; reflexivity. Qed.

(** Along every sequence of findings the binary64 score and the rational
    score print the warning at the same attempts: they agree on all
    sequences of up to six findings, and after six findings every sequence
    is above the threshold in both readings, where it stays. *)
Lemma binary64_warnings_agree :
  Binary64.warnings_agree 6 Binary64.fresh_score 0 = true ∧
  Binary64.all_above 6 Binary64.fresh_score 0 = true.
Proof. split; vm_compute; reflexivity. Qed.

(** ** Properties of the failure analysis *)

Example analyze_dgts :
  primary_cause (_analyze_failure (mkResult false (Some DGTS) "m" ["x"] [] 0 0)) = "Gaming pattern detected".
Proof. reflexivity. Qed.

Example suggestions_zt_console :
  length (_generate_fix_suggestions
            (mkResult false (Some ZERO_TOLERANCE) "m" ["Console.log statement found in code"] [] 0 0)
            (_analyze_failure (mkResult false (Some ZERO_TOLERANCE) "m" ["Console.log statement found in code"] [] 0 0)))
  = 2%nat.
Proof. reflexivity. Qed.

Lemma value_inj p q : value p = value q → p = q.
Proof. destruct p, q; simpl; intros H; first [reflexivity | discriminate H]. Qed.

Lemma analyze_off_zero_tolerance result :
  protocol result ≠ Some ZERO_TOLERANCE →
  cause_severity (_analyze_failure result) = protocol_table (protocol result).
Proof.
  unfold _analyze_failure, cause_severity.
  destruct (protocol result) as [[]|]; simpl; intros Hne; try reflexivity.
  contradiction Hne; reflexivity.
Qed.

Lemma analyze_zero_tolerance result :
  protocol result = Some ZERO_TOLERANCE →
  cause_severity (_analyze_failure result) = zero_tolerance_cause (errors_str result).
Proof.
  unfold _analyze_failure, cause_severity, zero_tolerance_cause.
  intros ->.
  destruct (str_in "console.log" _); [reflexivity|].
  destruct (str_in "typescript" _); [reflexivity|].
  destruct (str_in "type error" _); [reflexivity|].
  destruct (str_in "eslint" _); reflexivity.
Qed.

Lemma suggestions_off_zero_tolerance result analysis :
  protocol result ≠ Some ZERO_TOLERANCE →
  _generate_fix_suggestions result analysis ≠ [].
Proof.
  unfold _generate_fix_suggestions.
  destruct (protocol result) as [[]|]; intros Hne; try discriminate.
  contradiction Hne; reflexivity.
Qed.

Lemma suggestions_zero_tolerance result analysis :
  protocol result = Some ZERO_TOLERANCE →
  _generate_fix_suggestions result analysis ≠ [] ↔
  zero_tolerance_keyword (errors_str result) = true.
Proof.
  unfold _generate_fix_suggestions, zero_tolerance_keyword.
  intros ->.
  destruct (str_in "console.log" _), (str_in "typescript" _), (str_in "type error" _),
    (str_in "eslint" _), (str_in "catch" _), (str_in "error" _);
    simpl; split; intros H; first [reflexivity | discriminate | contradiction].
Qed.

(** ** Properties of the summary *)

Lemma py_sum_Z_ones {A} (l : list A) :
  py_sum_Z ((λ _, 1) <$> l) = Z.of_nat (length l).
Proof.
  unfold py_sum_Z.
  enough (H : ∀ acc, foldl Z.add acc ((λ _, 1) <$> l) = acc + Z.of_nat (length l))
    by (rewrite H; lia).
  induction l as [|x l IH]; intros acc; simpl.
  - lia.
  - rewrite IH. lia.
Qed.

Lemma count_protocol_failure_lookup m result p :
  count_protocol_failure m result !! value p =
    if bool_decide (passed result = false ∧ protocol result = Some p)
    then Some (default 0 (m !! value p) + 1)
    else m !! value p.
Proof.
  unfold count_protocol_failure.
  case_bool_decide as Hb.
  - destruct Hb as [-> ->]. simpl. by rewrite lookup_insert_eq.
  - destruct (protocol result) as [q|] eqn:Hq; [|reflexivity].
    destruct (passed result) eqn:Hp; simpl; [reflexivity|].
    rewrite lookup_insert_ne; [reflexivity|].
    intros H; apply value_inj in H; subst. by apply Hb.
Qed.

Lemma count_protocol_failure_other m result k :
  (∀ p, k ≠ value p) → count_protocol_failure m result !! k = m !! k.
Proof.
  intros Hk. unfold count_protocol_failure.
  destruct (protocol result) as [q|]; [|reflexivity].
  destruct (passed result); simpl; [reflexivity|].
  apply lookup_insert_ne. intros H. by apply (Hk q).
Qed.

Lemma protocols_failed_lookup h p : ∀ m,
  foldl count_protocol_failure m h !! value p =
    match length (failures_of p h) with
    | O => m !! value p
    | S n => Some (default 0 (m !! value p) + Z.of_nat (S n))
    end.
Proof.
  unfold failures_of.
  induction h as [|r h IH]; intros m; [reflexivity|].
  simpl foldl. rewrite IH, count_protocol_failure_lookup, filter_cons.
  destruct (decide (passed r = false ∧ protocol r = Some p)) as [Hr|Hr].
  - rewrite bool_decide_eq_true_2 by done. simpl length.
    destruct (length (filter _ h)); simpl default; f_equal; lia.
  - rewrite bool_decide_eq_false_2 by done. reflexivity.
Qed.

Lemma protocols_failed_other h k :
  (∀ p, k ≠ value p) → ∀ m, foldl count_protocol_failure m h !! k = m !! k.
Proof.
  intros Hk. induction h as [|r h IH]; intros m; [reflexivity|].
  simpl. by rewrite IH, count_protocol_failure_other.
Qed.

Lemma Qmake_100 z : (Qmake z 100 == inject_Z z * (1 # 100))%Q.
Proof. unfold Qeq; simpl. lia. Qed.

Lemma round_half_even_near q :
  (inject_Z (round_half_even q) - q <= 1 # 2)%Q ∧ (q - inject_Z (round_half_even q) <= 1 # 2)%Q.
Proof.
  unfold round_half_even.
  pose proof (Qfloor_le q) as Hlo. pose proof (Qlt_floor q) as Hhi.
  rewrite inject_Z_plus in Hhi. change (inject_Z 1) with 1%Q in Hhi.
  destruct (Qcompare_spec (q - inject_Z (Qfloor q)) (1 # 2)) as [He|Hl|Hg].
  - destruct (Z.even (Qfloor q)); [|rewrite inject_Z_plus; change (inject_Z 1) with 1%Q];
      split; lra.
  - split; lra.
  - rewrite inject_Z_plus; change (inject_Z 1) with 1%Q. split; lra.
Qed.

Lemma py_round_2_near q :
  (py_round_2 q - q <= 1 # 200)%Q ∧ (q - py_round_2 q <= 1 # 200)%Q.
Proof.
  unfold py_round_2. rewrite Qmake_100.
  destruct (round_half_even_near (q * 100)) as [H1 H2]. split; lra.
Qed.

(** ** Properties of the gaming detector *)

Lemma detect_config self0 vr : config (_detect_gaming_in_retry self0 vr).1 = config self0.
Proof.
  unfold _detect_gaming_in_retry.
  destruct (last (history self0)) as [prev|];
    repeat case_bool_decide; repeat destruct (Qlt_le_dec _ _); reflexivity.
Qed.

Lemma detect_history self0 vr : history (_detect_gaming_in_retry self0 vr).1 = history self0.
Proof.
  unfold _detect_gaming_in_retry.
  destruct (last (history self0)) as [prev|];
    repeat case_bool_decide; repeat destruct (Qlt_le_dec _ _); reflexivity.
Qed.

Lemma detect_score self0 vr :
  (gaming_score (_detect_gaming_in_retry self0 vr).1 ==
   gaming_score self0 +
   match last (history self0) with Some prev => gaming_increment prev vr | None => 0 end)%Q.
Proof.
  unfold _detect_gaming_in_retry, gaming_increment.
  destruct (last (history self0)) as [prev|];
    repeat case_bool_decide; repeat destruct (Qlt_le_dec _ _); simpl; ring.
Qed.

Lemma detect_score_unchanged self0 vr :
  match last (history self0) with
  | Some prev => errors prev ≠ errors vr ∧ protocol prev = protocol vr
  | None => True
  end →
  gaming_score (_detect_gaming_in_retry self0 vr).1 = gaming_score self0.
Proof.
  unfold _detect_gaming_in_retry.
  destruct (last (history self0)) as [prev|].
  - intros [He Hp]. rewrite bool_decide_eq_false_2 by done.
    rewrite bool_decide_eq_false_2 by (intros H; by apply H).
    destruct (Qlt_le_dec _ _); reflexivity.
  - intros _. destruct (Qlt_le_dec _ _); reflexivity.
Qed.

Lemma detect_messages self0 vr :
  Forall (λ e, is_detector_message e = true) (_detect_gaming_in_retry self0 vr).2.
Proof.
  unfold _detect_gaming_in_retry.
  destruct (last (history self0)) as [prev|];
    repeat case_bool_decide; repeat destruct (Qlt_le_dec _ _); simpl;
    repeat constructor.
Qed.

Lemma detect_warning self0 vr :
  high_gaming_warnings (_detect_gaming_in_retry self0 vr).2 =
  if Qlt_le_dec (5 # 10) (gaming_score (_detect_gaming_in_retry self0 vr).1) then 1%nat else 0%nat.
Proof.
  unfold _detect_gaming_in_retry.
  destruct (last (history self0)) as [prev|];
    repeat case_bool_decide; cbn [add_score gaming_score fst snd];
    destruct (Qlt_le_dec _ _); cbn [fst snd gaming_score]; 
    try (destruct (Qlt_le_dec _ _); cbn [add_score gaming_score] in *; try lra);
    reflexivity.
Qed.

Section RunLemmas.

Context {W T : Type}.
Variable task_func : W → py_result T * W.
Variable validation_func : T → W → py_result ValidationResult * W.
Variable time_time : W → Q * W.
Variable time_sleep : Q → W → W.

Abbreviation body := (attempt_body task_func validation_func time_time time_sleep).
Abbreviation loop := (for_attempts task_func validation_func time_time time_sleep).
Abbreviation exec := (execute task_func validation_func time_time time_sleep).
Abbreviation outcome := (attempt_outcome task_func validation_func time_time).
Abbreviation passes := (attempt_passes task_func validation_func time_time).
Abbreviation record := (attempt_record task_func validation_func time_time).
Abbreviation after := (after_attempt task_func validation_func time_time time_sleep).
Abbreviation runs := (run_attempts task_func validation_func time_time time_sleep).
Abbreviation detects := (detector_runs task_func validation_func time_time).

(** Unfolds one attempt and splits it along the paths of the source:
    validation passed, validation failed (with and without the detector,
    retrying or not), and an exception in the task or in the validation. *)
Ltac detector_facts :=
  lazymatch goal with
  | Hd : _detect_gaming_in_retry ?s ?v = (?s', ?printed) |- _ =>
      let Hc := fresh "Hconfig" in
      let Hh := fresh "Hhistory" in
      let Hm := fresh "Hmessages" in
      pose proof (detect_config s v) as Hc;
      pose proof (detect_history s v) as Hh;
      pose proof (detect_messages s v) as Hm;
      rewrite Hd in Hc, Hh, Hm; cbn [fst snd] in Hc, Hh, Hm
  end.

Ltac use_detector_facts :=
  repeat match goal with
    | H : config ?v = _ |- context [config ?v] => rewrite H
    | H : history ?v = _ |- context [history ?v] => rewrite H
    | H : config ?v = _, H' : context [config ?v] |- _ => rewrite H in H'
    end.

Ltac attempt_paths a r :=
  unfold after_attempt, attempt_record, attempt_passes, attempt_outcome,
    attempt_duration, attempt_body, call_task_and_validation;
  destruct (time_time (world r)) as [? ?]; cbn [fst snd];
  destruct (task_func _) as [[?|?] ?];
  [ destruct (validation_func _ _) as [[?|?] ?] | ];
  cbn [fst snd];
  destruct (time_time _) as [? ?]; cbn [fst snd];
  [ lazymatch goal with
    | |- context [if passed ?v then _ else _] => destruct (passed v) eqn:Hpassed
    end;
    [ | destruct ((1 <? a) && enable_gaming_detection (config (self r)))%bool eqn:Hdetect;
        [ try (destruct (_detect_gaming_in_retry (self r) _) as [? ?] eqn:Hd;
               detector_facts)
        | ];
        cbn [append_history config];
        try destruct (a <? max_retries _) eqn:Hretry ]
  | try destruct (max_retries _ <=? a) eqn:Hlast
  | try destruct (max_retries _ <=? a) eqn:Hlast ];
  cbn [fst snd self world out append_history history config gaming_score
       passed_result failed_result exception_result passed] in *;
  use_detector_facts.

Lemma after_history a r :
  history (self (after a r)) = history (self r) ++ [record a r].
Proof. attempt_paths a r; reflexivity. Qed.

Lemma after_config a r : config (self (after a r)) = config (self r).
Proof. attempt_paths a r; reflexivity. Qed.

Lemma record_attempt a r : attempt (record a r) = a.
Proof. attempt_paths a r; reflexivity. Qed.

Lemma record_passed a r : passed (record a r) = passes r.
Proof. attempt_paths a r; reflexivity. Qed.

Lemma body_returns a r :
  (body a r).1 =
    if (passes r || (max_retries (config (self r)) <=? a))%bool
    then Some (record a r) else None.
Proof.
  attempt_paths a r; rewrite ?Hlast; cbn [orb]; try reflexivity.
  all: destruct (max_retries _ <=? a) eqn:Hlast; try reflexivity; lia.
Qed.


Lemma after_score a r :
  gaming_score (self (after a r)) =
    match detects a r with
    | Some validation_result =>
        gaming_score (_detect_gaming_in_retry (self r) validation_result).1
    | None => gaming_score (self r)
    end.
Proof.
  unfold detector_runs.
  attempt_paths a r; rewrite ?Hpassed, ?Hdetect; reflexivity.
Qed.

Lemma after_task_calls a r :
  task_calls (out (after a r)) = S (task_calls (out r)).
Proof.
  unfold task_calls.
  attempt_paths a r; rewrite ?List.filter_app, ?length_app; cbn; try lia.
  all: enough (Hnone : List.filter is_call_task l = []) by (rewrite Hnone; cbn; lia).
  all: clear Hd; induction Hmessages as [|e l He Hm IH]; [reflexivity|].
  all: destruct e; cbn in *; first [discriminate He | exact IH].
Qed.

Lemma after_messages a r :
  detector_messages (out (after a r)) =
    detector_messages (out r) ++
    match detects a r with
    | Some validation_result => (_detect_gaming_in_retry (self r) validation_result).2
    | None => []
    end.
Proof.
  unfold detector_runs, detector_messages.
  attempt_paths a r; rewrite ?Hpassed, ?Hdetect;
    rewrite ?List.filter_app; cbn; rewrite ?app_nil_r; try reflexivity.
  all: f_equal.
  all: clear Hd; induction Hmessages as [|e l He Hm IH]; [reflexivity|].
  all: cbn; rewrite He; f_equal; exact IH.
Qed.

Lemma gaming_increment_nonneg prev result : (0 <= gaming_increment prev result)%Q.
Proof. unfold gaming_increment. repeat case_bool_decide; lra. Qed.

Lemma after_score_mono a r :
  (gaming_score (self r) <= gaming_score (self (after a r)))%Q.
Proof.
  rewrite after_score. destruct (detects a r) as [validation_result|]; [|lra].
  rewrite detect_score. destruct (last (history (self r))) as [prev|]; [|lra].
  pose proof (gaming_increment_nonneg prev validation_result). lra.
Qed.

(** *** Several attempts in a row *)

Lemma runs_cons a k r : runs a (S k) r = runs (a + 1) k (after a r).
Proof.
  induction k as [|k IH].
  - cbn. by rewrite Z.add_0_r.
  - change (runs a (S (S k)) r) with (after (a + Z.of_nat (S k)) (runs a (S k) r)).
    rewrite IH. cbn [run_attempts]. f_equal. lia.
Qed.

Lemma runs_config a k r : config (self (runs a k r)) = config (self r).
Proof.
  induction k as [|k IH]; [reflexivity|].
  cbn [run_attempts]. by rewrite after_config.
Qed.

Lemma runs_history a k r :
  history (self (runs a k r)) =
    history (self r) ++ ((λ j : nat, record (a + Z.of_nat j) (runs a j r)) <$> seq 0 k).
Proof.
  induction k as [|k IH].
  - cbn. by rewrite app_nil_r.
  - cbn [run_attempts]. rewrite after_history, IH, seq_S, fmap_app, app_assoc.
    reflexivity.
Qed.

Lemma runs_task_calls a k r :
  task_calls (out (runs a k r)) = (task_calls (out r) + k)%nat.
Proof.
  induction k as [|k IH]; cbn [run_attempts].
  - lia.
  - rewrite after_task_calls, IH. lia.
Qed.

Lemma runs_score_mono a k r :
  (gaming_score (self r) <= gaming_score (self (runs a k r)))%Q.
Proof.
  induction k as [|k IH]; cbn [run_attempts].
  - lra.
  - pose proof (after_score_mono (a + Z.of_nat k) (runs a k r)). lra.
Qed.

(** *** The loop stops at the first pass or at the last attempt *)

Lemma loop_stops (len : nat) : ∀ a r,
  (0 < len)%nat →
  a + Z.of_nat len - 1 = max_retries (config (self r)) →
  ∃ k : nat,
    (k < len)%nat ∧
    loop (seqZ a (Z.of_nat len)) r
      = (Some (record (a + Z.of_nat k) (runs a k r)), runs a (S k) r) ∧
    (∀ j, (j < k)%nat → passes (runs a j r) = false) ∧
    (passes (runs a k r) = false → S k = len).
Proof.
  induction len as [|len IH]; intros a r Hlen Hmax; [lia|].
  rewrite seqZ_cons by lia. cbn [for_attempts].
  pose proof (body_returns a r) as Hret.
  destruct (body a r) as [returned r'] eqn:Hbody.
  assert (Hr' : r' = after a r) by (unfold after_attempt; by rewrite Hbody).
  cbn [fst] in Hret. subst returned.
  destruct (passes r || (max_retries (config (self r)) <=? a))%bool eqn:Hstop.
  - exists 0%nat. cbn [run_attempts]. rewrite Z.add_0_r, <- Hr'.
    repeat split; [lia | intros j Hj; lia |].
    intros Hfail. rewrite Hfail in Hstop. cbn in Hstop. lia.
  - apply orb_false_iff in Hstop as [Hfail Hmore].
    replace (Z.pred (Z.of_nat (S len))) with (Z.of_nat len) by lia.
    destruct (IH (Z.succ a) r') as (k & Hk & Hloop & Hbefore & Hend).
    + lia.
    + rewrite Hr', after_config. lia.
    + exists (S k). rewrite (runs_cons a (S k) r), (runs_cons a k r), <- Hr'.
      replace (a + Z.of_nat (S k)) with (Z.succ a + Z.of_nat k) by lia.
      replace (a + 1) with (Z.succ a) by lia.
      repeat split; [lia | exact Hloop | | intros H; specialize (Hend H); lia].
      intros [|j] Hj; [exact Hfail|].
      rewrite runs_cons, <- Hr'. replace (a + 1) with (Z.succ a) by lia.
      apply Hbefore. lia.
Qed.

(** [execute] with [max_retries >= 1]: it runs [k + 1] attempts, returns
    the result of the last of them, no attempt before it passed, and it
    stops short of [max_retries] attempts only on a pass. *)
Lemma exec_stops r :
  1 ≤ max_retries (config (self r)) →
  ∃ k : nat,
    Z.of_nat (S k) ≤ max_retries (config (self r)) ∧
    exec r = (Ok (record (1 + Z.of_nat k) (runs 1 k r)), runs 1 (S k) r) ∧
    (∀ j, (j < k)%nat → passes (runs 1 j r) = false) ∧
    (passes (runs 1 k r) = false → Z.of_nat (S k) = max_retries (config (self r))).
Proof.
  intros Hmax. unfold execute, py_range.
  destruct (loop_stops (Z.to_nat (max_retries (config (self r)))) 1 r)
    as (k & Hk & Hloop & Hbefore & Hend); [lia | lia |].
  replace (max_retries (config (self r)) + 1 - 1)
    with (Z.of_nat (Z.to_nat (max_retries (config (self r))))) by lia.
  rewrite Hloop. exists k. repeat split; [lia | exact Hbefore |].
  intros H. specialize (Hend H). lia.
Qed.

Lemma runs_records_last a k r :
  last ((λ j : nat, record (a + Z.of_nat j) (runs a j r)) <$> seq 0 (S k))
    = Some (record (a + Z.of_nat k) (runs a k r)).
Proof. rewrite seq_S, fmap_app. cbn [fmap list_fmap]. by rewrite last_snoc. Qed.

Lemma runs_records_lookup a k r j rec :
  ((λ j : nat, record (a + Z.of_nat j) (runs a j r)) <$> seq 0 k) !! j = Some rec →
  (j < k)%nat ∧ rec = record (a + Z.of_nat j) (runs a j r).
Proof.
  rewrite list_lookup_fmap. intros H.
  destruct (seq 0 k !! j) as [i|] eqn:Hi; [|discriminate].
  apply lookup_seq in Hi as [-> Hlt]. cbn in H. split; [exact Hlt | congruence].
Qed.

Lemma runs_last a k r :
  last (history (self (runs a (S k) r))) = Some (record (a + Z.of_nat k) (runs a k r)).
Proof.
  rewrite runs_history, seq_S, fmap_app, app_assoc. cbn [fmap list_fmap].
  by rewrite last_snoc.
Qed.

Lemma record_of_exception a r e :
  outcome r = Raise e →
  record a r = exception_result e a (attempt_duration task_func validation_func time_time r).
Proof. unfold attempt_record. by intros ->. Qed.

Lemma record_of_failure a r validation_result :
  outcome r = Ok validation_result → passed validation_result = false →
  record a r =
    failed_result validation_result
      (_generate_fix_suggestions validation_result (_analyze_failure validation_result))
      a (attempt_duration task_func validation_func time_time r).
Proof. unfold attempt_record. by intros -> ->. Qed.

Lemma passes_of_exception r e : outcome r = Raise e → passes r = false.
Proof. unfold attempt_passes. by intros ->. Qed.

Lemma exec_final r :
  (exec r).2 = (loop (py_range 1 (max_retries (config (self r)) + 1)) r).2.
Proof.
  unfold execute.
  destruct (loop _ r) as [[result|] r']; [reflexivity|].
  by destruct (last (history (self r'))).
Qed.

Lemma exec_without_attempts r :
  max_retries (config (self r)) < 1 → (exec r).2 = r.
Proof.
  intros Hnone. rewrite exec_final. unfold py_range.
  by rewrite seqZ_nil by lia.
Qed.

Lemma detects_of_exception a r e : outcome r = Raise e → detects a r = None.
Proof. unfold detector_runs. by intros ->. Qed.

Lemma detects_of_retry a r validation_result :
  outcome r = Ok validation_result → passed validation_result = false →
  1 < a → enable_gaming_detection (config (self r)) = true →
  detects a r = Some validation_result.
Proof.
  unfold detector_runs. intros -> -> Ha ->.
  by rewrite (proj2 (Z.ltb_lt 1 a) Ha).
Qed.

Lemma detects_first r : detects 1 r = None.
Proof.
  unfold detector_runs. destruct (outcome r) as [validation_result|]; [|reflexivity].
  by destruct (passed validation_result).
Qed.

(** *** A validation that always fails the same way *)

Lemma warnings_of_messages evs :
  high_gaming_warnings evs = high_gaming_warnings (detector_messages evs).
Proof.
  unfold high_gaming_warnings, detector_messages.
  induction evs as [|[] evs IH]; cbn; congruence.
Qed.

Lemma warnings_app evs evs' :
  high_gaming_warnings (evs ++ evs') =
    (high_gaming_warnings evs + high_gaming_warnings evs')%nat.
Proof. unfold high_gaming_warnings. by rewrite List.filter_app, length_app. Qed.

Lemma after_warnings a r :
  high_gaming_warnings (out (after a r)) =
    (high_gaming_warnings (out r) +
     match detects a r with
     | Some _ => if Qlt_le_dec (5 # 10) (gaming_score (self (after a r))) then 1 else 0
     | None => 0
     end)%nat.
Proof.
  rewrite (warnings_of_messages (out (after a r))), after_messages, warnings_app,
    <- warnings_of_messages, after_score.
  destruct (detects a r); [by rewrite detect_warning | reflexivity].
Qed.

Lemma tenths_add (z : Z) : ((z # 10) + (2 # 10) == (z + 2) # 10)%Q.
Proof. unfold Qeq, Qplus; cbn. lia. Qed.

Section ConstantFailure.

Variable cfg : ValidationLoopConfig.
Variable errs : list string.
Variable tag : option ValidationProtocol.
Hypothesis detection_on : enable_gaming_detection cfg = true.
Hypothesis task_returns : ∀ w, ∃ t w', task_func w = (Ok t, w').
Hypothesis validation_fails : ∀ t w, ∃ vr w',
  validation_func t w = (Ok vr, w') ∧
  passed vr = false ∧ errors vr = errs ∧ protocol vr = tag.

Lemma constant_outcome r :
  ∃ vr, outcome r = Ok vr ∧ passed vr = false ∧ errors vr = errs ∧ protocol vr = tag.
Proof.
  unfold attempt_outcome, call_task_and_validation.
  destruct (task_returns (time_time (world r)).2) as (t & w' & ->).
  destruct (validation_fails t w') as (vr & w'' & -> & Hvr). by exists vr.
Qed.

Lemma constant_record a r :
  errors (record a r) = errs ∧ protocol (record a r) = tag.
Proof.
  destruct (constant_outcome r) as (vr & Hvr & Hfail & He & Hp).
  by rewrite (record_of_failure a r vr Hvr Hfail).
Qed.

Lemma constant_failure_run w (j : nat) :
  (gaming_score (self (runs 1 (S j) (fresh_run cfg w))) == (2 * Z.of_nat j) # 10)%Q ∧
  high_gaming_warnings (out (runs 1 (S j) (fresh_run cfg w))) = (j - 2)%nat.
Proof.
  induction j as [|j [IHs IHw]].
  - cbn [run_attempts]. change (1 + Z.of_nat 0) with 1.
    rewrite after_warnings, after_score, detects_first. split; reflexivity.
  - change (runs 1 (S (S j)) (fresh_run cfg w))
      with (after (1 + Z.of_nat (S j)) (runs 1 (S j) (fresh_run cfg w))).
    destruct (constant_outcome (runs 1 (S j) (fresh_run cfg w)))
      as (vr & Hvr & Hfail & He & Hp).
    assert (Hdet : detects (1 + Z.of_nat (S j)) (runs 1 (S j) (fresh_run cfg w)) = Some vr).
    { apply detects_of_retry; [exact Hvr | exact Hfail | lia | by rewrite runs_config]. }
    assert (Hs : (gaming_score (self (after (1 + Z.of_nat (S j))
                     (runs 1 (S j) (fresh_run cfg w)))) == (2 * Z.of_nat (S j)) # 10)%Q).
    { rewrite after_score, Hdet, detect_score, runs_last, IHs.
      unfold gaming_increment.
      destruct (constant_record (1 + Z.of_nat j) (runs 1 j (fresh_run cfg w))) as [He' Hp'].
      rewrite bool_decide_eq_true_2 by congruence.
      rewrite bool_decide_eq_false_2 by (intros H; apply H; congruence).
      rewrite Qplus_0_r, tenths_add.
      replace (2 * Z.of_nat j + 2) with (2 * Z.of_nat (S j)) by lia. reflexivity. }
    split; [exact Hs|].
    rewrite after_warnings, Hdet, IHw.
    destruct (Qlt_le_dec _ _) as [Hlt|Hle].
    + rewrite Hs in Hlt. unfold Qlt in Hlt; cbn in Hlt. lia.
    + rewrite Hs in Hle. unfold Qle in Hle; cbn in Hle. lia.
Qed.

End ConstantFailure.

(** *** Monotonicity over a whole call *)

Lemma loop_grows (attempts : list Z) : ∀ r,
  (gaming_score (self r) <= gaming_score (self (loop attempts r).2))%Q ∧
  history (self r) `prefix_of` history (self (loop attempts r).2).
Proof.
  induction attempts as [|a attempts IH]; intros r; cbn [for_attempts].
  - cbn [snd]. split; [lra | reflexivity].
  - pose proof (after_score_mono a r) as Hs.
    pose proof (after_history a r) as Hh.
    unfold after_attempt in Hs, Hh.
    destruct (body a r) as [[result|] r']; cbn [snd] in *.
    + split; [exact Hs | rewrite Hh; by apply prefix_app_r].
    + destruct (IH r') as [IHs IHh]. split; [lra|].
      etrans; [|exact IHh]. rewrite Hh. by apply prefix_app_r.
Qed.

(** *** The attempts of the loop are those of the callables *)

(** The answers of [k] consecutive attempts from run [r]. *)
Abbreviation answers a k r := ((λ j : nat, outcome (runs a j r)) <$> seq 0 k).

Lemma passes_is_pass r : passes r = is_pass (outcome r).
Proof. reflexivity. Qed.

(** One attempt calls the callables as [answered] tells, and pauses
    before the next attempt exactly when the loop goes on after a
    verdict. *)
Lemma after_answered a r :
  ∃ w',
    answered task_func validation_func time_time (world r) (outcome r) w' ∧
    world (after a r) =
      if (passes r || (max_retries (config (self r)) <=? a))%bool
      then w' else before_retry time_sleep (outcome r) w'.
Proof.
  unfold after_attempt, attempt_passes, attempt_outcome, attempt_body,
    call_task_and_validation.
  destruct (time_time (world r)) as [start_time w0] eqn:Hstart. cbn [fst snd].
  destruct (task_func w0) as [[task_result|e] w1] eqn:Htask.
  - destruct (validation_func task_result w1) as [[v|e] w2] eqn:Hvalidation;
      cbn [fst snd]; exists (time_time w2).2;
      (split; [eapply validation_answered;
                 [rewrite Hstart; cbn [snd]; eassumption | eassumption]|]);
      destruct (time_time w2) as [now w3]; cbn [fst snd].
    + destruct (passed v) eqn:Hpassed; cbn [orb]; [reflexivity|].
      destruct (if (1 <? a) && enable_gaming_detection (config (self r))
                then _detect_gaming_in_retry (self r) v else (self r, []))
        as [self' printed] eqn:Hdetect.
      assert (config self' = config (self r)) as Hconfig.
      { destruct ((1 <? a) && enable_gaming_detection (config (self r)))%bool.
        - rewrite <- (detect_config (self r) v), Hdetect. reflexivity.
        - by injection Hdetect as <- _. }
      cbn [append_history config]. rewrite Hconfig.
      destruct (a <? max_retries (config (self r))) eqn:Hretry;
        destruct (max_retries (config (self r)) <=? a) eqn:Hlast;
        cbn [world before_retry]; first [reflexivity | lia].
    + cbn [append_history config].
      destruct (max_retries (config (self r)) <=? a); reflexivity.
  - cbn [fst snd]. exists (time_time w1).2.
    split; [eapply task_raised; rewrite Hstart; cbn [snd]; eassumption|].
    destruct (time_time w1) as [now w3]; cbn [fst snd append_history config].
    destruct (max_retries (config (self r)) <=? a); reflexivity.
Qed.

Lemma answers_cons a k r :
  answers a (S k) r = outcome r :: answers (a + 1) k (after a r).
Proof.
  change (seq 0 (S k)) with (0%nat :: seq 1 k).
  rewrite fmap_cons, <- fmap_S_seq, <- list_fmap_compose. f_equal.
  apply list_fmap_ext. intros i j _. unfold compose. by rewrite (runs_cons a j r).
Qed.

(** The attempts of a run that goes on while no attempt passes and
    attempts remain. *)
Lemma runs_attempted (k : nat) : ∀ a r,
  (∀ j, (j < k)%nat → passes (runs a j r) = false) →
  a + Z.of_nat k ≤ max_retries (config (self r)) →
  (passes (runs a k r) = false → a + Z.of_nat k = max_retries (config (self r))) →
  attempted task_func validation_func time_time time_sleep
    (world r) (answers a (S k) r) (world (runs a (S k) r)).
Proof.
  induction k as [|k IH]; intros a r Hbefore Hle Hend.
  - destruct (after_answered a r) as (w' & Hanswered & Hworld).
    cbn [run_attempts seq fmap list_fmap] in *. rewrite Z.add_0_r, Hworld.
    destruct (passes r) eqn:Hpasses; cbn [orb].
    + by apply attempted_last.
    + specialize (Hend eq_refl).
      replace (max_retries (config (self r)) <=? a) with true by lia.
      by apply attempted_last.
  - destruct (after_answered a r) as (w' & Hanswered & Hworld).
    rewrite answers_cons, (runs_cons a (S k) r).
    pose proof (Hbefore 0%nat ltac:(lia)) as Hfirst. cbn [run_attempts] in Hfirst.
    rewrite Hfirst in Hworld. cbn [orb] in Hworld.
    replace (max_retries (config (self r)) <=? a) with false in Hworld by lia.
    eapply attempted_retry; [exact Hanswered | exact Hfirst |].
    rewrite <- Hworld. apply IH.
    + intros j Hj. rewrite <- (runs_cons a j r). apply Hbefore. lia.
    + rewrite after_config. lia.
    + rewrite <- (runs_cons a k r), after_config. intros H. specialize (Hend H). lia.
Qed.

(** ** The claims about [execute] *)


(** C2: let attempt [j + 1], with [j >= 1], fail validation with result
    [vr] while gaming detection is enabled.  Then the history holds a last
    result [prev], stored by attempt [j], and the attempt raises the score
    by 0.2 if the errors of [prev] and [vr] are equal, plus 0.1 if their
    protocols differ; when the errors differ and the protocols agree the
    score stays as it is. *)
Theorem C2_retry_raises_gaming_score r (j : nat) (vr : ValidationResult) :
  (1 ≤ j)%nat →
  enable_gaming_detection (config (self r)) = true →
  outcome (runs 1 j r) = Ok vr →
  passed vr = false →
  ∃ prev,
    last (history (self (runs 1 j r))) = Some prev ∧
    attempt prev = Z.of_nat j ∧
    (gaming_score (self (runs 1 (S j) r)) ==
       gaming_score (self (runs 1 j r))
       + (if bool_decide (errors prev = errors vr) then 2 # 10 else 0)
       + (if bool_decide (protocol prev ≠ protocol vr) then 1 # 10 else 0))%Q ∧
    (errors prev ≠ errors vr → protocol prev = protocol vr →
     gaming_score (self (runs 1 (S j) r)) = gaming_score (self (runs 1 j r))).
Proof.
  intros Hj Hon Hvr Hfail.
  destruct j as [|j]; [lia|].
  exists (record (1 + Z.of_nat j) (runs 1 j r)).
  pose proof (runs_last 1 j r) as Hlast.
  split; [exact Hlast|]. split; [rewrite record_attempt; lia|].
  assert (Hdet : detects (1 + Z.of_nat (S j)) (runs 1 (S j) r) = Some vr).
  { apply detects_of_retry; [exact Hvr | exact Hfail | lia | by rewrite runs_config]. }
  change (runs 1 (S (S j)) r)
    with (after (1 + Z.of_nat (S j)) (runs 1 (S j) r)).
  rewrite after_score, Hdet. split.
  - rewrite detect_score, Hlast. unfold gaming_increment. ring.
  - intros He Hp. apply detect_score_unchanged. by rewrite Hlast.
Qed.

(** C3: take a fresh loop with gaming detection enabled and callables
    such that every attempt fails validation with the same errors and the
    same protocol.  Then [execute] runs all [max_retries] attempts and
    returns a failing result, whatever warnings were printed on the way;
    after [j] attempts the score is 0.2 * (j - 1) and the
    high-gaming-score warning has been printed [j - 3] times (never, up
    to the third attempt).  In particular after attempt 3, the second
    repeat, the score is 0.4 with no warning, and attempt 4, the third
    repeat, brings it to 0.6, above 0.5, with the first warning. *)
Theorem C3_repeated_failures_warn_at_third_repeat
    (cfg : ValidationLoopConfig) (w : W)
    (errs : list string) (tag : option ValidationProtocol) :
  enable_gaming_detection cfg = true →
  1 ≤ max_retries cfg →
  (∀ w, ∃ t w', task_func w = (Ok t, w')) →
  (∀ t w, ∃ vr w',
     validation_func t w = (Ok vr, w') ∧
     passed vr = false ∧ errors vr = errs ∧ protocol vr = tag) →
  (∃ result,
     exec (fresh_run cfg w)
       = (Ok result, runs 1 (Z.to_nat (max_retries cfg)) (fresh_run cfg w)) ∧
     passed result = false) ∧
  length (history (self (runs 1 (Z.to_nat (max_retries cfg)) (fresh_run cfg w))))
    = Z.to_nat (max_retries cfg) ∧
  (∀ j : nat, (1 ≤ j)%nat → Z.of_nat j ≤ max_retries cfg →
     (gaming_score (self (runs 1 j (fresh_run cfg w))) == (2 * (Z.of_nat j - 1)) # 10)%Q ∧
     high_gaming_warnings (out (runs 1 j (fresh_run cfg w))) = (j - 3)%nat) ∧
  (3 ≤ max_retries cfg →
     (gaming_score (self (runs 1 3 (fresh_run cfg w))) == 4 # 10)%Q ∧
     high_gaming_warnings (out (runs 1 3 (fresh_run cfg w))) = 0%nat) ∧
  (4 ≤ max_retries cfg →
     (gaming_score (self (runs 1 4 (fresh_run cfg w))) == 6 # 10)%Q ∧
     (5 # 10 < gaming_score (self (runs 1 4 (fresh_run cfg w))))%Q ∧
     high_gaming_warnings (out (runs 1 4 (fresh_run cfg w))) = 1%nat).
Proof.
  intros Hon Hmax Htask Hval.
  pose proof (constant_failure_run cfg errs tag Hon Htask Hval w) as Hrun.
  split; [|split; [|split; [|split]]].
  - destruct (exec_stops (fresh_run cfg w) Hmax) as (k & Hk & Hexec & _ & Hend).
    assert (Hnone : passes (runs 1 k (fresh_run cfg w)) = false).
    { unfold attempt_passes.
      destruct (constant_outcome errs tag Htask Hval (runs 1 k (fresh_run cfg w)))
        as (vr & -> & Hfail & _). exact Hfail. }
    specialize (Hend Hnone). cbn in Hend.
    replace (Z.to_nat (max_retries cfg)) with (S k) by lia.
    eexists. split; [exact Hexec|]. by rewrite record_passed.
  - rewrite runs_history, length_app, length_fmap, length_seq. reflexivity.
  - intros [|j] Hj Hle; [lia|].
    destruct (Hrun j) as [Hs Hw]. split.
    + rewrite Hs. replace (Z.of_nat (S j) - 1) with (Z.of_nat j) by lia. reflexivity.
    + rewrite Hw. lia.
  - intros _. destruct (Hrun 2%nat) as [Hs Hw]. split; [exact Hs | exact Hw].
  - intros _. destruct (Hrun 3%nat) as [Hs Hw].
    split; [exact Hs|]. split; [rewrite Hs; reflexivity | exact Hw].
Qed.

(** C5: with [max_retries >= 1], [execute] is total, it returns a result,
    and between its start and its return the task function is called at
    least once and at most [max_retries] times. *)
Theorem C5_execute_calls_task_at_most_max_retries r :
  1 ≤ max_retries (config (self r)) →
  ∃ (result : ValidationResult) (r' : Run) (calls : nat),
    exec r = (Ok result, r') ∧
    task_calls (out r') = (task_calls (out r) + calls)%nat ∧
    (1 ≤ calls)%nat ∧
    Z.of_nat calls ≤ max_retries (config (self r)).
Proof.
  intros Hmax.
  destruct (exec_stops r Hmax) as (k & Hk & Hexec & _).
  eexists _, _, (S k). split; [exact Hexec|].
  split; [apply runs_task_calls|]. split; [lia | exact Hk].
Qed.

(** C8 (as amended): a failing validation attempt stores a result whose
    suggestions are those generated for the validation result.  They are
    non-empty and fixed by the protocol alone for every protocol but
    ZeroTolerance, and also when there is no protocol; for ZeroTolerance
    they are non-empty exactly when the lower-cased errors contain one of
    the keywords console.log, typescript, type error, eslint, catch or
    error. *)
Theorem C8_failed_attempt_records_protocol_suggestions a r vr :
  outcome r = Ok vr →
  passed vr = false →
  ∃ rec,
    history (self (after a r)) = history (self r) ++ [rec] ∧
    passed rec = false ∧
    protocol rec = protocol vr ∧
    suggestions rec = _generate_fix_suggestions vr (_analyze_failure vr) ∧
    (protocol vr ≠ Some ZERO_TOLERANCE →
       suggestions rec ≠ [] ∧
       ∀ vr' analysis', protocol vr' = protocol vr →
         _generate_fix_suggestions vr' analysis' = suggestions rec) ∧
    (protocol vr = Some ZERO_TOLERANCE →
       (suggestions rec ≠ [] ↔ zero_tolerance_keyword (errors_str vr) = true)).
Proof.
  intros Hvr Hfail. exists (record a r).
  split; [apply after_history|].
  rewrite (record_of_failure _ _ vr Hvr Hfail).
  cbn [passed protocol suggestions failed_result].
  do 3 (split; [reflexivity|]). split.
  - intros Hp. split; [by apply suggestions_off_zero_tolerance|].
    intros vr' analysis' Heq. unfold _generate_fix_suggestions. rewrite Heq.
    destruct (protocol vr) as [[]|]; first [reflexivity | by contradiction Hp].
  - apply suggestions_zero_tolerance.
Qed.

(** C9 (as amended): a loop starts with score 0 and an empty history;
    over any call of [execute], with any configuration, the score does not
    decrease and the old history is a prefix of the new one; the first
    attempt of a call never changes the score nor prints a detector
    message, whatever the history holds from earlier calls; and at the
    start of every later attempt the last result of the history is the one
    stored by the preceding attempt of the same call. *)
Theorem C9_gaming_score_never_decreases_and_history_persists :
  (∀ cfg, gaming_score (init cfg) = 0%Q ∧ history (init cfg) = []) ∧
  (∀ r,
     (gaming_score (self r) <= gaming_score (self (exec r).2))%Q ∧
     history (self r) `prefix_of` history (self (exec r).2)) ∧
  (∀ r,
     gaming_score (self (after 1 r)) = gaming_score (self r) ∧
     detector_messages (out (after 1 r)) = detector_messages (out r)) ∧
  (∀ r (j : nat),
     (1 ≤ j)%nat →
     ∃ recs prev,
       history (self (runs 1 j r)) = history (self r) ++ recs ∧
       length recs = j ∧
       last recs = Some prev ∧
       last (history (self (runs 1 j r))) = Some prev ∧
       attempt prev = Z.of_nat j).
Proof.
  split; [|split; [|split]].
  - intros cfg. split; reflexivity.
  - intros r. rewrite exec_final. apply loop_grows.
  - intros r. rewrite after_score, after_messages, detects_first, app_nil_r.
    split; reflexivity.
  - intros r [|j] Hj; [lia|].
    eexists _, (record (1 + Z.of_nat j) (runs 1 j r)).
    split; [apply runs_history|].
    split; [by rewrite length_fmap, length_seq|].
    split; [apply runs_records_last|].
    split; [apply runs_last|].
    rewrite record_attempt. lia.
Qed.

(** C10: when each of [k] consecutive attempts ends in an exception with
    message [e], the gaming score after them is the score before them, the
    detector has printed nothing, and the history has grown by [k] failing
    results without protocol whose errors are [[e]]. *)
Theorem C10_exception_attempts_skip_gaming_detection a k r e :
  (∀ j, (j < k)%nat → outcome (runs a j r) = Raise e) →
  gaming_score (self (runs a k r)) = gaming_score (self r) ∧
  detector_messages (out (runs a k r)) = detector_messages (out r) ∧
  ∃ recs,
    history (self (runs a k r)) = history (self r) ++ recs ∧
    length recs = k ∧
    Forall (λ rec, passed rec = false ∧ protocol rec = None ∧ errors rec = [e]) recs.
Proof.
  intros Hraise. split; [|split].
  - induction k as [|k IH]; [reflexivity|].
    cbn [run_attempts].
    rewrite after_score, (detects_of_exception _ _ e) by (apply Hraise; lia).
    apply IH. intros j Hj. apply Hraise. lia.
  - induction k as [|k IH]; [reflexivity|].
    cbn [run_attempts].
    rewrite after_messages, (detects_of_exception _ _ e), app_nil_r by (apply Hraise; lia).
    apply IH. intros j Hj. apply Hraise. lia.
  - eexists. split; [apply runs_history|].
    split; [by rewrite length_fmap, length_seq|].
    apply Forall_fmap, Forall_forall. intros j Hj.
    apply elem_of_seq in Hj. cbn.
    rewrite (record_of_exception _ _ e) by (apply Hraise; lia).
    repeat split.
Qed.

(** ** Further properties of [execute] *)

Lemma messages_are_not_calls (l : list event) :
  Forall (λ e, is_detector_message e = true) l →
  List.filter is_call_task l = [] ∧
  List.filter is_call_validation l = [] ∧
  List.filter is_sleep l = [].
Proof.
  induction 1 as [|e l He _ (IH1 & IH2 & IH3)]; [by repeat split|].
  destruct e; cbn in *; first [discriminate He | by repeat split].
Qed.

Lemma after_validation_calls a r :
  ∃ d : nat, (d ≤ 1)%nat ∧
    validation_calls (out (after a r)) = (validation_calls (out r) + d)%nat.
Proof.
  unfold validation_calls.
  attempt_paths a r; rewrite ?List.filter_app, ?length_app;
    try (destruct (messages_are_not_calls _ Hmessages) as (_ & -> & _));
    cbn; first [by exists 1%nat; split; lia | by exists 0%nat; split; lia].
Qed.

Lemma after_sleeps a r :
  sleeps (out (after a r)) =
    (sleeps (out r) +
     match (body a r).1, outcome r with
     | None, Ok _ => 1
     | _, _ => 0
     end)%nat.
Proof.
  unfold sleeps.
  attempt_paths a r; rewrite ?List.filter_app, ?length_app;
    try (destruct (messages_are_not_calls _ Hmessages) as (_ & _ & ->));
    cbn; lia.
Qed.

Lemma runs_validation_calls a k r :
  ∃ d : nat, (d ≤ k)%nat ∧
    validation_calls (out (runs a k r)) = (validation_calls (out r) + d)%nat.
Proof.
  induction k as [|k (d & Hd & IH)]; cbn [run_attempts].
  - exists 0%nat. split; lia.
  - destruct (after_validation_calls (a + Z.of_nat k) (runs a k r)) as (d' & Hd' & ->).
    exists (d + d')%nat. split; lia.
Qed.

Lemma runs_sleeps a k r :
  ∃ d : nat, (d ≤ k)%nat ∧ sleeps (out (runs a k r)) = (sleeps (out r) + d)%nat.
Proof.
  induction k as [|k (d & Hd & IH)]; cbn [run_attempts].
  - exists 0%nat. split; lia.
  - rewrite after_sleeps, IH.
    destruct ((body (a + Z.of_nat k) (runs a k r)).1) as [returned|];
      [exists d; split; lia|].
    destruct (outcome (runs a k r)); [exists (S d) | exists d]; split; lia.
Qed.


(** X2: with [max_retries < 1], [execute] makes no attempt: it returns the
    last result already in the history, or raises [IndexError] when the
    history is empty, and leaves the loop, the world and the trace as they
    were. *)
Theorem execute_without_retries_returns_last_result r :
  max_retries (config (self r)) < 1 →
  execute task_func validation_func time_time time_sleep r =
    (match last (history (self r)) with
     | Some result => Ok result
     | None => Raise "list index out of range"
     end, r).
Proof.
  intros Hnone. unfold execute, py_range.
  rewrite seqZ_nil by lia. cbn [for_attempts].
  by destruct (last (history (self r))).
Qed.

Lemma detects_disabled a r :
  enable_gaming_detection (config (self r)) = false → detects a r = None.
Proof.
  unfold detector_runs. intros ->. rewrite andb_false_r.
  destruct (outcome r) as [validation_result|]; [|reflexivity].
  by destruct (passed validation_result).
Qed.

Lemma loop_without_detection (attempts : list Z) : ∀ r,
  enable_gaming_detection (config (self r)) = false →
  gaming_score (self (loop attempts r).2) = gaming_score (self r) ∧
  detector_messages (out (loop attempts r).2) = detector_messages (out r).
Proof.
  induction attempts as [|a attempts IH]; intros r Hoff; cbn [for_attempts].
  - by split.
  - pose proof (after_score a r) as Hs. pose proof (after_messages a r) as Hm.
    pose proof (after_config a r) as Hc.
    rewrite (detects_disabled a r Hoff) in Hs, Hm. rewrite app_nil_r in Hm.
    unfold after_attempt in Hs, Hm, Hc.
    destruct (body a r) as [[result|] r']; cbn [snd] in *.
    + split; [exact Hs | exact Hm].
    + destruct (IH r') as [IHs IHm]; [congruence|]. split; congruence.
Qed.

(** X3: with gaming detection disabled, a call of [execute] leaves the
    gaming score as it was and prints no detector message, whatever the
    attempts do. *)
Theorem execute_without_detection_keeps_score r :
  enable_gaming_detection (config (self r)) = false →
  gaming_score (self (exec r).2) = gaming_score (self r) ∧
  detector_messages (out (exec r).2) = detector_messages (out r).
Proof. intros Hoff. rewrite exec_final. by apply loop_without_detection. Qed.

Lemma gaming_increment_tenths prev result :
  ∃ i : Z, 0 ≤ i ≤ 3 ∧ (gaming_increment prev result == i # 10)%Q.
Proof.
  unfold gaming_increment.
  repeat case_bool_decide;
    [exists 3 | exists 2 | exists 1 | exists 0]; split; first [lia | reflexivity].
Qed.

Lemma tenths_sum (n i : Z) : ((n # 10) + (i # 10) == (n + i) # 10)%Q.
Proof. unfold Qeq, Qplus; cbn. lia. Qed.

Lemma plus_no_tenths (q : Q) : (q == q + (0 # 10))%Q.
Proof. lra. Qed.

Lemma after_score_step a r :
  ∃ i : Z, 0 ≤ i ≤ 3 ∧ (a ≤ 1 → i = 0) ∧
    (gaming_score (self (after a r)) == gaming_score (self r) + (i # 10))%Q.
Proof.
  assert (Hsame : ∃ i : Z, 0 ≤ i ≤ 3 ∧ (a ≤ 1 → i = 0) ∧
            (gaming_score (self r) == gaming_score (self r) + (i # 10))%Q).
  { exists 0. split; [lia|]. split; [done | apply plus_no_tenths]. }
  rewrite after_score. unfold detector_runs.
  destruct (outcome r) as [validation_result|]; [|exact Hsame].
  destruct (passed validation_result); [exact Hsame|].
  destruct (1 <? a) eqn:Ha; cbn [andb]; [|exact Hsame].
  apply Z.ltb_lt in Ha.
  destruct (enable_gaming_detection _); [|exact Hsame].
  destruct (last (history (self r))) as [prev|] eqn:Hlast.
  - destruct (gaming_increment_tenths prev validation_result) as (i & Hi & Hinc).
    exists i. split; [exact Hi|]. split; [lia|].
    by rewrite detect_score, Hlast, Hinc.
  - exists 0. split; [lia|]. split; [done|].
    rewrite detect_score, Hlast. lra.
Qed.

Lemma loop_score_step (len : nat) : ∀ a r,
  1 ≤ a →
  ∃ n : Z, 0 ≤ n ≤ 3 * (Z.of_nat len - (if a =? 1 then 1 else 0)) `max` 0 ∧
    (gaming_score (self (loop (seqZ a (Z.of_nat len)) r).2)
     == gaming_score (self r) + (n # 10))%Q.
Proof.
  induction len as [|len IH]; intros a r Ha.
  - rewrite seqZ_nil by lia. exists 0. split; [lia | apply plus_no_tenths].
  - rewrite seqZ_cons by lia. cbn [for_attempts].
    destruct (after_score_step a r) as (i & Hi & Hfirst & Hs).
    unfold after_attempt in Hs.
    destruct (body a r) as [[result|] r']; cbn [snd] in *.
    + exists i. split; [|exact Hs].
      destruct (a =? 1) eqn:Ha1; [apply Z.eqb_eq in Ha1; lia | lia].
    + replace (Z.pred (Z.of_nat (S len))) with (Z.of_nat len) by lia.
      destruct (IH (Z.succ a) r') as (n & Hn & Hs'); [lia|].
      exists (i + n). split.
      * replace (Z.succ a =? 1) with false in Hn by (symmetry; apply Z.eqb_neq; lia).
        destruct (a =? 1) eqn:Ha1; [apply Z.eqb_eq in Ha1; lia | lia].
      * rewrite Hs', Hs, <- tenths_sum. ring.
Qed.

(** X4: over a call of [execute] the gaming score grows by a whole number
    of tenths, at least 0 and at most three per attempt after the first:
    at most 0.3 * (max_retries - 1) in all. *)
Theorem execute_raises_score_by_bounded_tenths r :
  ∃ n : Z,
    0 ≤ n ≤ 3 * (max_retries (config (self r)) - 1) `max` 0 ∧
    (gaming_score (self (execute task_func validation_func time_time time_sleep r).2)
     == gaming_score (self r) + (n # 10))%Q.
Proof.
  rewrite exec_final. unfold py_range.
  destruct (Z.lt_ge_cases (max_retries (config (self r))) 1) as [Hnone|Hsome].
  - rewrite seqZ_nil by lia. exists 0. split; [lia | apply plus_no_tenths].
  - destruct (loop_score_step (Z.to_nat (max_retries (config (self r)))) 1 r)
      as (n & Hn & Hs); [lia|].
    replace (max_retries (config (self r)) + 1 - 1)
      with (Z.of_nat (Z.to_nat (max_retries (config (self r))))) by lia.
    exists n. split; [|exact Hs]. cbn in Hn. lia.
Qed.

Lemma passed_count_of_run (l : list ValidationResult) (x : ValidationResult) :
  Forall (λ r, passed r = false) l →
  length (filter (λ r, passed r = true) (l ++ [x])) = if passed x then 1%nat else 0%nat.
Proof.
  intros Hl. rewrite filter_app, length_app.
  assert (Hnone : filter (λ r, passed r = true) l = []).
  { induction Hl as [|r l Hr _ IH]; [reflexivity|].
    rewrite filter_cons, decide_False by congruence. exact IH. }
  rewrite Hnone, filter_cons, filter_nil. by destruct (passed x).
Qed.


End RunLemmas.

(** ** The loop over callables that raise any exception *)

Section SignalLemmas.

Context {W T : Type}.
Variable task_func : W → Signals.py_outcome T * W.
Variable validation_func : T → W → Signals.py_outcome ValidationResult * W.
Variable time_time : W → Q * W.
Variable time_sleep : Q → W → W.

Abbreviation caught_task := (Signals.caught_task task_func).
Abbreviation caught_validation := (Signals.caught_validation validation_func).
Abbreviation body := (attempt_body caught_task caught_validation time_time time_sleep).
Abbreviation loop := (for_attempts caught_task caught_validation time_time time_sleep).
Abbreviation outcome := (attempt_outcome caught_task caught_validation time_time).
Abbreviation passes := (attempt_passes caught_task caught_validation time_time).
Abbreviation record := (attempt_record caught_task caught_validation time_time).
Abbreviation after := (after_attempt caught_task caught_validation time_time time_sleep).
Abbreviation runs := (run_attempts caught_task caught_validation time_time time_sleep).
Abbreviation raising_body :=
  (Signals.attempt_body task_func validation_func time_time time_sleep).
Abbreviation raising_loop :=
  (Signals.for_attempts task_func validation_func time_time time_sleep).
Abbreviation raising_exec :=
  (Signals.execute task_func validation_func time_time time_sleep).
Abbreviation answer := (Signals.attempt_outcome task_func validation_func time_time).
Abbreviation told :=
  (Signals.attempted task_func validation_func time_time time_sleep).

(** The answers of [k] consecutive attempts from run [r]. *)
Abbreviation answers a k r := ((λ j : nat, answer (runs a j r)) <$> seq 0 k).

Lemma outcome_caught r : outcome r = Signals.caught (answer r).
Proof.
  unfold attempt_outcome, Signals.attempt_outcome, call_task_and_validation,
    Signals.call_task_and_validation, Signals.caught_task, Signals.caught_validation.
  destruct (task_func _) as [[task_result|e] w1]; [|reflexivity].
  cbn [Signals.caught]. by destruct (validation_func task_result w1) as [[v|e] w2].
Qed.

Lemma passes_answer r : passes r = Signals.is_pass (answer r).
Proof. unfold attempt_passes. rewrite outcome_caught. by destruct (answer r). Qed.

(** An attempt whose answer is handled goes as in the loop over the
    caught callables. *)
Lemma body_of_handled a r :
  Signals.handled (answer r) = true →
  raising_body a r = (inr (body a r).1, (body a r).2).
Proof.
  unfold Signals.attempt_outcome, Signals.attempt_body, attempt_body,
    call_task_and_validation, Signals.call_task_and_validation,
    Signals.caught_task, Signals.caught_validation.
  destruct (time_time (world r)) as [start_time w0]. cbn [fst snd].
  destruct (task_func w0) as [[task_result|e] w1]; cbn [Signals.caught fst snd].
  - destruct (validation_func task_result w1) as [[v|e] w2]; cbn [Signals.caught fst snd].
    + intros _. destruct (time_time w2) as [now w3].
      destruct (passed v); [reflexivity|].
      destruct (if (1 <? a) && enable_gaming_detection (config (self r))
                then _detect_gaming_in_retry (self r) v else (self r, []))
        as [self' printed].
      by destruct (a <? max_retries (config (append_history self' _))).
    + cbn [Signals.handled]. intros [-> [msg Hmsg]%bool_decide_eq_true]%andb_true_iff.
      rewrite Hmsg. cbn [default id]. destruct (time_time w2) as [now w3].
      by destruct (max_retries (config (append_history (self r) _)) <=? a).
  - cbn [Signals.handled]. intros [-> [msg Hmsg]%bool_decide_eq_true]%andb_true_iff.
    rewrite Hmsg. cbn [default id]. destruct (time_time w1) as [now w3].
    by destruct (max_retries (config (append_history (self r) _)) <=? a).
Qed.

(** An attempt whose answer is not handled leaves [execute] with the
    exception, and stores nothing. *)
Lemma body_of_unhandled a r :
  Signals.handled (answer r) = false →
  ∃ e,
    answer r = Signals.Raises e ∧
    (raising_body a r).1 = inl (Signals.escaping e) ∧
    self (raising_body a r).2 = self r.
Proof.
  unfold Signals.attempt_outcome, Signals.attempt_body,
    Signals.call_task_and_validation, Signals.escaping.
  destruct (time_time (world r)) as [start_time w0]. cbn [fst snd].
  destruct (task_func w0) as [[task_result|e] w1]; cbn [fst snd].
  - destruct (validation_func task_result w1) as [[v|e] w2]; cbn [fst snd];
      [discriminate|].
    cbn [Signals.handled]. intros Hno. exists e. split; [reflexivity|].
    destruct (Signals.is_Exception e); [|by split].
    destruct (time_time w2) as [now w3].
    destruct (Signals.str e) as [msg|] eqn:Hmsg; [|by split].
    rewrite bool_decide_true in Hno by eauto. discriminate Hno.
  - cbn [Signals.handled]. intros Hno. exists e. split; [reflexivity|].
    destruct (Signals.is_Exception e); [|by split].
    destruct (time_time w1) as [now w3].
    destruct (Signals.str e) as [msg|] eqn:Hmsg; [|by split].
    rewrite bool_decide_true in Hno by eauto. discriminate Hno.
Qed.

(** The loop over any callables: it goes as the loop over the caught
    callables up to the first attempt whose answer is not handled, and
    leaves [execute] there. *)
Lemma raising_loop_stops (len : nat) : ∀ a r,
  (0 < len)%nat →
  a + Z.of_nat len - 1 = max_retries (config (self r)) →
  ∃ k : nat,
    (k < len)%nat ∧
    (∀ j, (j < k)%nat →
       Signals.handled (answer (runs a j r)) = true ∧ passes (runs a j r) = false) ∧
    if Signals.handled (answer (runs a k r))
    then
      raising_loop (seqZ a (Z.of_nat len)) r
        = (inr (Some (record (a + Z.of_nat k) (runs a k r))), runs a (S k) r) ∧
      (passes (runs a k r) = false → S k = len)
    else
      raising_loop (seqZ a (Z.of_nat len)) r
        = raising_body (a + Z.of_nat k) (runs a k r).
Proof.
  induction len as [|len IH]; intros a r Hlen Hmax; [lia|].
  rewrite seqZ_cons by lia. cbn [Signals.for_attempts].
  destruct (Signals.handled (answer r)) eqn:Hhandled.
  - rewrite (body_of_handled a r Hhandled).
    pose proof (body_returns caught_task caught_validation time_time time_sleep a r) as Hret.
    destruct (body a r) as [returned r'] eqn:Hbody.
    assert (Hr' : r' = after a r) by (unfold after_attempt; by rewrite Hbody).
    cbn [fst snd] in *. subst returned.
    destruct (passes r || (max_retries (config (self r)) <=? a))%bool eqn:Hstop.
    + exists 0%nat. cbn [run_attempts]. rewrite Z.add_0_r, <- Hr', Hhandled.
      split; [lia|]. split; [intros j Hj; lia|]. split; [reflexivity|].
      intros Hfail. rewrite Hfail in Hstop. cbn in Hstop. lia.
    + apply orb_false_iff in Hstop as [Hfail Hmore].
      replace (Z.pred (Z.of_nat (S len))) with (Z.of_nat len) by lia.
      destruct (IH (Z.succ a) r') as (k & Hk & Hbefore & Hend).
      * lia.
      * rewrite Hr', after_config. lia.
      * exists (S k).
        rewrite (runs_cons caught_task caught_validation time_time time_sleep a (S k) r),
          (runs_cons caught_task caught_validation time_time time_sleep a k r), <- Hr'.
        replace (a + Z.of_nat (S k)) with (Z.succ a + Z.of_nat k) by lia.
        replace (a + 1) with (Z.succ a) by lia.
        split; [lia|]. split.
        -- intros [|j] Hj; [by split|].
           rewrite runs_cons, <- Hr'. replace (a + 1) with (Z.succ a) by lia.
           apply Hbefore. lia.
        -- destruct (Signals.handled (answer (runs (Z.succ a) k r'))); [|exact Hend].
           destruct Hend as [Hloop Hend]. split; [exact Hloop|].
           intros H. specialize (Hend H). lia.
  - exists 0%nat. cbn [run_attempts]. rewrite Z.add_0_r, Hhandled.
    split; [lia|]. split; [intros j Hj; lia|].
    destruct (body_of_unhandled a r Hhandled) as (e & _ & Hescapes & _).
    destruct (raising_body a r) as [[x|returned] r']; [reflexivity|].
    discriminate Hescapes.
Qed.


Lemma raising_answers_cons a k r :
  answers a (S k) r = answer r :: answers (a + 1) k (after a r).
Proof.
  change (seq 0 (S k)) with (0%nat :: seq 1 k).
  rewrite fmap_cons, <- fmap_S_seq, <- list_fmap_compose. f_equal.
  apply list_fmap_ext. intros i j _. unfold compose.
  by rewrite (runs_cons caught_task caught_validation time_time time_sleep a j r).
Qed.

(** One attempt calls the callables as [Signals.answered] tells; when its
    answer is handled and the loop goes on, the next attempt starts after
    the clock has been read and, after a verdict, after the pause. *)
Lemma raising_answered a r :
  ∃ w1,
    Signals.answered task_func validation_func time_time (world r) (answer r) w1 ∧
    (Signals.handled (answer r) = true →
     (passes r || (max_retries (config (self r)) <=? a))%bool = false →
     world (after a r) = Signals.before_retry time_time time_sleep (answer r) w1).
Proof.
  unfold after_attempt, attempt_passes, attempt_outcome, attempt_body,
    call_task_and_validation, Signals.attempt_outcome,
    Signals.call_task_and_validation, Signals.caught_task, Signals.caught_validation.
  destruct (time_time (world r)) as [start_time w0] eqn:Hstart. cbn [fst snd].
  destruct (task_func w0) as [[task_result|e] w1] eqn:Htask; cbn [Signals.caught fst snd].
  - destruct (validation_func task_result w1) as [[v|e] w2] eqn:Hvalidation;
      cbn [Signals.caught fst snd]; exists w2;
      (split; [eapply Signals.validation_answered;
                 [rewrite Hstart; cbn [snd]; eassumption | eassumption]|]);
      intros _; cbn [Signals.before_retry];
      destruct (time_time w2) as [now w3]; cbn [fst snd].
    + destruct (passed v) eqn:Hpassed; cbn [orb]; [discriminate|]. intros Hmore.
      destruct (if (1 <? a) && enable_gaming_detection (config (self r))
                then _detect_gaming_in_retry (self r) v else (self r, []))
        as [self' printed] eqn:Hdetect.
      assert (config self' = config (self r)) as Hconfig.
      { destruct ((1 <? a) && enable_gaming_detection (config (self r)))%bool.
        - rewrite <- (detect_config (self r) v), Hdetect. reflexivity.
        - by injection Hdetect as <- _. }
      cbn [append_history config]. rewrite Hconfig.
      apply Z.leb_gt in Hmore. rewrite (proj2 (Z.ltb_lt _ _)) by lia. reflexivity.
    + cbn [orb append_history config]. intros ->. reflexivity.
  - exists w1. split; [eapply Signals.task_raised; rewrite Hstart; cbn [snd]; eassumption|].
    intros _. cbn [orb Signals.before_retry].
    destruct (time_time w1) as [now w3]; cbn [fst snd append_history config].
    intros ->. reflexivity.
Qed.

(** The attempts of a run in which every attempt but the last is handled
    and does not pass. *)
Lemma raising_runs_attempted (k : nat) : ∀ a r,
  (∀ j, (j < k)%nat →
     Signals.handled (answer (runs a j r)) = true ∧ passes (runs a j r) = false) →
  a + Z.of_nat k ≤ max_retries (config (self r)) →
  ∃ w', told (world r) (answers a (S k) r) w'.
Proof.
  induction k as [|k IH]; intros a r Hbefore Hle.
  - destruct (raising_answered a r) as (w1 & Hanswered & _).
    exists w1. by apply Signals.attempted_last.
  - destruct (raising_answered a r) as (w1 & Hanswered & Hworld).
    destruct (Hbefore 0%nat ltac:(lia)) as [Hhandled Hfail]. cbn [run_attempts] in *.
    destruct (IH (a + 1) (after a r)) as (w' & Htold).
    + intros j Hj.
      rewrite <- (runs_cons caught_task caught_validation time_time time_sleep a j r).
      apply Hbefore. lia.
    + rewrite after_config. lia.
    + exists w'. rewrite raising_answers_cons.
      eapply Signals.attempted_retry; [exact Hanswered | exact Hhandled | |].
      * by rewrite <- passes_answer.
      * rewrite <- Hworld; [exact Htold | exact Hhandled |].
        rewrite Hfail. cbn [orb]. lia.
Qed.

Lemma raising_exec_without_attempts r :
  max_retries (config (self r)) < 1 → (raising_exec r).2 = r.
Proof.
  intros Hnone. unfold Signals.execute, py_range.
  rewrite seqZ_nil by lia. cbn [Signals.for_attempts].
  by destruct (last (history (self r))).
Qed.

(** [execute] with [max_retries >= 1], over any callables. *)
Lemma raising_exec_stops r :
  1 ≤ max_retries (config (self r)) →
  ∃ k : nat,
    Z.of_nat (S k) ≤ max_retries (config (self r)) ∧
    (∀ j, (j < k)%nat →
       Signals.handled (answer (runs 1 j r)) = true ∧ passes (runs 1 j r) = false) ∧
    if Signals.handled (answer (runs 1 k r))
    then
      raising_exec r = (inr (record (1 + Z.of_nat k) (runs 1 k r)), runs 1 (S k) r) ∧
      (passes (runs 1 k r) = false → Z.of_nat (S k) = max_retries (config (self r)))
    else
      ∃ e,
        answer (runs 1 k r) = Signals.Raises e ∧
        (raising_exec r).1 = inl (Signals.escaping e) ∧
        self (raising_exec r).2 = self (runs 1 k r).
Proof.
  intros Hmax. unfold Signals.execute, py_range.
  destruct (raising_loop_stops (Z.to_nat (max_retries (config (self r)))) 1 r)
    as (k & Hk & Hbefore & Hend); [lia | lia |].
  replace (max_retries (config (self r)) + 1 - 1)
    with (Z.of_nat (Z.to_nat (max_retries (config (self r))))) by lia.
  exists k. split; [lia|]. split; [exact Hbefore|].
  destruct (Signals.handled (answer (runs 1 k r))) eqn:Hhandled.
  - destruct Hend as [-> Hend]. split; [reflexivity|].
    intros H. specialize (Hend H). lia.
  - rewrite Hend.
    destruct (body_of_unhandled (1 + Z.of_nat k) (runs 1 k r) Hhandled)
      as (e & He & Hescapes & Hself).
    exists e. split; [exact He|].
    destruct (raising_body (1 + Z.of_nat k) (runs 1 k r)) as [[x|returned] r'];
      cbn [fst snd] in *; [| discriminate Hescapes].
    injection Hescapes as ->. by split.
Qed.

(** For callables whose answers are all handled, [Signals.execute] is the
    [execute] of the loop above over the caught callables. *)
Lemma answer_of_handled_callables r :
  (∀ w, Signals.handled (task_func w).1 = true) →
  (∀ task_result w, Signals.handled (validation_func task_result w).1 = true) →
  Signals.handled (answer r) = true.
Proof.
  intros Htask Hvalidation.
  unfold Signals.attempt_outcome, Signals.call_task_and_validation.
  pose proof (Htask (time_time (world r)).2) as H.
  destruct (task_func _) as [[task_result|e] w1]; [|exact H].
  pose proof (Hvalidation task_result w1) as H'.
  by destruct (validation_func task_result w1) as [o w2].
Qed.

Lemma raising_loop_of_handled_callables (attempts : list Z) : ∀ r,
  (∀ w, Signals.handled (task_func w).1 = true) →
  (∀ task_result w, Signals.handled (validation_func task_result w).1 = true) →
  raising_loop attempts r = (inr (loop attempts r).1, (loop attempts r).2).
Proof.
  induction attempts as [|a attempts IH]; intros r Htask Hvalidation; [reflexivity|].
  cbn [Signals.for_attempts for_attempts].
  rewrite (body_of_handled a r (answer_of_handled_callables r Htask Hvalidation)).
  destruct (body a r) as [[result|] r']; cbn [fst snd]; [reflexivity|].
  by apply IH.
Qed.

Lemma raising_exec_of_handled_callables r :
  (∀ w, Signals.handled (task_func w).1 = true) →
  (∀ task_result w, Signals.handled (validation_func task_result w).1 = true) →
  raising_exec r =
    (match (execute caught_task caught_validation time_time time_sleep r).1 with
     | Ok result => inr result
     | Raise _ => inl Signals.IndexError
     end,
     (execute caught_task caught_validation time_time time_sleep r).2).
Proof.
  intros Htask Hvalidation. unfold Signals.execute, execute.
  rewrite (raising_loop_of_handled_callables _ r Htask Hvalidation).
  destruct (loop _ r) as [[result|] r']; cbn [fst snd]; [reflexivity|].
  by destruct (last (history (self r'))).
Qed.


End SignalLemmas.

(** ** The claims about the analysis and the summary *)

(** C6 (as amended): the failure analysis gives "Gaming pattern detected" /
    "Critical" for DGTS, "Truth/confidence violation" / "High" for NLNH and
    "Unknown" / "Medium" when there is no protocol; for every protocol but
    ZeroTolerance the pair is the entry of a fixed table on the protocol,
    and for ZeroTolerance it is chosen by the first keyword found in the
    lower-cased errors, falling back to the table. *)
Theorem C6_failure_analysis_by_protocol (result : ValidationResult) :
  (protocol result = Some DGTS →
     cause_severity (_analyze_failure result) = ("Gaming pattern detected", "Critical")) ∧
  (protocol result = Some NLNH →
     cause_severity (_analyze_failure result) = ("Truth/confidence violation", "High")) ∧
  (protocol result = None →
     cause_severity (_analyze_failure result) = ("Unknown", "Medium")) ∧
  (protocol result ≠ Some ZERO_TOLERANCE →
     cause_severity (_analyze_failure result) = protocol_table (protocol result)) ∧
  (protocol result = Some ZERO_TOLERANCE →
     cause_severity (_analyze_failure result) = zero_tolerance_cause (errors_str result)).
Proof.
  repeat split.
  - intros H. rewrite analyze_off_zero_tolerance by congruence. by rewrite H.
  - intros H. rewrite analyze_off_zero_tolerance by congruence. by rewrite H.
  - intros H. rewrite analyze_off_zero_tolerance by congruence. by rewrite H.
  - apply analyze_off_zero_tolerance.
  - apply analyze_zero_tolerance.
Qed.

(** C6, the claim as stated fails: two failing ZeroTolerance results get
    different pairs, so no table on protocol tags gives the analysis. *)
Lemma C6_zero_tolerance_is_not_a_tag_lookup :
  ¬ ∃ table : option ValidationProtocol → string * string,
      ∀ result, passed result = false →
        cause_severity (_analyze_failure result) = table (protocol result).
Proof.
  intros [table Htable].
  pose proof (Htable (Scripted.verdict false (Some ZERO_TOLERANCE)
                        ["Console.log statement found in code"]) eq_refl) as H1.
  pose proof (Htable (Scripted.verdict false (Some ZERO_TOLERANCE)
                        ["ESLint: no-unused-vars"]) eq_refl) as H2.
  cbn [protocol Scripted.verdict] in H1, H2. rewrite <- H2 in H1.
  vm_compute in H1. discriminate H1.
Qed.

Lemma filter_passed_split (h : list ValidationResult) :
  (length (filter (λ r, passed r = true) h) + length (filter (λ r, passed r = false) h)
   = length h)%nat.
Proof.
  induction h as [|r h IH]; [reflexivity|].
  rewrite !filter_cons. destruct (passed r) eqn:Hp.
  - rewrite decide_True, decide_False by done. cbn. lia.
  - rewrite decide_False, decide_True by done. cbn. lia.
Qed.

(** C7 (as amended): in the summary of any loop, the attempt count is the
    length of the history; the passed count is the number of passing
    results, the failed count the number of failing ones, and they add up
    to the attempt count; the total duration is the left-to-right sum of
    the durations rounded to two decimals, hence within 0.005 of the sum;
    the failure count of a protocol is the number of failing results with
    that protocol, with no entry when there is none and no entry under any
    other key; and the final status is "PASSED" exactly when the history
    has a last result and it passed, "FAILED" otherwise. *)
Theorem C7_summary_consistent_with_history (loop : ValidationLoop) :
  summary_total_attempts (get_summary loop) = Z.of_nat (length (history loop)) ∧
  summary_passed (get_summary loop)
    = Z.of_nat (length (filter (λ r, passed r = true) (history loop))) ∧
  summary_failed (get_summary loop)
    = Z.of_nat (length (filter (λ r, passed r = false) (history loop))) ∧
  summary_passed (get_summary loop) + summary_failed (get_summary loop)
    = summary_total_attempts (get_summary loop) ∧
  summary_total_duration (get_summary loop)
    = py_round_2 (py_sum_Q (duration <$> history loop)) ∧
  (summary_total_duration (get_summary loop) - py_sum_Q (duration <$> history loop)
     <= 1 # 200)%Q ∧
  (py_sum_Q (duration <$> history loop) - summary_total_duration (get_summary loop)
     <= 1 # 200)%Q ∧
  (∀ p, summary_protocols_failed (get_summary loop) !! value p =
          match length (failures_of p (history loop)) with
          | O => None
          | S n => Some (Z.of_nat (S n))
          end) ∧
  (∀ key, (∀ p, key ≠ value p) →
          summary_protocols_failed (get_summary loop) !! key = None) ∧
  (summary_final_status (get_summary loop) = "PASSED" ↔
     ∃ result, last (history loop) = Some result ∧ passed result = true) ∧
  (summary_final_status (get_summary loop) = "PASSED" ∨
   summary_final_status (get_summary loop) = "FAILED").
Proof.
  unfold get_summary; cbn [summary_total_attempts summary_passed summary_failed
    summary_total_duration summary_protocols_failed summary_final_status].
  rewrite py_sum_Z_ones.
  pose proof (filter_passed_split (history loop)) as Hsplit.
  split; [reflexivity|]. split; [reflexivity|]. split; [lia|]. split; [lia|].
  split; [reflexivity|].
  split; [apply py_round_2_near|]. split; [apply py_round_2_near|].
  split.
  { intros p. rewrite protocols_failed_lookup, lookup_empty.
    destruct (length (failures_of p (history loop))); [reflexivity|].
    cbn [default]. f_equal. }
  split.
  { intros key Hkey. by rewrite protocols_failed_other, lookup_empty. }
  destruct (last (history loop)) as [result|].
  - destruct (passed result) eqn:Hp.
    + split; [split; [intros _; by exists result | reflexivity] | by left].
    + split; [split; [discriminate|] | by right].
      intros (result' & [= <-] & Hp'). congruence.
  - split; [|by right]. split; [discriminate | intros (? & [=] & _)].
Qed.

(** C7, the claim as stated fails: one attempt that takes 0.004 seconds
    leaves a summary whose total duration is 0, not the sum 0.004. *)
Lemma C7_total_duration_is_rounded :
  (py_sum_Q (duration <$> history (self (Scripted.run_ticking (4 # 1000)
     [Scripted.Validates (Scripted.verdict false (Some DGTS) ["mock data"])]
     (Scripted.fresh (Scripted.with_retries 1))).2)) == 4 # 1000)%Q ∧
  (summary_total_duration (get_summary (self (Scripted.run_ticking (4 # 1000)
     [Scripted.Validates (Scripted.verdict false (Some DGTS) ["mock data"])]
     (Scripted.fresh (Scripted.with_retries 1))).2)) == 0)%Q ∧
  ¬ (summary_total_duration (get_summary (self (Scripted.run_ticking (4 # 1000)
       [Scripted.Validates (Scripted.verdict false (Some DGTS) ["mock data"])]
       (Scripted.fresh (Scripted.with_retries 1))).2))
     == py_sum_Q (duration <$> history (self (Scripted.run_ticking (4 # 1000)
       [Scripted.Validates (Scripted.verdict false (Some DGTS) ["mock data"])]
       (Scripted.fresh (Scripted.with_retries 1))).2)))%Q.
Proof. vm_compute. repeat split; discriminate. Qed.

(** ** Counterexamples on scripted runs *)

(** C8, the claim as stated fails: a failing ZeroTolerance validation
    whose errors hold none of the keywords is stored with an empty list
    of suggestions. *)
Lemma C8_zero_tolerance_may_store_no_suggestion :
  (passed <$> history (self (Scripted.run [Scripted.Validates Scripted.unused_variable]
                               (Scripted.fresh (Scripted.with_retries 1))).2) = [false]) ∧
  (suggestions <$> history (self (Scripted.run [Scripted.Validates Scripted.unused_variable]
                                    (Scripted.fresh (Scripted.with_retries 1))).2) = [[]]).
Proof. split; reflexivity. Qed.

(** C9, the last part of the claim as stated fails.  The first call ends
    on a result with errors [["b"]].  In the second call, attempt 1 fails
    with errors [["c"]] and attempt 2, the first failing retry, with
    errors [["b"]] and the same protocol: compared with the previous
    call's last result it would add 0.2, but the score stays where it
    was. *)
Lemma C9_later_call_does_not_compare_with_previous_call :
  errors <$> last (history (self Scripted.after_first_call)) = Some ["b"] ∧
  protocol <$> last (history (self Scripted.after_first_call)) = Some (Some DGTS) ∧
  Scripted.outcome Scripted.two_calls Scripted.after_first_call = Ok Scripted.errors_c ∧
  Scripted.outcome Scripted.two_calls
    (Scripted.after_attempts Scripted.two_calls 1 Scripted.after_first_call)
    = Ok Scripted.errors_b ∧
  (gaming_increment
     (default Scripted.errors_a (last (history (self Scripted.after_first_call))))
     Scripted.errors_b == 2 # 10)%Q ∧
  gaming_score (self Scripted.after_second_call)
    = gaming_score (self Scripted.after_first_call) ∧
  ¬ (gaming_score (self Scripted.after_second_call)
     == gaming_score (self Scripted.after_first_call)
        + gaming_increment
            (default Scripted.errors_a (last (history (self Scripted.after_first_call))))
            Scripted.errors_b)%Q.
Proof.
  do 6 (split; [reflexivity|]).
  vm_compute. discriminate.
Qed.


(** ** The theorems at concrete runs *)

Example run_fail_raise_pass :
  (Scripted.run Scripted.fail_raise_pass (Scripted.fresh (Scripted.with_retries 5))).1
    = Ok (mkResult true (Some DGTS) "Validation passed on attempt 3" [] [] 3
            (1 * inject_Z 3 - 1 * inject_Z 2)).
Proof. reflexivity. Qed.

Example run_fail_raise_pass_history :
  (λ r, (attempt r, passed r, errors r))
    <$> history (self (Scripted.run Scripted.fail_raise_pass
                         (Scripted.fresh (Scripted.with_retries 5))).2)
    = [(1, false, ["mock data returned"]); (2, false, ["boom"]); (3, true, [])].
Proof. reflexivity. Qed.

Example run_without_retries_raises :
  (Scripted.run [] (Scripted.fresh (Scripted.with_retries 0))).1
    = Raise "list index out of range".
Proof. reflexivity. Qed.


(** The hypothesis of C5 holds on the same run. *)
Lemma C5_witness :
  1 ≤ max_retries (config (self (Scripted.fresh (Scripted.with_retries 5)))) ∧
  ∃ (result : ValidationResult) (calls : nat),
    (Scripted.run Scripted.fail_raise_pass (Scripted.fresh (Scripted.with_retries 5))).1
      = Ok result ∧
    task_calls (out (Scripted.run Scripted.fail_raise_pass
                       (Scripted.fresh (Scripted.with_retries 5))).2) = calls ∧
    Z.of_nat calls ≤ 5.
Proof.
  split; [cbn; lia|].
  destruct (C5_execute_calls_task_at_most_max_retries
              (Scripted.task_func Scripted.fail_raise_pass)
              (Scripted.validation_func Scripted.fail_raise_pass)
              (Scripted.time_time 1) Scripted.time_sleep
              (Scripted.fresh (Scripted.with_retries 5)))
    as (result & r' & calls & Hexec & Hcalls & _ & Hle); [cbn; lia|].
  exists result, calls. unfold Scripted.run, Scripted.run_ticking. rewrite Hexec.
  split; [reflexivity|]. split; [exact Hcalls | exact Hle].
Defined.


(** The hypothesis of C10 holds when the task raises the same exception
    three times. *)
Lemma C10_witness :
  (∀ j, (j < 3)%nat →
     Scripted.outcome Scripted.boom_thrice
       (run_attempts (Scripted.task_func Scripted.boom_thrice)
          (Scripted.validation_func Scripted.boom_thrice)
          (Scripted.time_time 1) Scripted.time_sleep 1 j
          (Scripted.fresh (Scripted.with_retries 3)))
     = Raise "boom") ∧
  gaming_score (self (Scripted.after_attempts Scripted.boom_thrice 3
                        (Scripted.fresh (Scripted.with_retries 3)))) = 0%Q ∧
  detector_messages (out (Scripted.after_attempts Scripted.boom_thrice 3
                            (Scripted.fresh (Scripted.with_retries 3)))) = [].
Proof.
  assert (Hraise : ∀ j, (j < 3)%nat →
     Scripted.outcome Scripted.boom_thrice
       (run_attempts (Scripted.task_func Scripted.boom_thrice)
          (Scripted.validation_func Scripted.boom_thrice)
          (Scripted.time_time 1) Scripted.time_sleep 1 j
          (Scripted.fresh (Scripted.with_retries 3)))
     = Raise "boom").
  { intros [|[|[|j]]] Hj; [reflexivity | reflexivity | reflexivity | lia]. }
  split; [exact Hraise|].
  destruct (C10_exception_attempts_skip_gaming_detection
              (Scripted.task_func Scripted.boom_thrice)
              (Scripted.validation_func Scripted.boom_thrice)
              (Scripted.time_time 1) Scripted.time_sleep
              1 3 (Scripted.fresh (Scripted.with_retries 3)) "boom" Hraise)
    as (Hscore & Hmessages & _).
  split; [exact Hscore | exact Hmessages].
Defined.

(** The hypotheses of C2 hold at the second of two attempts that fail
    with the same errors. *)
Lemma C2_witness :
  (1 ≤ 1)%nat ∧
  enable_gaming_detection (config (self (Scripted.fresh (Scripted.with_retries 3)))) = true ∧
  Scripted.outcome [Scripted.Validates Scripted.errors_a; Scripted.Validates Scripted.errors_a]
    (Scripted.after_attempts
       [Scripted.Validates Scripted.errors_a; Scripted.Validates Scripted.errors_a] 1
       (Scripted.fresh (Scripted.with_retries 3)))
    = Ok Scripted.errors_a ∧
  passed Scripted.errors_a = false ∧
  ∃ prev,
    last (history (self (Scripted.after_attempts
       [Scripted.Validates Scripted.errors_a; Scripted.Validates Scripted.errors_a] 1
       (Scripted.fresh (Scripted.with_retries 3))))) = Some prev ∧
    attempt prev = 1 ∧
    (gaming_score (self (Scripted.after_attempts
       [Scripted.Validates Scripted.errors_a; Scripted.Validates Scripted.errors_a] 2
       (Scripted.fresh (Scripted.with_retries 3))))
     == gaming_score (self (Scripted.after_attempts
       [Scripted.Validates Scripted.errors_a; Scripted.Validates Scripted.errors_a] 1
       (Scripted.fresh (Scripted.with_retries 3))))
        + (if bool_decide (errors prev = errors Scripted.errors_a) then 2 # 10 else 0)
        + (if bool_decide (protocol prev ≠ protocol Scripted.errors_a) then 1 # 10 else 0))%Q.
Proof.
  split; [lia|]. split; [reflexivity|]. split; [reflexivity|]. split; [reflexivity|].
  destruct (C2_retry_raises_gaming_score
              (Scripted.task_func
                 [Scripted.Validates Scripted.errors_a; Scripted.Validates Scripted.errors_a])
              (Scripted.validation_func
                 [Scripted.Validates Scripted.errors_a; Scripted.Validates Scripted.errors_a])
              (Scripted.time_time 1) Scripted.time_sleep
              (Scripted.fresh (Scripted.with_retries 3)) 1%nat Scripted.errors_a)
    as (prev & Hlast & Hattempt & Hscore & _);
    [lia | reflexivity | reflexivity | reflexivity |].
  exists prev. split; [exact Hlast|]. split; [exact Hattempt | exact Hscore].
Defined.

(** The hypotheses of C3 hold for callables that never raise and always
    answer the same failing verdict; with five attempts allowed, the third
    leaves the score at 0.4 without warning and the fourth prints the
    first warning. *)
Lemma C3_witness :
  enable_gaming_detection (Scripted.with_retries 5) = true ∧
  1 ≤ max_retries (Scripted.with_retries 5) ∧
  (∀ w, ∃ t w', Scripted.steady_task w = (Ok t, w')) ∧
  (∀ t w, ∃ vr w',
     Scripted.steady_validation Scripted.mock_data t w = (Ok vr, w') ∧
     passed vr = false ∧ errors vr = ["mock data returned"] ∧ protocol vr = Some DGTS) ∧
  (gaming_score (self (run_attempts Scripted.steady_task
      (Scripted.steady_validation Scripted.mock_data) (Scripted.time_time 1)
      Scripted.time_sleep 1 3 (fresh_run (Scripted.with_retries 5) 0%nat))) == 4 # 10)%Q ∧
  high_gaming_warnings (out (run_attempts Scripted.steady_task
      (Scripted.steady_validation Scripted.mock_data) (Scripted.time_time 1)
      Scripted.time_sleep 1 3 (fresh_run (Scripted.with_retries 5) 0%nat))) = 0%nat ∧
  (5 # 10 < gaming_score (self (run_attempts Scripted.steady_task
      (Scripted.steady_validation Scripted.mock_data) (Scripted.time_time 1)
      Scripted.time_sleep 1 4 (fresh_run (Scripted.with_retries 5) 0%nat))))%Q ∧
  high_gaming_warnings (out (run_attempts Scripted.steady_task
      (Scripted.steady_validation Scripted.mock_data) (Scripted.time_time 1)
      Scripted.time_sleep 1 4 (fresh_run (Scripted.with_retries 5) 0%nat))) = 1%nat.
Proof.
  assert (Htask : ∀ w, ∃ t w', Scripted.steady_task w = (Ok t, w'))
    by (intros w; eexists _, _; reflexivity).
  assert (Hval : ∀ t w, ∃ vr w',
            Scripted.steady_validation Scripted.mock_data t w = (Ok vr, w') ∧
            passed vr = false ∧ errors vr = ["mock data returned"] ∧
            protocol vr = Some DGTS)
    by (intros t w; eexists _, _; repeat split).
  split; [reflexivity|]. split; [cbn; lia|].
  split; [exact Htask|]. split; [exact Hval|].
  destruct (C3_repeated_failures_warn_at_third_repeat
              Scripted.steady_task (Scripted.steady_validation Scripted.mock_data)
              (Scripted.time_time 1) Scripted.time_sleep
              (Scripted.with_retries 5) 0%nat ["mock data returned"] (Some DGTS))
    as (_ & _ & _ & Hthree & Hfour);
    [reflexivity | cbn; lia | exact Htask | exact Hval |].
  destruct Hthree as [Hscore3 Hwarn3]; [cbn; lia|].
  destruct Hfour as (_ & Hscore4 & Hwarn4); [cbn; lia|].
  split; [exact Hscore3|]. split; [exact Hwarn3|]. split; [exact Hscore4 | exact Hwarn4].
Defined.

(** The hypotheses of C8 hold for a failing DGTS validation. *)
Lemma C8_witness :
  Scripted.outcome [Scripted.Validates Scripted.mock_data]
    (Scripted.fresh (Scripted.with_retries 1)) = Ok Scripted.mock_data ∧
  passed Scripted.mock_data = false ∧
  ∃ rec,
    history (self (Scripted.after_attempts [Scripted.Validates Scripted.mock_data] 1
                     (Scripted.fresh (Scripted.with_retries 1)))) = [rec] ∧
    suggestions rec ≠ [].
Proof.
  split; [reflexivity|]. split; [reflexivity|].
  destruct (C8_failed_attempt_records_protocol_suggestions
              (Scripted.task_func [Scripted.Validates Scripted.mock_data])
              (Scripted.validation_func [Scripted.Validates Scripted.mock_data])
              (Scripted.time_time 1) Scripted.time_sleep
              1 (Scripted.fresh (Scripted.with_retries 1)) Scripted.mock_data)
    as (rec & Hhistory & _ & _ & _ & Hother & _); [reflexivity | reflexivity |].
  exists rec. split; [exact Hhistory|].
  apply Hother. discriminate.
Defined.

(** ** Further properties of the analysis, the suggestions and the summary *)

Lemma failing_partition (h : list ValidationResult) :
  (length (untagged_failures h)
   + foldr (λ p n, length (failures_of p h) + n) 0 all_protocols
   = length (filter (λ r, passed r = false) h))%nat.
Proof.
  unfold untagged_failures, failures_of, all_protocols. cbn [foldr].
  induction h as [|r h IH]; [reflexivity|].
  rewrite !filter_cons.
  destruct (passed r) eqn:Hp.
  - repeat (rewrite decide_False by (intros H; try destruct H; congruence)).
    exact IH.
  - destruct (protocol r) as [[]|] eqn:Hq;
      repeat first [ rewrite decide_True by (try split; congruence)
                   | rewrite decide_False by (intros H; try destruct H; congruence) ];
      cbn [length]; lia.
Qed.

Lemma failure_count_of_protocol (h : list ValidationResult) (p : ValidationProtocol) :
  default 0 (foldl count_protocol_failure ∅ h !! value p)
    = Z.of_nat (length (failures_of p h)).
Proof.
  rewrite protocols_failed_lookup, lookup_empty.
  destruct (length (failures_of p h)); cbn; lia.
Qed.

(** X7: in the summary of any loop, the failure counts of the six
    protocols add up to the failed count less the failing results without
    protocol: attempts that ended in an exception are counted as failed
    but under no protocol. *)
Theorem summary_failed_splits_by_protocol (loop : ValidationLoop) :
  foldr (λ p n, default 0 (summary_protocols_failed (get_summary loop) !! value p) + n)
        0 all_protocols
  + Z.of_nat (length (untagged_failures (history loop)))
  = summary_failed (get_summary loop).
Proof.
  unfold get_summary; cbn [summary_protocols_failed summary_failed].
  rewrite py_sum_Z_ones.
  pose proof (filter_passed_split (history loop)) as Hsplit.
  pose proof (failing_partition (history loop)) as Hpart.
  unfold all_protocols in *. cbn [foldr] in *.
  rewrite !failure_count_of_protocol. lia.
Qed.

(** X8: whenever the failure analysis names a cause other than "Unknown",
    the suggestions generated for the same result are not empty. *)
Theorem specific_cause_comes_with_suggestions (result : ValidationResult) :
  primary_cause (_analyze_failure result) ≠ "Unknown" →
  _generate_fix_suggestions result (_analyze_failure result) ≠ [].
Proof.
  intros Hcause.
  destruct (decide (protocol result = Some ZERO_TOLERANCE)) as [Hzt|Hother].
  - apply suggestions_zero_tolerance; [exact Hzt|].
    unfold zero_tolerance_keyword.
    pose proof (analyze_zero_tolerance result Hzt) as Ha.
    unfold cause_severity, zero_tolerance_cause in Ha.
    destruct (str_in "console.log" _); [reflexivity|].
    destruct (str_in "typescript" _); [reflexivity|].
    destruct (str_in "type error" _); [reflexivity|].
    destruct (str_in "eslint" _); [reflexivity|].
    cbn in Ha. congruence.
  - by apply suggestions_off_zero_tolerance.
Qed.

(** X9: the suggestions generated for any result are at most nine and
    hold no suggestion twice. *)
Theorem suggestions_are_few_and_distinct (result : ValidationResult) (analysis : Analysis) :
  (length (_generate_fix_suggestions result analysis) ≤ 9)%nat ∧
  NoDup (_generate_fix_suggestions result analysis).
Proof.
  unfold _generate_fix_suggestions.
  destruct (protocol result) as [[]|];
    try (split; [cbn; lia | apply (bool_decide_unpack (NoDup _)); vm_compute; exact I]).
  destruct (str_in "console.log" (errors_str result)),
    (str_in "typescript" (errors_str result) || str_in "type error" (errors_str result))%bool,
    (str_in "eslint" (errors_str result)),
    (str_in "catch" (errors_str result) || str_in "error" (errors_str result))%bool;
    (split; [cbn; lia | apply (bool_decide_unpack (NoDup _)); vm_compute; exact I]).
Qed.

Lemma string_append_assoc (s t u : string) : (s +:+ t) +:+ u = s +:+ (t +:+ u).
Proof.
  induction s as [|c s IH]; [reflexivity|].
  rewrite !append_cons. by rewrite IH.
Qed.

Lemma str_in_within (inner outer hay : string) :
  str_in inner outer = true → str_in outer hay = true → str_in inner hay = true.
Proof.
  rewrite !str_in_spec. intros (pre & post & ->) (pre' & post' & ->).
  exists (pre' +:+ pre), (post +:+ post').
  by rewrite !string_append_assoc.
Qed.

(** X10: a failing ZeroTolerance result whose lower-cased errors mention
    "type error" gets the three TypeScript suggestions and, because "type
    error" contains "error", the two catch-block suggestions as well;
    they are the last two of the list. *)
Theorem type_error_brings_catch_suggestions (result : ValidationResult) (analysis : Analysis) :
  protocol result = Some ZERO_TOLERANCE →
  str_in "type error" (errors_str result) = true →
  ∃ before between,
    _generate_fix_suggestions result analysis =
      before
      ++ [ "Fix TypeScript type errors - run: npx tsc --noEmit";
           "Add explicit types for all parameters and return values";
           "Remove 'any' types and use proper typing" ]
      ++ between
      ++ [ "Add error parameter to catch blocks: catch (error: unknown)";
           "Remove void error anti-patterns" ].
Proof.
  intros Hzt Htype. unfold _generate_fix_suggestions. rewrite Hzt, Htype.
  rewrite (str_in_within "error" "type error" _ eq_refl Htype).
  rewrite !orb_true_r. eexists _, _. reflexivity.
Qed.

(** X11: the example validation of the [__main__] block accepts a task
    result exactly when its code, taken as empty when the key is missing,
    does not contain "console.log"; and what it rejects is analysed by
    the loop as "Console.log statements" / "High" and given exactly the
    two console.log suggestions. *)
Theorem example_validation_rejects_console_log
    {W : Type} (task_result : gmap string string) (w : W) :
  ∃ verdict,
    Example.example_validation task_result w = (Ok verdict, w) ∧
    passed verdict = negb (str_in "console.log" (default "" (task_result !! "code"))) ∧
    (passed verdict = false →
       cause_severity (_analyze_failure verdict) = ("Console.log statements", "High") ∧
       _generate_fix_suggestions verdict (_analyze_failure verdict) =
         [ "Replace console.log with proper logging: import { log } from '@/lib/logger'";
           "Remove all console.* statements (console.log, console.error, console.warn)" ]).
Proof.
  unfold Example.example_validation.
  destruct (str_in "console.log" _); eexists; (split; [reflexivity|]);
    split; try reflexivity.
  - intros _. split; reflexivity.
  - discriminate.
Qed.

(** The run of the [__main__] block: three failing attempts, the score at
    0.4, and the summary it prints. *)
Example main_run_fails_three_times :
  (λ r, (attempt r, passed r, protocol r)) <$> history (self (Example.main 1).2)
    = [(1, false, Some ZERO_TOLERANCE); (2, false, Some ZERO_TOLERANCE);
       (3, false, Some ZERO_TOLERANCE)] ∧
  (gaming_score (self (Example.main 1).2) == 4 # 10)%Q ∧
  summary_final_status (get_summary (self (Example.main 1).2)) = "FAILED" ∧
  map_to_list (summary_protocols_failed (get_summary (self (Example.main 1).2)))
    = [("ZeroTolerance", 3)].
Proof. repeat split; vm_compute; reflexivity. Qed.

(** ** The further properties on concrete runs *)


(** X2 on a fresh loop that allows no attempt. *)
Lemma X2_witness :
  max_retries (config (self (Scripted.fresh (Scripted.with_retries 0)))) < 1 ∧
  Scripted.run Scripted.fail_raise_pass (Scripted.fresh (Scripted.with_retries 0))
    = (Raise "list index out of range", Scripted.fresh (Scripted.with_retries 0)).
Proof.
  split; [cbn; lia|].
  apply (execute_without_retries_returns_last_result
           (Scripted.task_func Scripted.fail_raise_pass)
           (Scripted.validation_func Scripted.fail_raise_pass)
           (Scripted.time_time 1) Scripted.time_sleep
           (Scripted.fresh (Scripted.with_retries 0))).
  cbn; lia.
Defined.

(** X3 on two attempts that repeat the same errors, with detection
    disabled. *)
Lemma X3_witness :
  enable_gaming_detection
    (config (self (Scripted.fresh (mkConfig 2 false true None false)))) = false ∧
  gaming_score
    (self (Scripted.run [Scripted.Validates Scripted.errors_a;
                         Scripted.Validates Scripted.errors_a]
             (Scripted.fresh (mkConfig 2 false true None false))).2) = 0%Q ∧
  detector_messages
    (out (Scripted.run [Scripted.Validates Scripted.errors_a;
                        Scripted.Validates Scripted.errors_a]
            (Scripted.fresh (mkConfig 2 false true None false))).2) = [].
Proof.
  split; [reflexivity|].
  apply (execute_without_detection_keeps_score
           (Scripted.task_func [Scripted.Validates Scripted.errors_a;
                                Scripted.Validates Scripted.errors_a])
           (Scripted.validation_func [Scripted.Validates Scripted.errors_a;
                                      Scripted.Validates Scripted.errors_a])
           (Scripted.time_time 1) Scripted.time_sleep
           (Scripted.fresh (mkConfig 2 false true None false))).
  reflexivity.
Defined.


(** X8 on a failing DGTS result. *)
Lemma X8_witness :
  primary_cause (_analyze_failure Scripted.mock_data) ≠ "Unknown" ∧
  _generate_fix_suggestions Scripted.mock_data (_analyze_failure Scripted.mock_data) ≠ [].
Proof.
  split; [discriminate|].
  apply (specific_cause_comes_with_suggestions Scripted.mock_data). discriminate.
Defined.

(** X10 on a ZeroTolerance result with one type error. *)
Lemma X10_witness :
  protocol (Scripted.verdict false (Some ZERO_TOLERANCE) ["Type Error in app.ts"])
    = Some ZERO_TOLERANCE ∧
  str_in "type error"
    (errors_str (Scripted.verdict false (Some ZERO_TOLERANCE) ["Type Error in app.ts"]))
    = true ∧
  ∃ before between,
    _generate_fix_suggestions
      (Scripted.verdict false (Some ZERO_TOLERANCE) ["Type Error in app.ts"])
      (_analyze_failure
         (Scripted.verdict false (Some ZERO_TOLERANCE) ["Type Error in app.ts"])) =
      before
      ++ [ "Fix TypeScript type errors - run: npx tsc --noEmit";
           "Add explicit types for all parameters and return values";
           "Remove 'any' types and use proper typing" ]
      ++ between
      ++ [ "Add error parameter to catch blocks: catch (error: unknown)";
           "Remove void error anti-patterns" ].
Proof.
  split; [reflexivity|]. split; [reflexivity|].
  apply (type_error_brings_catch_suggestions
           (Scripted.verdict false (Some ZERO_TOLERANCE) ["Type Error in app.ts"])
           (_analyze_failure
              (Scripted.verdict false (Some ZERO_TOLERANCE) ["Type Error in app.ts"])));
    reflexivity.
Defined.

(** ** Properties of the auto-discovery engine *)

Module DiscoveryProperties.
Import Discovery.

Section WithJson.

Variable json_loads : string → option json.
Variable json_dumps : Results → string.

Abbreviation has_dependency := (_has_package_dependency json_loads).
Abbreviation vitest_or_jest_found := (Discovery.vitest_or_jest_found json_loads).
Abbreviation mocha_found := (Discovery.mocha_found json_loads).
Abbreviation black_found := (Discovery.black_found json_loads).
Abbreviation test_frameworks_found := (Discovery.test_frameworks_found json_loads).
Abbreviation formatters_found := (Discovery.formatters_found json_loads).
Abbreviation found := (Discovery.found json_loads).
Abbreviation run := (discover_all json_loads json_dumps).

(** *** The probes see the project only *)
Lemma file_exists_ext s s' (H : project s = project s') f :
  _file_exists s f = _file_exists s' f.
Proof. unfold _file_exists. by rewrite H. Qed.

Lemma first_existing_ext s s' (H : project s = project s') l :
  first_existing s l = first_existing s' l.
Proof.
  unfold first_existing. induction l as [|f l IH]; [reflexivity|].
  cbn. by rewrite (file_exists_ext s s' H), IH.
Qed.

Lemma has_in_pyproject_ext s s' (H : project s = project s') x :
  _has_in_pyproject s x = _has_in_pyproject s' x.
Proof. unfold _has_in_pyproject, _file_exists, read_text. by rewrite H. Qed.

Lemma has_dependency_ext s s' (H : project s = project s') x :
  has_dependency s x = has_dependency s' x.
Proof. unfold _has_package_dependency, _file_exists, read_text. by rewrite H. Qed.

Lemma extends_refl s : extends s s [].
Proof. unfold extends. by rewrite app_nil_r. Qed.

Lemma extends_append s s' ts (c : bool) t :
  extends s s' ts →
  extends s (if c then append_tool s' t else s') (ts ++ if c then [t] else []).
Proof.
  intros (Hp & Hi & Ht). unfold extends.
  destruct c; cbn; rewrite ?app_nil_r, ?Ht, ?app_assoc; done.
Qed.

Lemma extends_append_either s s' ts (c1 c2 : bool) t1 t2 :
  extends s s' ts →
  extends s
    (if c1 then append_tool s' t1 else if c2 then append_tool s' t2 else s')
    (ts ++ if c1 then [t1] else if c2 then [t2] else []).
Proof.
  intros (Hp & Hi & Ht). unfold extends.
  destruct c1, c2; cbn; rewrite ?app_nil_r, ?Ht, ?app_assoc; done.
Qed.

Lemma extends_trans s s' s'' ts ts' :
  extends s s' ts → extends s' s'' ts' → extends s s'' (ts ++ ts').
Proof.
  intros (Hp & Hi & Ht) (Hp' & Hi' & Ht'). unfold extends.
  rewrite Hp', Hi', Ht', Ht, app_assoc. done.
Qed.

(** Turns the probes on [s'] into probes on [s], given that both look at
    the same project. *)
Ltac to_probes_on s s' H :=
  rewrite ?(file_exists_ext s' s H), ?(first_existing_ext s' s H),
    ?(has_in_pyproject_ext s' s H), ?(has_dependency_ext s' s H).

(** Names the state reached by the next conditional append after [s'],
    and records what it extends [s] by. *)
Ltac next_state s s' H s'' H' :=
  lazymatch goal with
  | |- context [if ?c then append_tool s' ?t else s'] =>
      set (s'' := if c then append_tool s' t else s');
      pose proof (extends_append s s' _ c t H : extends s s'' _) as H';
      to_probes_on s s'' (proj1 H')
  end.

Ltac last_state s s' H :=
  lazymatch goal with
  | |- extends s (if ?c then append_tool s' ?t else s') _ =>
      let Hlast := fresh "Hlast" in
      pose proof (extends_append s s' _ c t H) as Hlast;
      rewrite <- ?app_assoc in Hlast; exact Hlast
  end.

Lemma linters_spec s : extends s (_discover_linters s) (linters_found s).
Proof.
  unfold _discover_linters, linters_found, eslint_found, ruff_found, pylint_found.
  pose proof (extends_refl s) as H0.
  next_state s s H0 s1 H1. next_state s s1 H1 s2 H2.
  last_state s s2 H2.
Qed.

Lemma type_checkers_spec s :
  extends s (_discover_type_checkers s) (type_checkers_found s).
Proof.
  unfold _discover_type_checkers, type_checkers_found, typescript_found, mypy_found.
  pose proof (extends_refl s) as H0.
  next_state s s H0 s1 H1.
  last_state s s1 H1.
Qed.

Lemma test_frameworks_spec s :
  extends s (_discover_test_frameworks json_loads s) (test_frameworks_found s).
Proof.
  unfold _discover_test_frameworks, test_frameworks_found, vitest_or_jest_found,
    pytest_found, mocha_found.
  pose proof (extends_refl s) as H0.
  lazymatch goal with
  | |- context [if ?c then append_tool s ?t else if ?c' then append_tool s ?t' else s] =>
      set (s1 := if c then append_tool s t else if c' then append_tool s t' else s);
      pose proof (extends_append_either s s _ c c' t t' H0 : extends s s1 _) as H1
  end.
  to_probes_on s s1 (proj1 H1).
  next_state s s1 H1 s2 H2.
  last_state s s2 H2.
Qed.

Lemma formatters_spec s :
  extends s (_discover_formatters json_loads s) (formatters_found s).
Proof.
  unfold _discover_formatters, formatters_found, prettier_found, black_found.
  pose proof (extends_refl s) as H0.
  next_state s s H0 s1 H1.
  last_state s s1 H1.
Qed.

Lemma e2e_frameworks_spec s :
  extends s (_discover_e2e_frameworks s) (playwright_or_cypress_found s).
Proof.
  unfold _discover_e2e_frameworks, playwright_or_cypress_found.
  exact (extends_append_either s s _ _ _ _ _ (extends_refl s)).
Qed.


(** *** Projects that differ only in what the engine writes *)

Lemma agree_same s s' : project s' = project s → agree s s'.
Proof. intros H f _ _. by rewrite H. Qed.

Lemma file_exists_agree s s' (H : agree s s') f :
  f ≠ ".pai" → f ≠ ".pai/validation-config.json" →
  _file_exists s' f = _file_exists s f.
Proof. intros H1 H2. unfold _file_exists. by rewrite H. Qed.

Lemma dir_exists_agree s s' (H : agree s s') f :
  f ≠ ".pai" → f ≠ ".pai/validation-config.json" →
  _dir_exists s' f = _dir_exists s f.
Proof. intros H1 H2. unfold _dir_exists. by rewrite H. Qed.

Lemma has_in_pyproject_agree s s' (H : agree s s') x :
  _has_in_pyproject s' x = _has_in_pyproject s x.
Proof.
  unfold _has_in_pyproject, read_text.
  rewrite (file_exists_agree s s' H) by done. by rewrite H.
Qed.

Lemma has_dependency_agree s s' (H : agree s s') x :
  has_dependency s' x = has_dependency s x.
Proof.
  unfold _has_package_dependency, read_text.
  rewrite (file_exists_agree s s' H) by done. by rewrite H.
Qed.

(** Turns the probes on [s'] into probes on [s]. *)
Ltac agree_probes s s' H :=
  unfold first_existing; cbn [List.find];
  rewrite ?(file_exists_agree s s' H), ?(dir_exists_agree s s' H) by discriminate;
  rewrite ?(has_in_pyproject_agree s s' H), ?(has_dependency_agree s s' H).

Lemma linters_found_agree s s' : agree s s' → linters_found s' = linters_found s.
Proof.
  intros H. unfold linters_found, eslint_found, ruff_found, pylint_found.
  by agree_probes s s' H.
Qed.

Lemma type_checkers_found_agree s s' :
  agree s s' → type_checkers_found s' = type_checkers_found s.
Proof.
  intros H. unfold type_checkers_found, typescript_found, mypy_found.
  by agree_probes s s' H.
Qed.

Lemma test_frameworks_found_agree s s' :
  agree s s' → test_frameworks_found s' = test_frameworks_found s.
Proof.
  intros H. unfold test_frameworks_found, vitest_or_jest_found, pytest_found, mocha_found.
  by agree_probes s s' H.
Qed.

Lemma formatters_found_agree s s' : agree s s' → formatters_found s' = formatters_found s.
Proof.
  intros H. unfold formatters_found, prettier_found, black_found.
  by agree_probes s s' H.
Qed.

Lemma e2e_found_agree s s' :
  agree s s' → playwright_or_cypress_found s' = playwright_or_cypress_found s.
Proof. intros H. unfold playwright_or_cypress_found. by agree_probes s s' H. Qed.

Lemma found_agree s s' : agree s s' → found s' = found s.
Proof.
  intros H. unfold found.
  by rewrite (linters_found_agree s s' H), (type_checkers_found_agree s s' H),
    (test_frameworks_found_agree s s' H), (formatters_found_agree s s' H),
    (e2e_found_agree s s' H).
Qed.

Lemma analyze_project_agree s s' : agree s s' → _analyze_project s' = _analyze_project s.
Proof. intros H. unfold _analyze_project. by agree_probes s s' H. Qed.

Lemma discover_spec s : extends s (discover_tools json_loads s) (found s).
Proof.
  unfold discover_tools, found.
  pose proof (linters_spec s) as H1.
  pose proof (type_checkers_spec (_discover_linters s)) as H2.
  pose proof (extends_trans _ _ _ _ _ H1 H2) as H12.
  pose proof (test_frameworks_spec (_discover_type_checkers (_discover_linters s))) as H3.
  pose proof (extends_trans _ _ _ _ _ H12 H3) as H123.
  pose proof (formatters_spec
                (_discover_test_frameworks json_loads
                   (_discover_type_checkers (_discover_linters s)))) as H4.
  pose proof (extends_trans _ _ _ _ _ H123 H4) as H1234.
  pose proof (e2e_frameworks_spec
                (_discover_formatters json_loads
                   (_discover_test_frameworks json_loads
                      (_discover_type_checkers (_discover_linters s))))) as H5.
  pose proof (extends_trans _ _ _ _ _ H1234 H5) as Hall.
  rewrite (type_checkers_found_agree s _ (agree_same _ _ (proj1 H1))) in Hall.
  rewrite (test_frameworks_found_agree s _ (agree_same _ _ (proj1 H12))) in Hall.
  rewrite (formatters_found_agree s _ (agree_same _ _ (proj1 H123))) in Hall.
  rewrite (e2e_found_agree s _ (agree_same _ _ (proj1 H1234))) in Hall.
  rewrite <- !app_assoc in Hall. exact Hall.
Qed.

(** *** What is found, tool by tool *)

Ltac sublist_leaf :=
  cbn [fmap list_fmap name tool];
  repeat first [apply sublist_nil | apply sublist_skip | apply sublist_cons].

Lemma found_names_sublist s : (name <$> found s) `sublist_of` discovery_order.
Proof.
  unfold found, linters_found, type_checkers_found, test_frameworks_found,
    formatters_found.
  rewrite !fmap_app.
  change discovery_order
    with (["ESLint"] ++ ["Ruff"] ++ ["Pylint"] ++ ["TypeScript"] ++ ["MyPy"]
          ++ ["Vitest"; "Jest"] ++ ["Pytest"] ++ ["Mocha"] ++ ["Prettier"]
          ++ ["Black"] ++ ["Playwright"; "Cypress"]).
  rewrite <- !app_assoc.
  repeat apply sublist_app.
  - unfold eslint_found. case_match; sublist_leaf.
  - unfold ruff_found. case_match; sublist_leaf.
  - unfold pylint_found. case_match; sublist_leaf.
  - unfold typescript_found. case_match; sublist_leaf.
  - unfold mypy_found. case_match; sublist_leaf.
  - unfold vitest_or_jest_found. repeat case_match; sublist_leaf.
  - unfold pytest_found. case_match; sublist_leaf.
  - unfold mocha_found. case_match; sublist_leaf.
  - unfold prettier_found. case_match; sublist_leaf.
  - unfold black_found. case_match; sublist_leaf.
  - unfold playwright_or_cypress_found. repeat case_match; sublist_leaf.
Qed.

Ltac unfold_blocks :=
  unfold found, linters_found, type_checkers_found, test_frameworks_found,
    formatters_found.

Ltac block_cases :=
  unfold eslint_found, ruff_found, pylint_found, typescript_found,
    mypy_found, vitest_or_jest_found, pytest_found, mocha_found, prettier_found,
    black_found, playwright_or_cypress_found;
  repeat lazymatch goal with
    | |- context [if ?c then [?t] else _] => destruct c eqn:?
    end.

Lemma found_length s : (length (found s) ≤ 11)%nat.
Proof.
  unfold_blocks. rewrite !length_app.
  assert (length (eslint_found s) ≤ 1)%nat by (block_cases; cbn; lia).
  assert (length (ruff_found s) ≤ 1)%nat by (block_cases; cbn; lia).
  assert (length (pylint_found s) ≤ 1)%nat by (block_cases; cbn; lia).
  assert (length (typescript_found s) ≤ 1)%nat by (block_cases; cbn; lia).
  assert (length (mypy_found s) ≤ 1)%nat by (block_cases; cbn; lia).
  assert (length (vitest_or_jest_found s) ≤ 1)%nat by (block_cases; cbn; lia).
  assert (length (pytest_found s) ≤ 1)%nat by (block_cases; cbn; lia).
  assert (length (mocha_found s) ≤ 1)%nat by (block_cases; cbn; lia).
  assert (length (prettier_found s) ≤ 1)%nat by (block_cases; cbn; lia).
  assert (length (black_found s) ≤ 1)%nat by (block_cases; cbn; lia).
  assert (length (playwright_or_cypress_found s) ≤ 1)%nat by (block_cases; cbn; lia).
  lia.
Qed.

Lemma found_names_NoDup s : NoDup (name <$> found s).
Proof.
  apply (sublist_NoDup _ discovery_order); [|apply found_names_sublist].
  apply (bool_decide_unpack (NoDup _)); vm_compute; exact I.
Qed.

Lemma elem_of_if {A} (c : bool) (t x : A) :
  x ∈ (if c then [t] else []) ↔ c = true ∧ x = t.
Proof.
  destruct c.
  - rewrite list_elem_of_singleton. split; [by intros -> | by intros [_ ->]].
  - split; [intros H; by apply elem_of_nil in H | by intros [H _]].
Qed.

Lemma elem_of_if_else {A} (c c' : bool) (t t' x : A) :
  x ∈ (if c then [t] else if c' then [t'] else [])
  ↔ (c = true ∧ x = t) ∨ (c = false ∧ c' = true ∧ x = t').
Proof.
  destruct c.
  - rewrite list_elem_of_singleton.
    split; [by left | by intros [[_ ->]|[? _]]].
  - rewrite elem_of_if. split; [by right | by intros [[? _]|[_ ?]]].
Qed.

Lemma elem_of_app_iff {A} (x : A) l1 l2 P Q :
  (x ∈ l1 ↔ P) → (x ∈ l2 ↔ Q) → (x ∈ l1 ++ l2 ↔ P ∨ Q).
Proof. intros H1 H2. by rewrite elem_of_app, H1, H2. Qed.

Lemma file_exists_spec s f : _file_exists s f = true ↔ is_Some (project s !! f).
Proof. unfold _file_exists. by rewrite bool_decide_eq_true. Qed.

Lemma has_in_pyproject_exists s x :
  _has_in_pyproject s x = true → _file_exists s "pyproject.toml" = true.
Proof. unfold _has_in_pyproject. by destruct (_file_exists s "pyproject.toml"). Qed.

Lemma has_dependency_exists s x :
  has_dependency s x = true → _file_exists s "package.json" = true.
Proof. unfold _has_package_dependency. by destruct (_file_exists s "package.json"). Qed.

Lemma first_existing_exists s l f :
  first_existing s l = Some f → _file_exists s f = true.
Proof. intros H. by apply List.find_some in H as [_ H]. Qed.

(** Every tool found, with the condition under which it is. *)
Lemma elem_of_found s t :
  t ∈ found s ↔
    ((_file_exists s ".eslintrc.json" || _file_exists s ".eslintrc.js"
      || _file_exists s ".eslintrc.cjs")%bool = true ∧
     t = tool "ESLint" "linter"
           (first_existing s [".eslintrc.json"; ".eslintrc.js"; ".eslintrc.cjs"])
           "npx eslint . --ext .ts,.tsx,.js,.jsx") ∨
    ((_file_exists s "ruff.toml" || _has_in_pyproject s "ruff")%bool = true ∧
     t = tool "Ruff" "linter"
           (Some (if _file_exists s "ruff.toml" then "ruff.toml" else "pyproject.toml"))
           "ruff check .") ∨
    ((_file_exists s ".pylintrc" || _has_in_pyproject s "pylint")%bool = true ∧
     t = tool "Pylint" "linter"
           (Some (if _file_exists s ".pylintrc" then ".pylintrc" else "pyproject.toml"))
           "pylint **/*.py") ∨
    (_file_exists s "tsconfig.json" = true ∧
     t = tool "TypeScript" "type_checker" (Some "tsconfig.json") "npx tsc --noEmit") ∨
    ((_file_exists s "mypy.ini" || _has_in_pyproject s "mypy")%bool = true ∧
     t = tool "MyPy" "type_checker"
           (Some (if _file_exists s "mypy.ini" then "mypy.ini" else "pyproject.toml"))
           "mypy .") ∨
    ((has_dependency s "vitest" = true ∧
      t = tool "Vitest" "test_framework"
            (if _file_exists s "vitest.config.ts" then Some "vitest.config.ts" else None)
            "npm run test") ∨
     (has_dependency s "vitest" = false ∧ has_dependency s "jest" = true ∧
      t = tool "Jest" "test_framework"
            (if _file_exists s "jest.config.js" then Some "jest.config.js" else None)
            "npm test")) ∨
    ((_file_exists s "pytest.ini" || _has_in_pyproject s "pytest")%bool = true ∧
     t = tool "Pytest" "test_framework"
           (Some (if _file_exists s "pytest.ini" then "pytest.ini" else "pyproject.toml"))
           "pytest --cov --cov-report=term-missing") ∨
    (has_dependency s "mocha" = true ∧
     t = tool "Mocha" "test_framework"
           (if _file_exists s ".mocharc.json" then Some ".mocharc.json" else None)
           "npm test") ∨
    ((_file_exists s ".prettierrc" || _file_exists s ".prettierrc.json"
      || _file_exists s "prettier.config.js")%bool = true ∧
     t = tool "Prettier" "formatter"
           (first_existing s [".prettierrc"; ".prettierrc.json"; "prettier.config.js"])
           "npx prettier --check .") ∨
    ((_has_in_pyproject s "black" || has_dependency s "black")%bool = true ∧
     t = tool "Black" "formatter" (Some "pyproject.toml") "black --check .") ∨
    (((_file_exists s "playwright.config.ts"
       || _file_exists s "playwright.config.js")%bool = true ∧
      t = tool "Playwright" "e2e"
            (Some (if _file_exists s "playwright.config.ts"
                   then "playwright.config.ts" else "playwright.config.js"))
            "npx playwright test") ∨
     ((_file_exists s "playwright.config.ts"
       || _file_exists s "playwright.config.js")%bool = false ∧
      (_file_exists s "cypress.config.ts"
       || _file_exists s "cypress.config.js")%bool = true ∧
      t = tool "Cypress" "e2e"
            (Some (if _file_exists s "cypress.config.ts"
                   then "cypress.config.ts" else "cypress.config.js"))
            "npx cypress run")).
Proof.
  unfold_blocks.
  unfold eslint_found, ruff_found, pylint_found, typescript_found,
    mypy_found, vitest_or_jest_found, pytest_found, mocha_found, prettier_found,
    black_found, playwright_or_cypress_found.
  rewrite <- !app_assoc.
  repeat (apply elem_of_app_iff; [first [apply elem_of_if | apply elem_of_if_else]|]).
  apply elem_of_if_else.
Qed.

(** The name of a tool found tells under which condition it was. *)
Ltac found_cases H :=
  apply elem_of_found in H;
  destruct H as [[? ->]|[[? ->]|[[? ->]|[[? ->]|[[? ->]|[[[? ->]|(? & ? & ->)]|
                 [[? ->]|[[? ->]|[[? ->]|[[? ->]|[[? ->]|(? & ? & ->)]]]]]]]]]]].

Lemma elem_of_fmap_name (n : string) (ts : list DiscoveredTool) :
  n ∈ name <$> ts ↔ ∃ t, t ∈ ts ∧ name t = n.
Proof.
  rewrite list_elem_of_fmap.
  split; [intros (t & -> & Ht); by exists t | intros (t & Ht & <-); by exists t].
Qed.



(** *** What [discover_all] leaves behind *)

Lemma found_ext s s' : project s' = project s → found s' = found s.
Proof. intros H. apply found_agree. by apply agree_same. Qed.

Lemma analyze_project_ext s s' :
  project s' = project s → _analyze_project s' = _analyze_project s.
Proof. intros H. apply analyze_project_agree. by apply agree_same. Qed.

Lemma agree_write s s' f e :
  agree s s' → f = pai_dir ∨ f = config_path → agree s (write_entry s' f e).
Proof.
  intros H Hf g Hg1 Hg2. cbn.
  rewrite lookup_insert_ne; [by apply H|].
  unfold pai_dir, config_path in Hf. destruct Hf as [->| ->]; by intros <-.
Qed.

Lemma agree_refl s : agree s s.
Proof. by apply agree_same. Qed.

Lemma agree_trans s s' s'' : agree s s' → agree s' s'' → agree s s''.
Proof. intros H H' f H1 H2. rewrite H' by done. by apply H. Qed.

Lemma save_configuration_keeps s r :
  discovered_tools (_save_configuration json_dumps s r).2 = discovered_tools s ∧
  project_info (_save_configuration json_dumps s r).2 = project_info s ∧
  agree s (_save_configuration json_dumps s r).2.
Proof.
  unfold _save_configuration.
  destruct (project s !! pai_dir) as [[|text]|] eqn:Hpai; cbn [snd].
  - destruct (project s !! config_path) as [[|text]|]; cbn;
      repeat split; (apply agree_refl || (apply agree_write; [apply agree_refl | by right])).
  - repeat split; apply agree_refl.
  - destruct (project (write_entry s pai_dir Directory) !! config_path) as [[|text]|];
      cbn; repeat split;
      repeat first [apply agree_refl | apply agree_write; [|by (left + right)] ].
Qed.

(** The instance on which [discover_all] calls [_save_configuration]. *)
Lemma discovered_state s :
  extends (mkDiscovery (project s) (discovered_tools s) (Some (_analyze_project s)))
    (discover_tools json_loads
       (mkDiscovery (project s) (discovered_tools s) (Some (_analyze_project s))))
    (found s).
Proof.
  rewrite <- (found_ext s
    (mkDiscovery (project s) (discovered_tools s) (Some (_analyze_project s))))
    by done.
  apply discover_spec.
Qed.

Lemma discover_all_state s :
  discovered_tools (run s).2 = discovered_tools s ++ found s ∧
  project_info (run s).2 = Some (_analyze_project s) ∧
  agree s (run s).2.
Proof.
  unfold discover_all.
  destruct (discovered_state s) as (Hp & Hi & Ht).
  set (s1 := discover_tools json_loads _) in *.
  destruct (save_configuration_keeps s1 (_generate_results s1)) as (Kt & Ki & Kp).
  destruct (_save_configuration json_dumps s1 (_generate_results s1)) as [[e|] s2];
    cbn [snd] in *; rewrite Kt, Ki, Ht, Hi; (split; [done|split; [done|]]);
    (eapply agree_trans; [apply agree_same, Hp | exact Kp]).
Qed.


Lemma save_configuration_spec s r :
  _save_configuration json_dumps s r =
    match project s !! pai_dir, project s !! config_path with
    | Some (File _), _ => (Some FileExistsError, s)
    | Some Directory, Some Directory => (Some IsADirectoryError, s)
    | None, Some Directory => (Some IsADirectoryError, write_entry s pai_dir Directory)
    | Some Directory, _ => (None, write_entry s config_path (File (Some (json_dumps r))))
    | None, _ =>
        (None, write_entry (write_entry s pai_dir Directory) config_path
                 (File (Some (json_dumps r))))
    end.
Proof.
  unfold _save_configuration.
  destruct (project s !! pai_dir) as [[|text]|] eqn:Hpai; [done|done|].
  cbn [write_entry project]. rewrite lookup_insert_ne by done.
  by destruct (project s !! config_path) as [[|text]|].
Qed.

(** The results [discover_all] computes on [s]. *)
Lemma discover_all_spec s :
  ∃ s1,
    project s1 = project s ∧
    project_info s1 = Some (_analyze_project s) ∧
    discovered_tools s1 = discovered_tools s ++ found s ∧
    run s =
      match _save_configuration json_dumps s1 (_generate_results s1) with
      | (Some e, s2) => (inl e, s2)
      | (None, s2) => (inr (_generate_results s1), s2)
      end.
Proof.
  destruct (discovered_state s) as (Hp & Hi & Ht).
  eexists. split; [exact Hp|]. split; [exact Hi|]. split; [exact Ht|]. reflexivity.
Qed.

Lemma generate_results_ext s s' :
  discovered_tools s' = discovered_tools s → project_info s' = project_info s →
  _generate_results s' = _generate_results s.
Proof. unfold _generate_results. by intros -> ->. Qed.

(** X12: [discover_all] keeps the tools the instance already lists and
    appends what it finds: at most eleven tools, with distinct names, in
    the order ESLint, Ruff, Pylint, TypeScript, MyPy, Vitest or Jest,
    Pytest, Mocha, Prettier, Black, Playwright or Cypress; this holds
    whether or not saving the configuration raises afterwards. *)
Theorem discover_all_appends_known_tools_in_order s :
  ∃ ts, discovered_tools (run s).2 = discovered_tools s ++ ts ∧
        (name <$> ts) `sublist_of` discovery_order ∧
        NoDup (name <$> ts) ∧
        (length ts ≤ 11)%nat.
Proof.
  exists (found s). split; [apply discover_all_state|].
  split; [apply found_names_sublist|]. split; [apply found_names_NoDup|].
  apply found_length.
Qed.

Lemma fresh_tools fs : discovered_tools (run (init fs)).2 = found (init fs).
Proof. by destruct (discover_all_state (init fs)) as (-> & _). Qed.

Lemma name_found_Vitest s :
  "Vitest" ∈ name <$> found s ↔ has_dependency s "vitest" = true.
Proof.
  rewrite elem_of_fmap_name. split.
  - intros (t & Ht & Hn). found_cases Ht; try discriminate Hn. done.
  - intros H. eexists. split; [apply elem_of_found; do 5 right; left; left; by split | reflexivity].
Qed.

Lemma name_found_Jest s :
  "Jest" ∈ name <$> found s
  ↔ has_dependency s "vitest" = false ∧ has_dependency s "jest" = true.
Proof.
  rewrite elem_of_fmap_name. split.
  - intros (t & Ht & Hn). found_cases Ht; try discriminate Hn. done.
  - intros [H1 H2]. eexists. split; [apply elem_of_found; do 5 right; left; right; by split | reflexivity].
Qed.

Lemma name_found_Playwright s :
  "Playwright" ∈ name <$> found s
  ↔ (_file_exists s "playwright.config.ts"
     || _file_exists s "playwright.config.js")%bool = true.
Proof.
  rewrite elem_of_fmap_name. split.
  - intros (t & Ht & Hn). found_cases Ht; try discriminate Hn. done.
  - intros H. eexists. split; [apply elem_of_found; do 10 right; left; by split | reflexivity].
Qed.

Lemma name_found_Cypress s :
  "Cypress" ∈ name <$> found s
  ↔ (_file_exists s "playwright.config.ts"
     || _file_exists s "playwright.config.js")%bool = false ∧
    (_file_exists s "cypress.config.ts"
     || _file_exists s "cypress.config.js")%bool = true.
Proof.
  rewrite elem_of_fmap_name. split.
  - intros (t & Ht & Hn). found_cases Ht; try discriminate Hn. done.
  - intros [H1 H2]. eexists. split; [apply elem_of_found; do 10 right; right; by split | reflexivity].
Qed.

Lemma name_found_TypeScript s :
  "TypeScript" ∈ name <$> found s ↔ _file_exists s "tsconfig.json" = true.
Proof.
  rewrite elem_of_fmap_name. split.
  - intros (t & Ht & Hn). found_cases Ht; try discriminate Hn. done.
  - intros H. eexists. split; [apply elem_of_found; do 3 right; left; by split | reflexivity].
Qed.

Lemma exists_or_spec s f g :
  (_file_exists s f || _file_exists s g)%bool = true
  ↔ is_Some (project s !! f) ∨ is_Some (project s !! g).
Proof. by rewrite orb_true_iff, !file_exists_spec. Qed.

Lemma exists_or_none s f g :
  (_file_exists s f || _file_exists s g)%bool = false
  ↔ project s !! f = None ∧ project s !! g = None.
Proof.
  rewrite orb_false_iff, <- !not_true_iff_false, !file_exists_spec.
  by rewrite <- !eq_None_not_Some.
Qed.

(** X13: on a new instance, Jest is listed exactly when [package.json]
    names it as a dependency and Vitest is not listed, and Cypress exactly
    when one of its two configuration files exists and Playwright is not
    listed. *)
Theorem jest_and_cypress_are_second_choices fs :
  ("Jest" ∈ name <$> discovered_tools (run (init fs)).2
   ↔ has_dependency (init fs) "jest" = true ∧
     "Vitest" ∉ name <$> discovered_tools (run (init fs)).2) ∧
  ("Cypress" ∈ name <$> discovered_tools (run (init fs)).2
   ↔ (is_Some (fs !! "cypress.config.ts") ∨ is_Some (fs !! "cypress.config.js")) ∧
     "Playwright" ∉ name <$> discovered_tools (run (init fs)).2).
Proof.
  rewrite fresh_tools, name_found_Jest, name_found_Cypress, name_found_Vitest,
    name_found_Playwright.
  rewrite !not_true_iff_false, exists_or_spec. cbn [project init]. tauto.
Qed.


(** *** The layers of the results *)

Lemma names_of_types_app kinds l1 l2 :
  names_of_types kinds (l1 ++ l2) = names_of_types kinds l1 ++ names_of_types kinds l2.
Proof. unfold names_of_types. by rewrite List.filter_app, fmap_app. Qed.

Lemma names_of_types_all kinds l :
  Forall (λ t, type t ∈ kinds) l → names_of_types kinds l = name <$> l.
Proof.
  unfold names_of_types. induction 1 as [|t l Ht _ IH]; [done|].
  cbn. rewrite bool_decide_true by done. cbn. by f_equal.
Qed.

Lemma names_of_types_none kinds l :
  Forall (λ t, type t ∉ kinds) l → names_of_types kinds l = [].
Proof.
  unfold names_of_types. induction 1 as [|t l Ht _ IH]; [done|].
  cbn. by rewrite bool_decide_false by done.
Qed.

Ltac group_types :=
  rewrite ?Forall_app; repeat split; block_cases; repeat constructor.

Lemma linters_types s : Forall (λ t, type t = "linter") (linters_found s).
Proof. unfold linters_found. group_types. Qed.

Lemma type_checkers_types s :
  Forall (λ t, type t = "type_checker") (type_checkers_found s).
Proof. unfold type_checkers_found. group_types. Qed.

Lemma test_frameworks_types s :
  Forall (λ t, type t = "test_framework") (test_frameworks_found s).
Proof. unfold test_frameworks_found. group_types. Qed.

Lemma formatters_types s : Forall (λ t, type t = "formatter") (formatters_found s).
Proof. unfold formatters_found. group_types. Qed.

Lemma e2e_types s : Forall (λ t, type t = "e2e") (playwright_or_cypress_found s).
Proof. group_types. Qed.

Lemma names_of_kind kinds kind l :
  Forall (λ t, type t = kind) l →
  names_of_types kinds l = if bool_decide (kind ∈ kinds) then name <$> l else [].
Proof.
  intros H. case_bool_decide as Hk.
  - apply names_of_types_all. eapply Forall_impl; [exact H|]. by intros t ->.
  - apply names_of_types_none. eapply Forall_impl; [exact H|]. by intros t ->.
Qed.

Lemma names_of_types_found kinds s :
  names_of_types kinds (found s) =
    (if bool_decide ("linter" ∈ kinds) then name <$> linters_found s else [])
    ++ (if bool_decide ("type_checker" ∈ kinds) then name <$> type_checkers_found s else [])
    ++ (if bool_decide ("test_framework" ∈ kinds)
        then name <$> test_frameworks_found s else [])
    ++ (if bool_decide ("formatter" ∈ kinds) then name <$> formatters_found s else [])
    ++ (if bool_decide ("e2e" ∈ kinds) then name <$> playwright_or_cypress_found s else []).
Proof.
  unfold found. rewrite !names_of_types_app.
  by rewrite (names_of_kind _ _ _ (linters_types s)),
    (names_of_kind _ _ _ (type_checkers_types s)),
    (names_of_kind _ _ _ (test_frameworks_types s)),
    (names_of_kind _ _ _ (formatters_types s)),
    (names_of_kind _ _ _ (e2e_types s)).
Qed.

Lemma formatters_names s :
  (name <$> formatters_found s) `sublist_of` ["Prettier"; "Black"].
Proof.
  unfold formatters_found. rewrite fmap_app.
  apply (sublist_app _ ["Prettier"] _ ["Black"]).
  - unfold prettier_found. case_match; sublist_leaf.
  - unfold black_found. case_match; sublist_leaf.
Qed.

Lemma fresh_results fs r :
  (run (init fs)).1 = inr r →
  r = _generate_results (mkDiscovery fs (found (init fs)) (Some (_analyze_project (init fs)))).
Proof.
  destruct (discover_all_spec (init fs)) as (s1 & Hp & Hi & Ht & ->).
  destruct (_save_configuration json_dumps s1 (_generate_results s1)) as [[e|] s2];
    cbn [fst]; [discriminate|].
  intros [= <-]. by apply generate_results_ext.
Qed.

(** X14: in the results of a new instance, the three validation layers
    list, in discovery order, every discovered tool except the formatters
    (Prettier, Black), which are in no layer. *)
Theorem layers_list_every_tool_but_the_formatters fs r :
  (run (init fs)).1 = inr r →
  ∃ formatters,
    formatters `sublist_of` ["Prettier"; "Black"] ∧
    name <$> results_discovered_tools r =
      layer1_static_analysis (validation_layers r)
      ++ layer2_unit_tests (validation_layers r)
      ++ formatters
      ++ layer3_e2e_tests (validation_layers r).
Proof.
  intros ->%fresh_results. exists (name <$> formatters_found (init fs)).
  split; [apply formatters_names|].
  cbn [_generate_results results_discovered_tools validation_layers
       layer1_static_analysis layer2_unit_tests layer3_e2e_tests discovered_tools].
  rewrite !names_of_types_found.
  repeat match goal with
    | |- context [bool_decide ?P] =>
        let b := eval vm_compute in (bool_decide P) in change (bool_decide P) with b
    end.
  unfold found. by rewrite !fmap_app, !app_nil_r, <- !app_assoc.
Qed.


(** *** The configuration files of the tools *)

Lemma either_exists s f x :
  (_file_exists s f || _has_in_pyproject s x)%bool = true →
  _file_exists s (if _file_exists s f then f else "pyproject.toml") = true.
Proof.
  destruct (_file_exists s f) eqn:Hf; [done|]. cbn. apply has_in_pyproject_exists.
Qed.

Lemma first_of_two_exists s f g :
  (_file_exists s f || _file_exists s g)%bool = true →
  _file_exists s (if _file_exists s f then f else g) = true.
Proof. by destruct (_file_exists s f) eqn:Hf. Qed.

Lemma optional_exists s f g :
  (if _file_exists s f then Some f else None) = Some g → _file_exists s g = true.
Proof. destruct (_file_exists s f) eqn:Hf; [by intros [= <-] | done]. Qed.

Lemma found_config_file_exists s t f :
  t ∈ found s → name t ≠ "Black" → config_file t = Some f → _file_exists s f = true.
Proof.
  intros Ht Hn Hf. found_cases Ht; cbn [config_file tool name] in Hf, Hn;
    first [ by destruct Hn
          | by apply first_existing_exists in Hf
          | by apply optional_exists in Hf
          | injection Hf as <-;
            first [ by eapply either_exists; eassumption
                  | by apply first_of_two_exists | done ] ].
Qed.

(** X15: on a new instance, the configuration file that a discovered
    tool other than Black names exists in the project. *)
Theorem discovered_config_files_exist fs t f :
  t ∈ discovered_tools (run (init fs)).2 →
  name t ≠ "Black" →
  config_file t = Some f →
  is_Some (fs !! f).
Proof.
  rewrite fresh_tools. intros Ht Hn Hf.
  by apply (file_exists_spec (init fs)), (found_config_file_exists _ t).
Qed.

(** X16: when [package.json] lists [black] as a dependency, Black is
    reported with [pyproject.toml] as its configuration file, whether or
    not that file exists. *)
Theorem black_from_package_json_names_pyproject s :
  has_dependency s "black" = true →
  tool "Black" "formatter" (Some "pyproject.toml") "black --check ."
    ∈ discovered_tools (run s).2.
Proof.
  intros H. destruct (discover_all_state s) as (-> & _).
  apply elem_of_app. right. apply elem_of_found. do 9 right. left.
  split; [|done]. rewrite H. apply orb_true_r.
Qed.

(** *** The project information *)

(** X17: after [discover_all] on a new instance the project information
    matches the tools: the project is TypeScript exactly when the
    TypeScript checker is listed, a listed Vitest, Jest or Mocha means a
    TypeScript or JavaScript project, and a tool other than Black that is
    configured in [pyproject.toml] means a Python project. *)
Theorem project_info_agrees_with_tools fs :
  ∃ info,
    project_info (run (init fs)).2 = Some info ∧
    (is_typescript info = true
     ↔ "TypeScript" ∈ name <$> discovered_tools (run (init fs)).2) ∧
    (∀ t, t ∈ discovered_tools (run (init fs)).2 →
          name t ∈ ["Vitest"; "Jest"; "Mocha"] →
          is_typescript info = true ∨ is_javascript info = true) ∧
    (∀ t, t ∈ discovered_tools (run (init fs)).2 →
          config_file t = Some "pyproject.toml" → name t ≠ "Black" →
          is_python info = true).
Proof.
  exists (_analyze_project (init fs)).
  split; [apply discover_all_state|]. rewrite fresh_tools.
  split; [by rewrite name_found_TypeScript|].
  assert (∀ x, has_dependency (init fs) x = true →
               is_typescript (_analyze_project (init fs)) = true ∨
               is_javascript (_analyze_project (init fs)) = true) as Hjs.
  { intros x Hx%has_dependency_exists.
    unfold _analyze_project. cbn [is_typescript is_javascript]. rewrite Hx.
    destruct (_file_exists (init fs) "tsconfig.json"); [by left | by right]. }
  split.
  - intros t Ht Hn. rewrite !elem_of_cons, elem_of_nil in Hn.
    destruct Hn as [Hn|[Hn|[Hn|[]]]]; found_cases Ht; cbn [name tool] in Hn;
      try discriminate Hn; eauto.
  - intros t Ht Hf Hn.
    apply (found_config_file_exists _ _ _ Ht Hn) in Hf.
    unfold _analyze_project. cbn [is_python]. by rewrite Hf.
Qed.


Lemma file_exists_false s f : _file_exists s f = false ↔ project s !! f = None.
Proof.
  by rewrite <- not_true_iff_false, file_exists_spec, <- eq_None_not_Some.
Qed.

(** X18: [_analyze_project] reports no package manager exactly when
    none of the seven lock files exists and the project is not Python,
    and [pip] exactly when none exists and the project is Python;
    [package-lock.json] gives [npm] whatever else exists; and a project
    is never both TypeScript and JavaScript. *)
Theorem package_manager_follows_first_lock_file s :
  (package_manager (_analyze_project s) = None
   ↔ is_python (_analyze_project s) = false ∧
     Forall (λ f, project s !! f = None) lock_files) ∧
  (package_manager (_analyze_project s) = Some "pip"
   ↔ is_python (_analyze_project s) = true ∧
     Forall (λ f, project s !! f = None) lock_files) ∧
  (is_Some (project s !! "package-lock.json")
   → package_manager (_analyze_project s) = Some "npm") ∧
  (is_typescript (_analyze_project s) && is_javascript (_analyze_project s))%bool = false.
Proof.
  unfold _analyze_project, lock_files.
  cbn [package_manager is_python is_typescript is_javascript].
  rewrite !Forall_cons, Forall_nil, <- !file_exists_false, <- file_exists_spec.
  split; [|split; [|split]].
  - repeat (lazymatch goal with
            | |- context [if _file_exists s ?f then _ else _] =>
                destruct (_file_exists s f); [by split; [|intros ?; destruct_and!]|]
            end).
    destruct (_ || _ || _)%bool; by split; [|intros ?; destruct_and?].
  - repeat (lazymatch goal with
            | |- context [if _file_exists s ?f then _ else _] =>
                destruct (_file_exists s f); [by split; [|intros ?; destruct_and!]|]
            end).
    destruct (_ || _ || _)%bool; by split; [|intros ?; destruct_and?].
  - by intros ->.
  - destruct (_file_exists s "tsconfig.json"); [apply andb_false_r | done].
Qed.


(** *** Calling [discover_all] again *)

(** X19: a second [discover_all] on the same instance does not start
    from an empty list: it appends the same tools once more, so every
    tool found is listed twice, and it computes the same project
    information. *)
Theorem second_discover_all_lists_every_tool_twice s :
  ∃ ts,
    discovered_tools (run s).2 = discovered_tools s ++ ts ∧
    discovered_tools (run (run s).2).2 = discovered_tools s ++ ts ++ ts ∧
    project_info (run (run s).2).2 = project_info (run s).2.
Proof.
  exists (found s).
  destruct (discover_all_state s) as (Ht & Hi & Hp).
  destruct (discover_all_state (run s).2) as (Ht' & Hi' & _).
  rewrite (found_agree _ _ Hp) in Ht'. rewrite (analyze_project_agree _ _ Hp) in Hi'.
  rewrite Ht', Hi', Ht, Hi. by rewrite <- app_assoc.
Qed.

(** The outcome of [discover_all] and the project it leaves, by what
    the two paths it writes lead to. *)
Lemma discover_all_outcome s :
  ∃ r,
    r = _generate_results
          (mkDiscovery (project s) (discovered_tools s ++ found s)
             (Some (_analyze_project s))) ∧
    ((run s).1, project (run s).2) =
      match project s !! pai_dir, project s !! config_path with
      | Some (File _), _ => (inl FileExistsError, project s)
      | Some Directory, Some Directory => (inl IsADirectoryError, project s)
      | None, Some Directory =>
          (inl IsADirectoryError, <[pai_dir := Directory]> (project s))
      | Some Directory, _ =>
          (inr r, <[config_path := File (Some (json_dumps r))]> (project s))
      | None, _ =>
          (inr r, <[config_path := File (Some (json_dumps r))]>
                    (<[pai_dir := Directory]> (project s)))
      end.
Proof.
  destruct (discover_all_spec s) as (s1 & Hp & Hi & Ht & ->).
  eexists. split; [reflexivity|].
  rewrite save_configuration_spec, Hp.
  rewrite (generate_results_ext
             (mkDiscovery (project s) (discovered_tools s ++ found s)
                (Some (_analyze_project s))) s1) by done.
  destruct (project s !! pai_dir) as [[|?]|], (project s !! config_path) as [[|?]|];
    cbn; by rewrite ?Hp.
Qed.

Lemma agree_project s s' s'' : project s'' = project s' → agree s s' → agree s s''.
Proof. intros H Hagree f H1 H2. rewrite H. by apply Hagree. Qed.

(** X20: running [discover_all] on a new instance over the project as
    the first run left it gives the same outcome as the first run, the
    same results or the same exception: what the engine writes does not
    change what it discovers. *)
Theorem discover_all_again_on_the_project_gives_the_same fs :
  (run (init (project (run (init fs)).2))).1 = (run (init fs)).1.
Proof.
  destruct (discover_all_state (init fs)) as (_ & _ & Hagree).
  destruct (discover_all_outcome (init fs)) as (r & Hr & H).
  destruct (run (init fs)) as [outcome s1]. cbn [fst snd] in *.
  assert (agree (init fs) (init (project s1))) as Hagree'.
  { by apply (agree_project _ s1). }
  destruct (discover_all_outcome (init (project s1))) as (r' & Hr' & H').
  assert (r' = r) as ->.
  { rewrite Hr, Hr'. rewrite (found_agree _ _ Hagree'), (analyze_project_agree _ _ Hagree').
    by apply generate_results_ext. }
  clear Hr Hr' Hagree Hagree'.
  destruct (run (init (project s1))) as [outcome' s2]. cbn [fst snd project init] in *.
  destruct (fs !! pai_dir) as [[|?]|] eqn:Hpai, (fs !! config_path) as [[|?]|] eqn:Hcfg;
    injection H as -> H; rewrite H in H';
    rewrite ?lookup_insert_eq, ?lookup_insert_ne, ?lookup_insert_eq, ?Hpai, ?Hcfg in H'
      by (unfold pai_dir, config_path; discriminate);
    by injection H' as -> _.
Qed.

(** X21: [discover_all] raises [FileExistsError] exactly when [.pai] is
    a file, and then leaves the project as it was; it raises
    [IsADirectoryError] exactly when [.pai] is not a file and
    [.pai/validation-config.json] is a directory. *)
Theorem discover_all_raises_for_blocked_paths_only s :
  ((run s).1 = inl FileExistsError ↔ ∃ text, project s !! ".pai" = Some (File text)) ∧
  ((run s).1 = inl IsADirectoryError
   ↔ (∀ text, project s !! ".pai" ≠ Some (File text)) ∧
     project s !! ".pai/validation-config.json" = Some Directory) ∧
  ((run s).1 = inl FileExistsError → project (run s).2 = project s).
Proof.
  destruct (discover_all_outcome s) as (r & _ & H).
  unfold pai_dir, config_path in H.
  destruct (run s) as [outcome s1]. cbn [fst snd] in *.
  destruct (project s !! ".pai") as [[|?]|],
           (project s !! ".pai/validation-config.json") as [[|?]|];
    injection H as -> H; (split; [|split]); try done;
    (split; [try done; try (intros _; by eexists) | ]);
    try (by intros [? ?]); try (by intros [H' _]; destruct (H' text)).
Qed.

(** X22: when [discover_all] returns, the configuration file holds the
    serialisation of the returned results, [.pai] is a directory, no
    other path of the project has changed, and the results carry the
    instance's tool list and project information. *)
Theorem discover_all_saves_what_it_returns s r :
  (run s).1 = inr r →
  project (run s).2 !! ".pai/validation-config.json" = Some (File (Some (json_dumps r))) ∧
  project (run s).2 !! ".pai" = Some Directory ∧
  (∀ f, f ≠ ".pai" → f ≠ ".pai/validation-config.json" →
        project (run s).2 !! f = project s !! f) ∧
  results_discovered_tools r = discovered_tools (run s).2 ∧
  results_project_info r = project_info (run s).2.
Proof.
  intros Hrun.
  destruct (discover_all_state s) as (Ht & Hi & Hagree).
  destruct (discover_all_outcome s) as (r' & Hr & H).
  unfold pai_dir, config_path in H. rewrite Hrun in H. clear Hrun.
  destruct (run s) as [outcome s1]. cbn [fst snd] in *.
  assert (r = r' ∧
          project s1 !! ".pai/validation-config.json"
            = Some (File (Some (json_dumps r))) ∧
          project s1 !! ".pai" = Some Directory) as (-> & Hcfg & Hpai).
  { destruct (project s !! ".pai") as [[|?]|] eqn:Hpai,
             (project s !! ".pai/validation-config.json") as [[|?]|] eqn:Hcfg;
      injection H as H1 H2; try discriminate H1;
      rewrite H2, H1; (split; [done|]);
      by rewrite lookup_insert_eq, ?lookup_insert_ne, ?lookup_insert_eq by done. }
  split; [exact Hcfg|]. split; [exact Hpai|]. split; [exact Hagree|].
  by rewrite Hr, Ht, Hi.
Qed.

(** *** A [package.json] that cannot be used *)

Lemma no_dependency_without_object s package :
  (∀ text data, read_text s "package.json" = Some text →
                json_loads text ≠ Some (JObject data)) →
  has_dependency s package = false.
Proof.
  intros H. unfold _has_package_dependency.
  destruct (negb (_file_exists s "package.json")); [done|].
  destruct (read_text s "package.json") as [text|] eqn:Htext; [|done].
  destruct (json_loads text) as [[| | | | |data]|] eqn:Hjson; try done.
  by destruct (H text data).
Qed.

(** X6: when [package.json] is missing, cannot be read as text, is not
    JSON, or holds JSON that is not an object, [discover_all] on a new
    instance lists none of Vitest, Jest and Mocha, and lists Black only
    for a section of [pyproject.toml]. *)
Theorem unusable_package_json_gives_no_dependency fs t :
  (∀ text data, read_text (init fs) "package.json" = Some text →
                json_loads text ≠ Some (JObject data)) →
  t ∈ discovered_tools (run (init fs)).2 →
  (name t ∉ ["Vitest"; "Jest"; "Mocha"]) ∧
  (name t = "Black" → _has_in_pyproject (init fs) "black" = true).
Proof.
  intros H Ht. rewrite fresh_tools in Ht.
  pose proof (λ package, no_dependency_without_object (init fs) package H) as Hno.
  rewrite !not_elem_of_cons.
  found_cases Ht; cbn [name tool]; rewrite ?Hno in *; try discriminate;
    (split; [repeat split; first [discriminate | apply not_elem_of_nil] | try discriminate]).
  intros _. by destruct (_has_in_pyproject (init fs) "black").
Qed.

End WithJson.

(** *** The sample project *)

Abbreviation sample_run :=
  (discover_all sample_json_loads sample_json_dumps (init sample_project)).

Lemma sample_run_returns : sample_run.1 = inr sample_results.
Proof. vm_compute. reflexivity. Qed.

(** X14 on the sample project: Black is in no layer. *)
Lemma X14_witness :
  sample_run.1 = inr sample_results ∧
  ∃ formatters,
    formatters `sublist_of` ["Prettier"; "Black"] ∧
    ["ESLint"; "TypeScript"; "Vitest"; "Black"; "Cypress"] =
      ["ESLint"; "TypeScript"] ++ ["Vitest"] ++ formatters ++ ["Cypress"].
Proof.
  split; [exact sample_run_returns|].
  exact (layers_list_every_tool_but_the_formatters sample_json_loads sample_json_dumps
           sample_project sample_results sample_run_returns).
Defined.

(** X15 on the sample project: the configuration file of ESLint. *)
Lemma X15_witness :
  tool "ESLint" "linter" (Some ".eslintrc.json") "npx eslint . --ext .ts,.tsx,.js,.jsx"
    ∈ discovered_tools sample_run.2 ∧
  is_Some (sample_project !! ".eslintrc.json").
Proof.
  assert (tool "ESLint" "linter" (Some ".eslintrc.json")
            "npx eslint . --ext .ts,.tsx,.js,.jsx" ∈ discovered_tools sample_run.2) as H.
  { vm_compute. left. }
  split; [exact H|].
  apply (discovered_config_files_exist sample_json_loads sample_json_dumps sample_project
           _ ".eslintrc.json" H); [discriminate | reflexivity].
Defined.

(** X16 on the sample project, which has no [pyproject.toml]. *)
Lemma X16_witness :
  _has_package_dependency sample_json_loads (init sample_project) "black" = true ∧
  sample_project !! "pyproject.toml" = None ∧
  tool "Black" "formatter" (Some "pyproject.toml") "black --check ."
    ∈ discovered_tools sample_run.2.
Proof.
  split; [vm_compute; reflexivity|]. split; [vm_compute; reflexivity|].
  apply (black_from_package_json_names_pyproject sample_json_loads sample_json_dumps
           (init sample_project)).
  vm_compute. reflexivity.
Defined.

(** X22 on the sample project. *)
Lemma X22_witness :
  sample_run.1 = inr sample_results ∧
  project sample_run.2 !! ".pai/validation-config.json"
    = Some (File (Some "ESLint,TypeScript,Vitest,Black,Cypress")) ∧
  project sample_run.2 !! ".pai" = Some Directory.
Proof.
  split; [exact sample_run_returns|].
  destruct (discover_all_saves_what_it_returns sample_json_loads sample_json_dumps
              (init sample_project) sample_results sample_run_returns)
    as (Hsaved & Hdir & _).
  split; [exact Hsaved | exact Hdir].
Defined.

(** X6 on the sample project with a directory in the place of
    [package.json]: ESLint is listed, and is none of the three. *)
Lemma X6_witness :
  (∀ text data,
     read_text (init (<["package.json" := Directory]> sample_project)) "package.json"
       = Some text →
     sample_json_loads text ≠ Some (JObject data)) ∧
  tool "ESLint" "linter" (Some ".eslintrc.json") "npx eslint . --ext .ts,.tsx,.js,.jsx"
    ∈ discovered_tools
        (discover_all sample_json_loads sample_json_dumps
           (init (<["package.json" := Directory]> sample_project))).2 ∧
  "ESLint" ∉ ["Vitest"; "Jest"; "Mocha"].
Proof.
  assert (∀ text data,
     read_text (init (<["package.json" := Directory]> sample_project)) "package.json"
       = Some text →
     sample_json_loads text ≠ Some (JObject data)) as Hunusable.
  { intros text data Htext. vm_compute in Htext. discriminate Htext. }
  assert (tool "ESLint" "linter" (Some ".eslintrc.json")
            "npx eslint . --ext .ts,.tsx,.js,.jsx"
          ∈ discovered_tools
              (discover_all sample_json_loads sample_json_dumps
                 (init (<["package.json" := Directory]> sample_project))).2) as Hlisted.
  { vm_compute. left. }
  split; [exact Hunusable|]. split; [exact Hlisted|].
  exact (proj1 (unusable_package_json_gives_no_dependency sample_json_loads
                  sample_json_dumps _ _ Hunusable Hlisted)).
Defined.

End DiscoveryProperties.
